(** * Mobile Guard: the risk-assessment and report-composition pipeline

    A shallow embedding of [report_compose.py] (class [ReportComposer]), of
    [APKAnalyzerApp.determine_maliciousness] from [interface.py] with the two
    metrics of [prometheus.py] it updates, and of the front end of
    [apk_analyzer.py] ([analyze_apk], [process_apk] and the report
    [analyze_single_apk] composes), together with the properties of the
    pipeline: dangerous-permission extraction, the suspicious score, the two
    risk tiers, warnings, recommendations, the composed report, its writers
    and the batch save.

    Python values are dynamically typed, so the embedding works over a small
    universe [pyval] of values: None, integers, strings, lists, and
    dictionaries with string keys.  Bytes, tuples, sets, floats and objects
    of other classes are outside it; a property about values that are not
    of the expected type names the kinds of value it covers.  Every
    operation that Python may abort with an exception returns a [result].

    Modelling choices:
    - a Python string is the Rocq [string] of the bytes of its UTF-8
      encoding, a lone surrogate (which [os.fsdecode] gives for a file name
      that is not UTF-8) being the three bytes of its generalised encoding;
      [len] and iteration go by characters, not bytes; whether a text can be
      encoded, hence written to a file, is a parameter ([encodable]);
    - [str.lower] and [repr] belong to the Python runtime and are taken as
      parameters ([PyRuntime]); [ascii_runtime] instantiates them for ASCII
      text;
    - the float that accumulates the score only ever holds multiples of one
      half, which are exact, so a fraction of [Q] stands for it;
    - [datetime.now()] is an argument of the functions that read the clock;
    - files are a map from paths to contents that the writers update; which
      paths can be opened, which texts can be encoded and the text of the
      structured-data, tabular and plain-text formats are parameters
      ([World]); [modelled_world] fills in the rows of the tabular form and
      the plain text from the source, leaving [json.dump] and the dialect of
      [csv.writer] open;
    - androguard is a parameter ([Androguard]): whether it is installed and
      what it answers, or raises, on a package;
    - paths are POSIX paths, as on the devices the program targets;
    - [print] in [save_report] is modelled by what it can do to the caller:
      it raises when the console cannot take the text ([can_print]); what
      the console shows, and the [print] calls of the other functions, are
      not modelled. *)

From Stdlib Require Import String Ascii List ZArith QArith Lia Bool.
From Stdlib Require Import Qround DecimalString.
Import ListNotations.

Local Open Scope string_scope.
Local Open Scope list_scope.
Local Open Scope Z_scope.

(* ===================================================================== *)
(** ** Exceptions *)
(* ===================================================================== *)

(** The exception classes the modelled code can meet. *)
Inductive pyexn : Type :=
| AttributeError
| TypeError
| KeyError
| OSError
| UnicodeEncodeError.

(** The outcome of a Python expression or statement block. *)
Inductive result (A : Type) : Type :=
| Ok (a : A)
| Raise (e : pyexn).

Arguments Ok {A} a.
Arguments Raise {A} e.

Definition bind {A B : Type} (c : result A) (k : A -> result B) : result B :=
  match c with
  | Ok a => k a
  | Raise e => Raise e
  end.

Notation "x <- c ;; k" := (bind c (fun x => k))
  (at level 61, c at next level, right associativity).


(* ===================================================================== *)
(** ** Python values *)
(* ===================================================================== *)

(** The fragment of Python's value universe that the pipeline handles.
    A dictionary keeps its insertion order, which [items()] exposes, so it
    is an association list; a key occurs once in a dictionary built by
    [dict_set], and lookup takes the first binding. *)
#[warnings="-register-all"]
Inductive pyval : Type :=
| PNone
| PInt (z : Z)
| PStr (s : string)
| PList (l : list pyval)
| PDict (d : list (string * pyval)).

Definition dict : Type := list (string * pyval).

Fixpoint dict_lookup (k : string) (d : dict) : option pyval :=
  match d with
  | [] => None
  | (k', v) :: r => if String.eqb k' k then Some v else dict_lookup k r
  end.

(** [d.get(k, default)] *)
Definition dict_get (d : dict) (k : string) (default : pyval) : pyval :=
  match dict_lookup k d with
  | Some v => v
  | None => default
  end.

(** [d[k] = v]: an existing key keeps its position. *)
Fixpoint dict_set (d : dict) (k : string) (v : pyval) : dict :=
  match d with
  | [] => [(k, v)]
  | (k', v') :: r =>
      if String.eqb k' k then (k', v) :: r else (k', v') :: dict_set r k v
  end.

(** The keys of a dictionary, each once, in order of first binding. *)
Fixpoint dict_keys (d : dict) : list string :=
  match d with
  | [] => []
  | (k, _) :: r => k :: filter (fun k' => negb (String.eqb k' k)) (dict_keys r)
  end.

(** [v.get(k, default)]: only dictionaries have the method. *)
Definition py_get (v : pyval) (k : string) (default : pyval) : result pyval :=
  match v with
  | PDict d => Ok (dict_get d k default)
  | _ => Raise AttributeError
  end.

(** A byte that continues a character in UTF-8: [10xxxxxx]. *)
Definition continuation (c : ascii) : bool :=
  match c with
  | Ascii _ _ _ _ _ _ b6 b7 => (b7 && negb b6)%bool
  end.

(** The one-character strings of a string, as iteration yields them: a
    byte joins the character before it when it continues it. *)
Definition starts_inside (s : string) : bool :=
  match s with
  | String d _ => continuation d
  | EmptyString => false
  end.

Fixpoint chars (s : string) : list string :=
  match s with
  | EmptyString => []
  | String c r =>
      match chars r with
      | g :: gs =>
          if starts_inside r then String c g :: gs
          else String c EmptyString :: g :: gs
      | [] => [String c EmptyString]
      end
  end.

(** [len(v)] *)
Definition py_len (v : pyval) : result Z :=
  match v with
  | PStr s => Ok (Z.of_nat (List.length (chars s)))
  | PList l => Ok (Z.of_nat (List.length l))
  | PDict d => Ok (Z.of_nat (List.length (dict_keys d)))
  | PNone | PInt _ => Raise TypeError
  end.

(** [for x in v]: the elements a loop over [v] visits. *)
Definition py_iter (v : pyval) : result (list pyval) :=
  match v with
  | PStr s => Ok (map PStr (chars s))
  | PList l => Ok l
  | PDict d => Ok (map PStr (dict_keys d))
  | PNone | PInt _ => Raise TypeError
  end.

(** Truth value of [v] in a condition. *)
Definition py_truthy (v : pyval) : bool :=
  match v with
  | PNone => false
  | PInt z => negb (z =? 0)
  | PStr s => negb (String.eqb s EmptyString)
  | PList l => match l with [] => false | _ => true end
  | PDict d => match d with [] => false | _ => true end
  end.

(** [v == s] for a string literal [s]. *)
Definition py_eq_str (v : pyval) (s : string) : bool :=
  match v with
  | PStr t => String.eqb t s
  | _ => false
  end.

(** [v > n] for an integer literal [n]. *)
Definition py_gt_int (v : pyval) (n : Z) : result bool :=
  match v with
  | PInt z => Ok (n <? z)
  | _ => Raise TypeError
  end.

(** Decimal rendering of an integer, as [str] and f-strings give it. *)
Definition Z_to_string (z : Z) : string :=
  NilZero.string_of_int (Z.to_int z).

(** [d[k]]: a missing key is an error, and only containers subscript. *)
Definition py_getitem (v : pyval) (k : string) : result pyval :=
  match v with
  | PDict d =>
      match dict_lookup k d with
      | Some x => Ok x
      | None => Raise KeyError
      end
  | _ => Raise TypeError
  end.

(* ===================================================================== *)
(** ** The clock *)
(* ===================================================================== *)

(** The value of [datetime.now()]. *)
Record datetime : Type := {
  year : Z;
  month : Z;
  day : Z;
  hour : Z;
  minute : Z;
  second : Z;
  microsecond : Z
}.

Fixpoint zeros (n : nat) : string :=
  match n with
  | O => EmptyString
  | S m => String "0" (zeros m)
  end.

(** [%0wd] *)
Definition pad (w : nat) (z : Z) : string :=
  let s := Z_to_string z in
  zeros (w - String.length s) ++ s.

(** [strftime("%Y%m%d_%H%M%S")]; the year has its four digits from the year
    1000 on, below which the padding of [%Y] depends on the platform. *)
Definition strftime_compact (t : datetime) : string :=
  pad 4 (year t) ++ pad 2 (month t) ++ pad 2 (day t) ++ "_" ++
  pad 2 (hour t) ++ pad 2 (minute t) ++ pad 2 (second t).

(** [isoformat()]: the fraction is printed when it is not zero. *)
Definition isoformat (t : datetime) : string :=
  pad 4 (year t) ++ "-" ++ pad 2 (month t) ++ "-" ++ pad 2 (day t) ++ "T" ++
  pad 2 (hour t) ++ ":" ++ pad 2 (minute t) ++ ":" ++ pad 2 (second t) ++
  (if microsecond t =? 0 then EmptyString else "." ++ pad 6 (microsecond t)).

(* ===================================================================== *)
(** ** Strings *)
(* ===================================================================== *)

(** [needle in hay] on strings. *)
Fixpoint is_substring (needle hay : string) : bool :=
  match hay with
  | EmptyString => String.prefix needle EmptyString
  | String _ rest => String.prefix needle hay || is_substring needle rest
  end.

(** The double quote and the line feed. *)
Definition dq : string := String (ascii_of_nat 34) EmptyString.
Definition nl : string := String (ascii_of_nat 10) EmptyString.

(** Every line followed by a line feed. *)
Fixpoint unlines (ls : list string) : string :=
  match ls with
  | [] => EmptyString
  | l :: r => l ++ nl ++ unlines r
  end.

Fixpoint concat_str (ls : list string) : string :=
  match ls with
  | [] => EmptyString
  | l :: r => l ++ concat_str r
  end.

Definition ends_with_slash (s : string) : bool :=
  match get (String.length s - 1) s with
  | Some c => Ascii.eqb c "/"
  | None => false
  end.

(** [os.path.join(a, b)] of [posixpath]: an absolute [b] replaces [a]. *)
Definition path_join (a b : string) : string :=
  if String.prefix "/" b then b
  else if (String.eqb a EmptyString || ends_with_slash a)%bool then a ++ b
  else a ++ "/" ++ b.

(** What the Python runtime contributes and the embedding leaves open:
    [str.lower], which follows the Unicode tables, and [repr] of lists and
    dictionaries inside an f-string.  The empty string has no character
    to convert. *)
Class PyRuntime : Type := {
  lower : string -> string;
  py_repr : pyval -> string;
  lower_empty : lower EmptyString = EmptyString
}.

(** On [A]..[Z] the conversion adds 32; this is [str.lower] on ASCII text. *)
Definition ascii_lower_char (c : ascii) : ascii :=
  let n := nat_of_ascii c in
  if (Nat.leb 65 n && Nat.leb n 90)%bool then ascii_of_nat (n + 32) else c.

Fixpoint ascii_lower (s : string) : string :=
  match s with
  | EmptyString => EmptyString
  | String c r => String (ascii_lower_char c) (ascii_lower r)
  end.

(** The runtime on ASCII text.  The sample inputs format no list and no
    dictionary, so [py_repr] is a placeholder here. *)
#[export] Instance ascii_runtime : PyRuntime := {|
  lower := ascii_lower;
  py_repr := fun _ => "<object>";
  lower_empty := eq_refl
|}.

Section Composer.

Context {rt : PyRuntime}.

(** [v.lower()]: a method of strings only. *)
Definition py_lower (v : pyval) : result string :=
  match v with
  | PStr s => Ok (lower s)
  | _ => Raise AttributeError
  end.

(** [str(v)], the conversion an f-string applies. *)
Definition py_str (v : pyval) : string :=
  match v with
  | PNone => "None"
  | PInt z => Z_to_string z
  | PStr s => s
  | PList _ | PDict _ => py_repr v
  end.

(* ===================================================================== *)
(** ** The rule tables of [ReportComposer.__init__] *)
(* ===================================================================== *)

Definition supported_formats : list string := ["json"; "csv"; "txt"; "html"].

Definition suspicious_keywords : list string :=
  ["hack"; "crack"; "mod"; "premium"; "free"; "cheat";
   "virus"; "trojan"; "malware"; "spyware"; "keylogger";
   "bot"; "exploit"; "root"; "jailbreak"; "adware"; "ransomware"].

Definition dangerous_permissions : list string :=
  ["READ_SMS"; "SEND_SMS"; "RECEIVE_SMS"; "READ_CONTACTS";
   "WRITE_CONTACTS"; "ACCESS_FINE_LOCATION"; "ACCESS_COARSE_LOCATION";
   "RECORD_AUDIO"; "CAMERA"; "READ_CALL_LOG"; "WRITE_CALL_LOG"].

(* ===================================================================== *)
(** ** [_extract_dangerous_permissions] *)
(* ===================================================================== *)

(** The inner loop: [perm] against the table in table order, leaving at the
    first entry it contains.  [perm.lower()] is evaluated at every entry
    tried. *)
Fixpoint matches_table (table : list string) (perm : pyval) : result bool :=
  match table with
  | [] => Ok false
  | danger_perm :: rest =>
      p <- py_lower perm ;;
      if is_substring (lower danger_perm) p then Ok true
      else matches_table rest perm
  end.

(** The outer loop, appending each matching [perm] once. *)
Fixpoint extract_loop (table : list string) (perms : list pyval)
  : result (list pyval) :=
  match perms with
  | [] => Ok []
  | perm :: rest =>
      hit <- matches_table table perm ;;
      dangerous <- extract_loop table rest ;;
      Ok (if hit then perm :: dangerous else dangerous)
  end.

Definition _extract_dangerous_permissions (permissions : pyval)
  : result (list pyval) :=
  perms <- py_iter permissions ;;
  extract_loop dangerous_permissions perms.

(* ===================================================================== *)
(** ** [_calculate_suspicious_score] *)
(* ===================================================================== *)

(** The keyword loop: one point for every table entry found in the name. *)
Definition keyword_hits (keywords : list string) (apk_name_lower : string) : Z :=
  fold_left
    (fun score keyword =>
       if is_substring keyword apk_name_lower then score + 1 else score)
    keywords 0.

(** [int(x)] on a fraction: truncation towards zero. *)
Definition py_int (x : Q) : Z := Z.quot (Qnum x) (Z.pos (Qden x)).

(** The value of [score] before normalisation.  It is a float in the
    source; a multiple of one half is exact there, so a fraction stands
    for it. *)
Definition raw_score (hits dangerous_count : Z) : Q :=
  (inject_Z hits + inject_Z dangerous_count * (1 # 2))%Q.

Definition normalise (score : Q) : Z := Z.min (py_int (score * 2)%Q) 10.

Definition _calculate_suspicious_score (apk_info analysis_data : dict)
  : result Z :=
  apk_name_lower <- py_lower (dict_get apk_info "name" (PStr EmptyString)) ;;
  let score := keyword_hits suspicious_keywords apk_name_lower in
  let permissions := dict_get analysis_data "Permissions" (PList []) in
  dangerous_perms <- _extract_dangerous_permissions permissions ;;
  Ok (normalise (raw_score score (Z.of_nat (List.length dangerous_perms)))).

(* ===================================================================== *)
(** ** [_generate_warnings] *)
(* ===================================================================== *)

(** The keyword loop of the warnings: it stops at the first hit. *)
Fixpoint first_keyword (keywords : list string) (apk_name_lower : string)
  : option string :=
  match keywords with
  | [] => None
  | keyword :: rest =>
      if is_substring keyword apk_name_lower then Some keyword
      else first_keyword rest apk_name_lower
  end.

Definition warn_dangerous (n : Z) : string :=
  "Обнаружено " ++ Z_to_string n ++ " опасных разрешений".

Definition warn_keyword (keyword : string) : string :=
  "Подозрительное ключевое слово в имени: '" ++ keyword ++ "'".

Definition warn_many (n : Z) : string :=
  "Большое количество разрешений: " ++ Z_to_string n.

Definition _generate_warnings (apk_info analysis_data : dict)
  : result (list string) :=
  let permissions := dict_get analysis_data "Permissions" (PList []) in
  dangerous_perms <- _extract_dangerous_permissions permissions ;;
  let w1 :=
    match dangerous_perms with
    | [] => []
    | _ => [warn_dangerous (Z.of_nat (List.length dangerous_perms))]
    end in
  apk_name_lower <- py_lower (dict_get apk_info "name" (PStr EmptyString)) ;;
  let w2 :=
    match first_keyword suspicious_keywords apk_name_lower with
    | Some keyword => w1 ++ [warn_keyword keyword]
    | None => w1
    end in
  n <- py_len permissions ;;
  Ok (if 20 <? n then w2 ++ [warn_many n] else w2).

(* ===================================================================== *)
(** ** [_assess_security] *)
(* ===================================================================== *)

(** [ft.Colors] is a string enumeration of the UI toolkit. *)
Definition Colors_RED : pyval := PStr "red".
Definition Colors_ORANGE : pyval := PStr "orange".
Definition Colors_GREEN : pyval := PStr "green".

Definition risk_high : string := "высокий".
Definition risk_medium : string := "средний".
Definition risk_low : string := "низкий".

(** The tier and its colour from the score and the number of dangerous
    permissions. *)
Definition risk_tier (suspicious_score dangerous_count : Z) : string * pyval :=
  if ((7 <=? suspicious_score) || (3 <=? dangerous_count))%bool
  then (risk_high, Colors_RED)
  else if ((4 <=? suspicious_score) || (1 <=? dangerous_count))%bool
  then (risk_medium, Colors_ORANGE)
  else (risk_low, Colors_GREEN).

Definition _assess_security (apk_info analysis_data : dict) : result pyval :=
  let permissions := dict_get analysis_data "Permissions" (PList []) in
  dangerous_perms <- _extract_dangerous_permissions permissions ;;
  suspicious_score <- _calculate_suspicious_score apk_info analysis_data ;;
  let count := Z.of_nat (List.length dangerous_perms) in
  let '(risk_level, risk_color) := risk_tier suspicious_score count in
  warnings <- _generate_warnings apk_info analysis_data ;;
  Ok (PDict [("risk_level", PStr risk_level);
             ("risk_color", risk_color);
             ("suspicious_score", PInt suspicious_score);
             ("dangerous_permissions_count", PInt count);
             ("warnings", PList (map PStr warnings))]).

(* ===================================================================== *)
(** ** [_generate_recommendations] *)
(* ===================================================================== *)

Definition rec_do_not_install : list string :=
  ["⚠️ НЕ УСТАНАВЛИВАТЬ! Файл выглядит подозрительно";
   "Проверьте APK через VirusTotal или другие антивирусы"].

Definition rec_dangerous (count : pyval) : list string :=
  [("Внимание! Приложение запрашивает " ++ py_str count ++
      " опасных разрешений")%string;
   "Подумайте, действительно ли приложению нужны эти разрешения"].

Definition rec_too_many : list string :=
  ["Приложение запрашивает слишком много разрешений";
   "Рассмотрите альтернативные приложения с меньшим количеством разрешений"].

Definition rec_no_threats : list string :=
  ["Проверка через Angroguard не обнаружила угроз"].

Definition _generate_recommendations (report : pyval) : result (list string) :=
  security <- py_get report "security_assessment" (PDict []) ;;
  risk_level <- py_get security "risk_level" PNone ;;
  let r1 := if py_eq_str risk_level risk_high then rec_do_not_install else [] in
  count <- py_get security "dangerous_permissions_count" (PInt 0) ;;
  positive <- py_gt_int count 0 ;;
  r2 <- (if positive
         then shown <- py_getitem security "dangerous_permissions_count" ;;
              Ok (r1 ++ rec_dangerous shown)
         else Ok r1) ;;
  permissions <- py_get report "permissions" (PDict []) ;;
  all_perms <- py_get permissions "list" (PList []) ;;
  n <- py_len all_perms ;;
  let r3 := if 25 <? n then r2 ++ rec_too_many else r2 in
  Ok (match r3 with [] => rec_no_threats | _ => r3 end).

(* ===================================================================== *)
(** ** [compose_report] *)
(* ===================================================================== *)

(** The body of the [try] block.  [now] is the value of [datetime.now()]. *)
Definition compose_report_try (now : datetime) (apk_info analysis_data : dict)
  : result pyval :=
  let metadata :=
    PDict [("apk_name", dict_get apk_info "name" (PStr "Unknown"));
           ("apk_path", dict_get apk_info "path" (PStr EmptyString));
           ("file_size", dict_get apk_info "size" (PInt 0));
           ("last_modified", dict_get apk_info "last_modified" (PStr EmptyString));
           ("analysis_date", PStr (isoformat now));
           ("report_version", PStr "1.0")] in
  total <- py_len (dict_get analysis_data "Permissions" (PList [])) ;;
  let perm_list := dict_get analysis_data "Permissions" (PList []) in
  dangerous <- _extract_dangerous_permissions
                 (dict_get analysis_data "Permissions" (PList [])) ;;
  let intents := dict_get analysis_data "Intents" (PDict []) in
  security_assessment <- _assess_security apk_info analysis_data ;;
  total_permissions <- py_len (dict_get analysis_data "Permissions" (PList [])) ;;
  dangerous' <- _extract_dangerous_permissions
                  (dict_get analysis_data "Permissions" (PList [])) ;;
  activities <- py_len (dict_get analysis_data "Intents" (PDict [])) ;;
  suspicious_score <- _calculate_suspicious_score apk_info analysis_data ;;
  let report :=
    [("metadata", metadata);
     ("permissions", PDict [("total", PInt total);
                            ("list", perm_list);
                            ("dangerous", PList dangerous)]);
     ("intents", intents);
     ("security_assessment", security_assessment);
     ("recommendations", PList []);
     ("statistics",
      PDict [("total_permissions", PInt total_permissions);
             ("dangerous_permissions", PInt (Z.of_nat (List.length dangerous')));
             ("activities", PInt activities);
             ("suspicious_score", PInt suspicious_score)])] in
  recommendations <- _generate_recommendations (PDict report) ;;
  Ok (PDict (dict_set report "recommendations"
               (PList (map PStr recommendations)))).

(** Any exception of the body is caught, reported on the console and
    answered with the empty dictionary. *)
Definition compose_report (now : datetime) (apk_info analysis_data : dict)
  : pyval :=
  match compose_report_try now apk_info analysis_data with
  | Ok report => report
  | Raise _ => PDict []
  end.

(* ===================================================================== *)
(** ** [_save_html] *)
(* ===================================================================== *)

Local Open Scope string_scope.

(** The first f-string of the document, with its four computed fields. *)
Definition html_head (apk_name analysis_date risk_class risk_level total : string)
  : string :=
  nl ++
  unlines
    ["        <!DOCTYPE html>";
     "        <html lang=" ++ dq ++ "ru" ++ dq ++ ">";
     "        <head>";
     "            <meta charset=" ++ dq ++ "UTF-8" ++ dq ++ ">";
     "            <meta name=" ++ dq ++ "viewport" ++ dq ++ " content=" ++ dq ++
       "width=device-width, initial-scale=1.0" ++ dq ++ ">";
     "            <title>Отчет анализа APK: " ++ apk_name ++ "</title>";
     "            <style>";
     "                body { font-family: Arial, sans-serif; margin: 20px; }";
     "                .header { background-color: #f0f0f0; padding: 20px; border-radius: 5px; }";
     "                .section { margin: 20px 0; }";
     "                .dangerous { color: red; font-weight: bold; }";
     "                .warning { color: orange; }";
     "                .safe { color: green; }";
     "                table { border-collapse: collapse; width: 100%; }";
     "                th, td { border: 1px solid #ddd; padding: 8px; text-align: left; }";
     "                th { background-color: #f2f2f2; }";
     "            </style>";
     "        </head>";
     "        <body>";
     "            <div class=" ++ dq ++ "header" ++ dq ++ ">";
     "                <h1>Отчет анализа безопасности APK</h1>";
     "                <p>Файл: " ++ apk_name ++ "</p>";
     "                <p>Дата анализа: " ++ analysis_date ++ "</p>";
     "            </div>";
     "            ";
     "            <div class=" ++ dq ++ "section" ++ dq ++ ">";
     "                <h2>Оценка безопасности</h2>";
     "                <p><strong>Уровень риска:</strong> ";
     "                    <span class=" ++ dq ++ risk_class ++ dq ++ ">";
     "                        " ++ risk_level;
     "                    </span>";
     "                </p>";
     "            </div>";
     "            ";
     "            <div class=" ++ dq ++ "section" ++ dq ++ ">";
     "                <h2>Разрешения (" ++ total ++ ")</h2>";
     "                <ul>"] ++
  "        ".

Definition html_middle : string :=
  nl ++
  unlines
    ["                </ul>";
     "            </div>";
     "            ";
     "            <div class=" ++ dq ++ "section" ++ dq ++ ">";
     "                <h2>Рекомендации</h2>";
     "                <ul>"] ++
  "        ".

Definition html_tail : string :=
  nl ++
  unlines
    ["                </ul>";
     "            </div>";
     "            ";
     "            <div class=" ++ dq ++ "section" ++ dq ++ ">";
     "                <p><em>Отчет сгенерирован автоматически</em></p>";
     "            </div>";
     "        </body>";
     "        </html>"] ++
  "        ".

(** One list item of the permissions block. *)
Definition html_perm_li (item : string * pyval) : string :=
  "<li class=" ++ dq ++ fst item ++ dq ++ ">" ++ py_str (snd item) ++ "</li>" ++ nl.

Definition html_rec_li (rec : pyval) : string :=
  "<li>" ++ py_str rec ++ "</li>" ++ nl.

(** The loop over [permissions.list]: every entry with the class it is
    given.  [any(...)] over the table leaves at the first entry found, as
    the inner loop of the extraction does. *)
Fixpoint html_classify (perms : list pyval) : result (list (string * pyval)) :=
  match perms with
  | [] => Ok []
  | perm :: rest =>
      is_dangerous <- matches_table dangerous_permissions perm ;;
      let danger_class := if is_dangerous then "dangerous" else EmptyString in
      items <- html_classify rest ;;
      Ok ((danger_class, perm) :: items)
  end.

Definition html_permission_items (report : pyval)
  : result (list (string * pyval)) :=
  permissions <- py_get report "permissions" (PDict []) ;;
  all_perms <- py_get permissions "list" (PList []) ;;
  perms <- py_iter all_perms ;;
  html_classify perms.

(** The text [_save_html] writes. *)
Definition html_content (report : pyval) : result string :=
  metadata <- py_get report "metadata" (PDict []) ;;
  apk_name <- py_get metadata "apk_name" (PStr "Unknown") ;;
  analysis_date <- py_get metadata "analysis_date" (PStr "Unknown") ;;
  security <- py_get report "security_assessment" (PDict []) ;;
  risk <- py_get security "risk_level" (PStr EmptyString) ;;
  risk_class <- py_lower risk ;;
  risk_level <- py_get security "risk_level" (PStr "неизвестно") ;;
  permissions <- py_get report "permissions" (PDict []) ;;
  total <- py_get permissions "total" (PInt 0) ;;
  items <- html_permission_items report ;;
  recommendations <- py_get report "recommendations" (PList []) ;;
  recs <- py_iter recommendations ;;
  Ok (html_head (py_str apk_name) (py_str analysis_date) risk_class
        (py_str risk_level) (py_str total) ++
      concat_str (map html_perm_li items) ++
      html_middle ++
      concat_str (map html_rec_li recs) ++
      html_tail).

End Composer.

(* ===================================================================== *)
(** ** Files *)
(* ===================================================================== *)

(** A file either holds the text a writer completed, or was opened for
    writing by a writer that an exception interrupted. *)
Inductive file : Type :=
| Complete (content : string)
| Interrupted.

Definition fs : Type := string -> option file.

Definition fs_put (path : string) (f : file) (w : fs) : fs :=
  fun p => if String.eqb p path then Some f else w p.

(** What the embedding leaves open about the outside world: the paths
    [open(path, 'w')] accepts; the texts that UTF-8 can encode, which are
    the texts a file opened with [encoding='utf-8'] takes (a text with a
    lone surrogate, as [os.fsdecode] gives for a file name that is not
    UTF-8, is not one); the texts the console takes from [print]; the
    message [str(e)] of the exception a writer raised on a file; and the
    text of the three formats whose layout the saving does not depend on
    ([json.dump], the rows of [csv.writer], the plain-text layout). *)
Class World : Type := {
  can_open : string -> bool;
  encodable : string -> bool;
  can_print : string -> bool;
  exn_text : pyexn -> string -> string;
  json_text : pyval -> result string;
  csv_text : pyval -> result string;
  txt_text : pyval -> result string
}.

Section Saving.

Context {rt : PyRuntime} {world : World}.

(** [print(text)]: the console refuses a text it cannot encode. *)
Definition py_print (text : string) : result unit :=
  if can_print text then Ok tt else Raise UnicodeEncodeError.

(** [with open(file_path, 'w', encoding='utf-8') as f:] and then the
    writes: the file exists from the moment it is opened, and a write
    raises on a text that cannot be encoded. *)
Definition open_then_write (text : result string) (file_path : string) (w : fs)
  : fs * result unit :=
  if can_open file_path then
    match text with
    | Ok content =>
        if encodable content
        then (fs_put file_path (Complete content) w, Ok tt)
        else (fs_put file_path Interrupted w, Raise UnicodeEncodeError)
    | Raise e => (fs_put file_path Interrupted w, Raise e)
    end
  else (w, Raise OSError).

Definition _save_json (report : pyval) (file_path : string) (w : fs)
  : fs * result unit :=
  open_then_write (json_text report) file_path w.

Definition _save_csv (report : pyval) (file_path : string) (w : fs)
  : fs * result unit :=
  open_then_write (csv_text report) file_path w.

Definition _save_txt (report : pyval) (file_path : string) (w : fs)
  : fs * result unit :=
  open_then_write (txt_text report) file_path w.

(** The document is built first, the file is opened after, and the
    document is written in one [f.write]. *)
Definition _save_html (report : pyval) (file_path : string) (w : fs)
  : fs * result unit :=
  match html_content report with
  | Ok content => open_then_write (Ok content) file_path w
  | Raise e => (w, Raise e)
  end.

(* ===================================================================== *)
(** ** [save_report] *)
(* ===================================================================== *)

(** [fmt in self.supported_formats] *)
Definition supported (fmt : pyval) : bool :=
  existsb (py_eq_str fmt) supported_formats.

(** The [if]/[elif] chain on the format. *)
Definition dispatch (fmt : pyval) (report : pyval) (file_path : string) (w : fs)
  : fs * result (option string) :=
  if py_eq_str fmt "json" then
    let '(w', r) := _save_json report file_path w in (w', _ <- r ;; Ok (Some "json"))
  else if py_eq_str fmt "csv" then
    let '(w', r) := _save_csv report file_path w in (w', _ <- r ;; Ok (Some "csv"))
  else if py_eq_str fmt "txt" then
    let '(w', r) := _save_txt report file_path w in (w', _ <- r ;; Ok (Some "txt"))
  else if py_eq_str fmt "html" then
    let '(w', r) := _save_html report file_path w in (w', _ <- r ;; Ok (Some "html"))
  else (w, Ok None).

(** The two notices of the loop. *)
Definition skip_notice (fmt : pyval) : string :=
  ("Формат " ++ py_str fmt ++ " не поддерживается. Пропускаем...")%string.

Definition failure_notice (fmt : pyval) (message : string) : string :=
  ("Ошибка сохранения отчета в формате " ++ py_str fmt ++ ": " ++
   message)%string.

(** The loop over the requested formats.  Both notices are printed outside
    any [try]: when [print] raises, the exception leaves [save_report] and
    the formats that remain are not written. *)
Fixpoint save_loop (reports_dir base_filename : string) (report : pyval)
  (formats : list pyval) (saved_files : dict) (w : fs) : result dict * fs :=
  match formats with
  | [] => (Ok saved_files, w)
  | fmt :: rest =>
      if negb (supported fmt)
      then
        match py_print (skip_notice fmt) with
        | Ok _ => save_loop reports_dir base_filename report rest saved_files w
        | Raise e => (Raise e, w)
        end
      else
        let file_path :=
          path_join reports_dir (base_filename ++ "." ++ py_str fmt)%string in
        match dispatch fmt report file_path w with
        | (w', Ok (Some key)) =>
            save_loop reports_dir base_filename report rest
              (dict_set saved_files key (PStr file_path)) w'
        | (w', Ok None) =>
            save_loop reports_dir base_filename report rest saved_files w'
        | (w', Raise e) =>
            match py_print (failure_notice fmt (exn_text e file_path)) with
            | Ok _ =>
                save_loop reports_dir base_filename report rest saved_files w'
            | Raise e' => (Raise e', w')
            end
        end
  end.

(** [formats] is [None] when the argument is omitted. *)
Definition save_report (reports_dir : string) (now : datetime)
  (report : pyval) (apk_name : pyval) (formats : option (list pyval)) (w : fs)
  : result dict * fs :=
  let formats :=
    match formats with
    | None => [PStr "json"; PStr "txt"]
    | Some l => l
    end in
  let timestamp := strftime_compact now in
  let base_filename := (py_str apk_name ++ "_" ++ timestamp)%string in
  save_loop reports_dir base_filename report formats [] w.

End Saving.

(* ===================================================================== *)
(** ** [APKAnalyzerApp.determine_maliciousness] *)
(* ===================================================================== *)

(** The gauge and the labelled counter the function touches. *)
Record metrics : Type := {
  DANGEROUS_PERMISSIONS_COUNT : Z;
  APK_DETECTION_COUNT : string -> Z
}.

(** [DANGEROUS_PERMISSIONS_COUNT.set(count)] *)
Definition update_dangerous_permissions_count (count : Z) (m : metrics)
  : metrics :=
  {| DANGEROUS_PERMISSIONS_COUNT := count;
     APK_DETECTION_COUNT := APK_DETECTION_COUNT m |}.

(** [APK_DETECTION_COUNT.labels(risk_level=risk_level).inc()] *)
Definition record_apk_detection (risk_level : string) (m : metrics) : metrics :=
  {| DANGEROUS_PERMISSIONS_COUNT := DANGEROUS_PERMISSIONS_COUNT m;
     APK_DETECTION_COUNT :=
       fun label =>
         if String.eqb label risk_level
         then APK_DETECTION_COUNT m label + 1
         else APK_DETECTION_COUNT m label |}.

Section Interface.

Context {rt : PyRuntime}.

(** The tables of [APKAnalyzerApp.__init__]. *)
Definition SUSPICIOUS_WORDS : list string :=
  ["hack"; "crack"; "mod"; "premium"; "free"; "cheat";
   "virus"; "trojan"; "malware"; "spyware"; "keylogger";
   "bot"; "exploit"; "root"; "jailbreak"; "adware"; "ransomware"].

Definition DANGEROUS_PERMISSIONS : list string :=
  ["READ_SMS"; "SEND_SMS"; "RECEIVE_SMS"; "READ_CONTACTS";
   "WRITE_CONTACTS"; "ACCESS_FINE_LOCATION"; "ACCESS_COARSE_LOCATION";
   "RECORD_AUDIO"; "CAMERA"; "READ_CALL_LOG"; "WRITE_CALL_LOG"].

Definition level_high : string := "высокая".
Definition level_medium : string := "средняя".
Definition level_low : string := "низкая".

(** [any(perm.lower() in p.lower() for p in permissions)] *)
Fixpoint any_contains (perm : string) (permissions : list pyval) : result bool :=
  match permissions with
  | [] => Ok false
  | p :: rest =>
      pl <- py_lower p ;;
      if is_substring (lower perm) pl then Ok true
      else any_contains perm rest
  end.

(** The loop over the table, with the two counters it updates. *)
Fixpoint permission_loop (table : list string) (permissions : list pyval)
  (suspicious_count : Q) (dangerous_count : Z) : result (Q * Z) :=
  match table with
  | [] => Ok (suspicious_count, dangerous_count)
  | perm :: rest =>
      found <- any_contains perm permissions ;;
      if found
      then permission_loop rest permissions
             (suspicious_count + (1 # 2))%Q (dangerous_count + 1)
      else permission_loop rest permissions suspicious_count dangerous_count
  end.

(** The two counters when the metrics are updated. *)
Definition suspicion_tally (apk_name permissions : pyval) : result (Q * Z) :=
  apk_name_lower <- py_lower apk_name ;;
  let suspicious_count :=
    inject_Z (keyword_hits SUSPICIOUS_WORDS apk_name_lower) in
  if py_truthy permissions
  then ps <- py_iter permissions ;;
       permission_loop DANGEROUS_PERMISSIONS ps suspicious_count 0
  else Ok (suspicious_count, 0).

Definition quick_tier (suspicious_count : Q) : string * pyval :=
  if Qle_bool 2 suspicious_count then (level_high, Colors_RED)
  else if Qle_bool 1 suspicious_count then (level_medium, Colors_ORANGE)
  else (level_low, Colors_GREEN).

(** The chain that counts the level under its label. *)
Definition record_level (risk_level : string) (m : metrics) : metrics :=
  if String.eqb risk_level level_high then record_apk_detection "high" m
  else if String.eqb risk_level level_medium then record_apk_detection "medium" m
  else record_apk_detection "low" m.

(** [PROMETHEUS_AVAILABLE] is a flag of the module; [permissions] is
    [PNone] when the argument is omitted. *)
Definition determine_maliciousness (PROMETHEUS_AVAILABLE : bool)
  (apk_name permissions : pyval) (m : metrics)
  : result ((string * pyval) * metrics) :=
  counts <- suspicion_tally apk_name permissions ;;
  let '(suspicious_count, dangerous_count) := counts in
  let m1 :=
    if PROMETHEUS_AVAILABLE
    then update_dangerous_permissions_count dangerous_count m else m in
  let '(risk_level, color) := quick_tier suspicious_count in
  let m2 := if PROMETHEUS_AVAILABLE then record_level risk_level m1 else m1 in
  Ok ((risk_level, color), m2).

End Interface.

(* ===================================================================== *)
(** ** Vocabulary of the properties *)
(* ===================================================================== *)

(** A list of strings as the Python list it is. *)
Definition str_list (l : list string) : pyval := PList (map PStr l).

(** [v[k]] when [v] is a dictionary that has the key. *)
Definition field (v : pyval) (k : string) : option pyval :=
  match v with
  | PDict d => dict_lookup k d
  | _ => None
  end.

(** [v[k1][k2]] *)
Definition field2 (v : pyval) (k1 k2 : string) : option pyval :=
  match field v k1 with
  | Some x => field x k2
  | None => None
  end.

(** [l1] is obtained from [l2] by deleting entries: the order is kept. *)
Inductive Subseq {A : Type} : list A -> list A -> Prop :=
| Subseq_nil : Subseq [] []
| Subseq_skip : forall x l1 l2, Subseq l1 l2 -> Subseq l1 (x :: l2)
| Subseq_keep : forall x l1 l2, Subseq l1 l2 -> Subseq (x :: l1) (x :: l2).

Definition is_str (v : pyval) : bool :=
  match v with PStr _ => true | _ => false end.

(** The value under ['name'], when there is one, is a string. *)
Definition name_is_str (apk_info : dict) : bool :=
  match dict_lookup "name" apk_info with
  | None => true
  | Some v => is_str v
  end.

(** The value under ['Permissions'], when there is one, is a list of
    strings. *)
Definition permissions_are_strs (analysis_data : dict) : bool :=
  match dict_lookup "Permissions" analysis_data with
  | None => true
  | Some (PList l) => forallb is_str l
  | Some _ => false
  end.

(** The value under ['Intents'], when there is one, is a dictionary. *)
Definition intents_is_dict (analysis_data : dict) : bool :=
  match dict_lookup "Intents" analysis_data with
  | None => true
  | Some (PDict _) => true
  | Some _ => false
  end.

(** The strings of a list of string values. *)
Fixpoint strs_of (l : list pyval) : list string :=
  match l with
  | [] => []
  | PStr s :: r => s :: strs_of r
  | _ :: r => strs_of r
  end.

(** The file name and the permission list the composer works on. *)
Definition name_of (apk_info : dict) : string :=
  match dict_lookup "name" apk_info with
  | Some (PStr s) => s
  | _ => EmptyString
  end.

Definition permissions_of (analysis_data : dict) : list string :=
  match dict_lookup "Permissions" analysis_data with
  | Some (PList l) => strs_of l
  | _ => []
  end.

Section Vocabulary.

Context {rt : PyRuntime}.

(** Some entry of [table] occurs in [p], letter case apart. *)
Definition contains_entry (table : list string) (p : string) : bool :=
  existsb (fun d => is_substring (lower d) (lower p)) table.

Definition is_dangerous (p : string) : bool :=
  contains_entry dangerous_permissions p.

(** The class and the entry of a listed permission. *)
Definition html_item (p : string) : string * pyval :=
  (if is_dangerous p then "dangerous" else EmptyString, PStr p).

(** The keyword occurs in the lower-cased [name]. *)
Definition occurs_in (name keyword : string) : bool :=
  is_substring keyword (lower name).

(** The number of table entries that occur in the lower-cased [name]. *)
Definition keyword_count (keywords : list string) (name : string) : Z :=
  Z.of_nat (List.length (filter (occurs_in name) keywords)).

Definition dangerous_count_of (perms : list string) : Z :=
  Z.of_nat (List.length (filter is_dangerous perms)).

(** The score as the specification words it. *)
Definition score_spec (name : string) (perms : list string) : Z :=
  Z.min
    (Qfloor ((inject_Z (keyword_count suspicious_keywords name) +
              inject_Z (dangerous_count_of perms) * (1 # 2)) * 2)%Q)
    10.

(** The composer's tier as the specification words it. *)
Definition tier_spec (score count : Z) : string :=
  if Z_le_dec 7 score then risk_high
  else if Z_le_dec 3 count then risk_high
  else if Z_le_dec 4 score then risk_medium
  else if Z_le_dec 1 count then risk_medium
  else risk_low.

(** The three warnings as the specification words them. *)
Definition warnings_spec (name : string) (perms : list string) : list string :=
  (if 0 <? dangerous_count_of perms
   then [warn_dangerous (dangerous_count_of perms)] else []) ++
  (match find (occurs_in name) suspicious_keywords with
   | Some keyword => [warn_keyword keyword]
   | None => []
   end) ++
  (if 20 <? Z.of_nat (List.length perms)
   then [warn_many (Z.of_nat (List.length perms))] else []).

(** The recommendation rules as the specification words them. *)
Definition recommendations_spec (high : bool) (count n : Z) : list string :=
  let fired :=
    (if high then rec_do_not_install else []) ++
    (if 0 <? count then rec_dangerous (PInt count) else []) ++
    (if 25 <? n then rec_too_many else []) in
  if (high || (0 <? count) || (25 <? n))%bool then fired else rec_no_threats.

(** The permission-list length the third rule reads. *)
Definition listed_permissions (report : pyval) : result Z :=
  permissions <- py_get report "permissions" (PDict []) ;;
  all_perms <- py_get permissions "list" (PList []) ;;
  py_len all_perms.

(** The number of table entries that some permission contains. *)
Definition present_entries (table : list string) (perms : list string) : Z :=
  Z.of_nat
    (List.length
       (filter (fun d => existsb (fun p => is_substring (lower d) (lower p)) perms)
          table)).

End Vocabulary.

(** The optional permission argument of the quick tier. *)
Definition perm_arg (permissions : option (list string)) : pyval :=
  match permissions with
  | None => PNone
  | Some l => str_list l
  end.

Definition perm_list (permissions : option (list string)) : list string :=
  match permissions with
  | None => []
  | Some l => l
  end.

(** The consistency of the counts a report repeats. *)
Definition report_invariant (report : pyval) : Prop :=
  exists total perm_list dangerous score elems,
    field2 report "statistics" "total_permissions" = Some (PInt total) /\
    field2 report "permissions" "total" = Some (PInt total) /\
    field2 report "permissions" "list" = Some perm_list /\
    py_len perm_list = Ok total /\
    field2 report "permissions" "dangerous" = Some (PList dangerous) /\
    field2 report "statistics" "dangerous_permissions" =
      Some (PInt (Z.of_nat (List.length dangerous))) /\
    field2 report "security_assessment" "dangerous_permissions_count" =
      Some (PInt (Z.of_nat (List.length dangerous))) /\
    field2 report "statistics" "suspicious_score" = Some (PInt score) /\
    field2 report "security_assessment" "suspicious_score" =
      Some (PInt score) /\
    py_iter perm_list = Ok elems /\
    Subseq dangerous elems.

(** The six entries of a composed report. *)
Definition fully_populated (report : pyval) : Prop :=
  forall key,
    In key ["metadata"; "permissions"; "intents"; "security_assessment";
            "recommendations"; "statistics"] ->
    field report key <> None.

(** ** The hypertext document *)

(** The entries the document shows with the class of the dangerous ones,
    and the entries it shows without. *)
Definition marked (items : list (string * pyval)) : list pyval :=
  map snd (filter (fun item => String.eqb (fst item) "dangerous") items).

Definition unmarked (items : list (string * pyval)) : list pyval :=
  map snd (filter (fun item => negb (String.eqb (fst item) "dangerous")) items).

(** ** The batch save *)

(** The format was asked for. *)
Definition requested (key : string) (formats : list pyval) : bool :=
  existsb (fun fmt => py_eq_str fmt key) formats.

Definition is_supported (key : string) : bool :=
  existsb (String.eqb key) supported_formats.





Section SavingVocabulary.

Context {rt : PyRuntime} {world : World}.

(** The text of a report in a format. *)
Definition format_text (key : string) (report : pyval) : result string :=
  if String.eqb key "json" then json_text report
  else if String.eqb key "csv" then csv_text report
  else if String.eqb key "txt" then txt_text report
  else html_content report.

(** The path of the file of a format within a batch. *)
Definition batch_path (reports_dir base_filename key : string) : string :=
  path_join reports_dir (base_filename ++ "." ++ key)%string.

(** The path of the file of a format: [{base_name}_{timestamp}.{ext}] under
    the reports directory. *)
Definition report_path (reports_dir : string) (now : datetime)
  (apk_name : pyval) (key : string) : string :=
  batch_path reports_dir (py_str apk_name ++ "_" ++ strftime_compact now)%string
    key.

(** The writer of the format runs to its end: the text is produced, the
    file can be opened and the text can be encoded. *)
Definition written_ok (key : string) (report : pyval) (file_path : string)
  : bool :=
  match format_text key report with
  | Ok text => (can_open file_path && encodable text)%bool
  | Raise _ => false
  end.


(** The format enters the mapping of a batch: it is supported, it was asked
    for, and its writer runs to its end. *)
Definition kept (reports_dir base_filename : string) (report : pyval)
  (formats : list pyval) (key : string) : bool :=
  (is_supported key && requested key formats &&
   written_ok key report (batch_path reports_dir base_filename key))%bool.


End SavingVocabulary.

(** ** Sample inputs *)

Definition sample_now : datetime :=
  {| year := 2024; month := 3; day := 7;
     hour := 9; minute := 5; second := 1; microsecond := 0 |}.

Definition sample_apk_info : dict :=
  [("name", PStr "CleanApp.apk");
   ("path", PStr "/sdcard/Download/CleanApp.apk");
   ("size", PInt 1024000);
   ("last_modified", PStr "2024-03-07 09:00")].

Definition sample_permissions : list string :=
  ["android.permission.READ_SMS"; "android.permission.CAMERA"].

Definition sample_analysis_data : dict :=
  [("APK", PStr "CleanApp.apk");
   ("Permissions", str_list sample_permissions);
   ("Intents", PDict [])].

(** A world in which every file can be written, every text encoded and
    printed, and the structured-data and plain-text forms are produced, the
    tabular form is not. *)
#[export] Instance sample_world : World := {|
  can_open := fun _ => true;
  encodable := fun _ => true;
  can_print := fun _ => true;
  exn_text := fun _ _ => "error";
  json_text := fun _ => Ok "{}";
  csv_text := fun _ => Raise TypeError;
  txt_text := fun _ => Ok "report"
|}.



Definition empty_fs : fs := fun _ => None.

Definition sample_metrics : metrics :=
  {| DANGEROUS_PERMISSIONS_COUNT := 0; APK_DETECTION_COUNT := fun _ => 0 |}.

(** A report whose [dangerous] field omits a permission of the table. *)
Definition inconsistent_report : pyval :=
  PDict
    [("permissions",
      PDict [("total", PInt 2);
             ("list", str_list ["android.permission.CAMERA";
                                "android.permission.INTERNET"]);
             ("dangerous", str_list ["android.permission.INTERNET"])])].

(* ===================================================================== *)
(** ** [_save_csv] and [_save_txt]: what the two writers produce *)
(* ===================================================================== *)

(** [d.items()] in insertion order. *)
Definition dict_items (d : dict) : list (string * pyval) :=
  map (fun k => (k, dict_get d k PNone)) (dict_keys d).

(** [v.items()]: a method of dictionaries. *)
Definition py_items (v : pyval) : result (list (string * pyval)) :=
  match v with
  | PDict d => Ok (dict_items d)
  | _ => Raise AttributeError
  end.

Fixpoint repeat_str (s : string) (n : nat) : string :=
  match n with
  | O => EmptyString
  | S m => (s ++ repeat_str s m)%string
  end.

Fixpoint spaces (n : nat) : string :=
  match n with
  | O => EmptyString
  | S m => String " " (spaces m)
  end.

(** [{i:2d}]: right-aligned in a field of two characters. *)
Definition format_2d (i : Z) : string :=
  let s := Z_to_string i in
  (spaces (2 - String.length s) ++ s)%string.

(** [strftime('%Y-%m-%d %H:%M:%S')] *)
Definition strftime_long (t : datetime) : string :=
  (pad 4 (year t) ++ "-" ++ pad 2 (month t) ++ "-" ++ pad 2 (day t) ++ " " ++
   pad 2 (hour t) ++ ":" ++ pad 2 (minute t) ++ ":" ++ pad 2 (second t))%string.

Section Writers.

Context {rt : PyRuntime}.

(** A row is the list handed to [writer.writerow]. *)
Definition csv_key_value (item : string * pyval) : list pyval :=
  [PStr (fst item); PStr (py_str (snd item))].

(** The rows of the security section: every entry but the colour. *)
Definition csv_security_rows (items : list (string * pyval))
  : list (list pyval) :=
  map csv_key_value
    (filter (fun item => negb (String.eqb (fst item) "risk_color")) items).

(** The rows [_save_csv] writes when it runs to its end. *)
Definition csv_rows (report : pyval) : result (list (list pyval)) :=
  metadata <- py_get report "metadata" (PDict []) ;;
  metadata_items <- py_items metadata ;;
  section <- py_get report "permissions" (PDict []) ;;
  permissions <- py_get section "list" (PList []) ;;
  n <- py_len permissions ;;
  perms <- py_iter permissions ;;
  security <- py_get report "security_assessment" (PDict []) ;;
  security_items <- py_items security ;;
  recommendations <- py_get report "recommendations" (PList []) ;;
  recs <- py_iter recommendations ;;
  Ok ([[PStr "Метаданные"]] ++
      map csv_key_value metadata_items ++
      [[]] ++
      [[PStr "Разрешения"];
       [PStr "Общее количество"; PInt n];
       [PStr "Список разрешений"]] ++
      map (fun perm => [perm]) perms ++
      [[]] ++
      [[PStr "Оценка безопасности"]] ++
      csv_security_rows security_items ++
      [[]] ++
      [[PStr "Рекомендации"]] ++
      map (fun rec => [rec]) recs).

Local Open Scope string_scope.

(** The metadata lines: every entry but the version of the report. *)
Definition txt_metadata_line (item : string * pyval) : string :=
  if String.eqb (fst item) "report_version" then EmptyString
  else "  " ++ fst item ++ ": " ++ py_str (snd item) ++ nl.

Definition txt_bullet (v : pyval) : string := "  • " ++ py_str v ++ nl.

Definition txt_warning_line (v : pyval) : string :=
  "    ⚠ " ++ py_str v ++ nl.

(** The subsection of the dangerous permissions, written when the value
    under ['dangerous'] is true in a condition. *)
Definition txt_dangerous_block (dangerous : pyval) : result string :=
  if py_truthy dangerous then
    n <- py_len dangerous ;;
    perms <- py_iter dangerous ;;
    Ok ("⚠️  ОПАСНЫЕ РАЗРЕШЕНИЯ (" ++ Z_to_string n ++ "):" ++ nl ++
        concat_str (map txt_bullet perms) ++ nl)
  else Ok EmptyString.

(** [for i, perm in enumerate(all_perms, 1)] *)
Fixpoint txt_numbered (i : Z) (perms : list pyval) : string :=
  match perms with
  | [] => EmptyString
  | perm :: rest =>
      "  " ++ format_2d i ++ ". " ++ py_str perm ++ nl ++
      txt_numbered (i + 1) rest
  end.

Definition txt_warnings_block (warnings : pyval) : result string :=
  if py_truthy warnings then
    ws <- py_iter warnings ;;
    Ok ("  Предупреждения:" ++ nl ++ concat_str (map txt_warning_line ws))
  else Ok EmptyString.

(** The text [_save_txt] writes when it runs to its end; [now] is the
    instant the closing line reads from the clock. *)
Definition txt_content (now : datetime) (report : pyval) : result string :=
  metadata <- py_get report "metadata" (PDict []) ;;
  metadata_items <- py_items metadata ;;
  permissions <- py_get report "permissions" (PDict []) ;;
  total <- py_get permissions "total" (PInt 0) ;;
  dangerous <- py_get permissions "dangerous" (PList []) ;;
  dangerous_block <- txt_dangerous_block dangerous ;;
  all_perms <- py_get permissions "list" (PList []) ;;
  perms <- py_iter all_perms ;;
  security <- py_get report "security_assessment" (PDict []) ;;
  risk_level <- py_get security "risk_level" (PStr "неизвестно") ;;
  score <- py_get security "suspicious_score" (PInt 0) ;;
  warnings <- py_get security "warnings" (PList []) ;;
  warnings_block <- txt_warnings_block warnings ;;
  recommendations <- py_get report "recommendations" (PList []) ;;
  recs <- py_iter recommendations ;;
  stats <- py_get report "statistics" (PDict []) ;;
  total_permissions <- py_get stats "total_permissions" (PInt 0) ;;
  dangerous_permissions <- py_get stats "dangerous_permissions" (PInt 0) ;;
  activities <- py_get stats "activities" (PInt 0) ;;
  Ok (repeat_str "=" 60 ++ nl ++
      "ОТЧЕТ АНАЛИЗА БЕЗОПАСНОСТИ APK" ++ nl ++
      repeat_str "=" 60 ++ nl ++ nl ++
      "МЕТАДАННЫЕ:" ++ nl ++
      repeat_str "-" 40 ++ nl ++
      concat_str (map txt_metadata_line metadata_items) ++
      nl ++
      "РАЗРЕШЕНИЯ: " ++ py_str total ++ " всего" ++ nl ++
      repeat_str "-" 40 ++ nl ++
      dangerous_block ++
      "ВСЕ РАЗРЕШЕНИЯ:" ++ nl ++
      txt_numbered 1 perms ++
      nl ++
      "ОЦЕНКА БЕЗОПАСНОСТИ:" ++ nl ++
      repeat_str "-" 40 ++ nl ++
      "  Уровень риска: " ++ py_str risk_level ++ nl ++
      "  Оценка подозрительности: " ++ py_str score ++ "/10" ++ nl ++
      warnings_block ++
      nl ++
      "РЕКОМЕНДАЦИИ:" ++ nl ++
      repeat_str "-" 40 ++ nl ++
      concat_str (map txt_bullet recs) ++
      nl ++
      "СТАТИСТИКА:" ++ nl ++
      repeat_str "-" 40 ++ nl ++
      "  Всего разрешений: " ++ py_str total_permissions ++ nl ++
      "  Опасных разрешений: " ++ py_str dangerous_permissions ++ nl ++
      "  Активностей: " ++ py_str activities ++ nl ++
      nl ++ repeat_str "=" 60 ++ nl ++
      "Отчет сгенерирован: " ++ strftime_long now ++ nl ++
      repeat_str "=" 60 ++ nl).

End Writers.

(* ===================================================================== *)
(** ** Vocabulary of the further properties *)
(* ===================================================================== *)

(** None, an integer, a list or a dictionary: the values of the universe
    that have no method [lower]. *)
Definition lacks_lower (v : pyval) : Prop :=
  v = PNone \/ (exists z, v = PInt z) \/ (exists l, v = PList l) \/
  (exists d, v = PDict d).

(** None or an integer: the values of the universe that [len] and [for]
    refuse. *)
Definition unsized (v : pyval) : Prop :=
  v = PNone \/ exists z, v = PInt z.

(** A value a loop can run over and that yields strings: a list of
    strings, a string (its characters) or a dictionary (its keys). *)
Definition iterable_of_strs (v : pyval) : bool :=
  match v with
  | PList l => forallb is_str l
  | PStr _ | PDict _ => true
  | PNone | PInt _ => false
  end.

(** A value [len] accepts. *)
Definition sized (v : pyval) : bool :=
  match v with
  | PStr _ | PList _ | PDict _ => true
  | PNone | PInt _ => false
  end.

(** The inputs on which the body of [compose_report] raises nothing. *)
Definition composable (apk_info analysis_data : dict) : bool :=
  (name_is_str apk_info &&
   iterable_of_strs (dict_get analysis_data "Permissions" (PList [])) &&
   sized (dict_get analysis_data "Intents" (PDict [])))%bool.

(** The tiers of the composer in increasing order. *)
Definition tier_rank (level : string) : nat :=
  if String.eqb level risk_high then 2
  else if String.eqb level risk_medium then 1
  else 0.

(** The levels of the quick tier in increasing order. *)
Definition level_rank (level : string) : nat :=
  if String.eqb level level_high then 2
  else if String.eqb level level_medium then 1
  else 0.

(** The label under which the quick tier counts a level. *)
Definition detection_label (level : string) : string :=
  if String.eqb level level_high then "high"
  else if String.eqb level level_medium then "medium"
  else "low".

(** The value [__init__] gives to [self.reports_dir]:
    [os.path.join(output_dir or os.getcwd(), "analysis_reports")]. *)
Definition reports_dir_of (output_dir : option string) (cwd : string) : string :=
  path_join
    (match output_dir with
     | Some d => if String.eqb d EmptyString then cwd else d
     | None => cwd
     end)
    "analysis_reports".

(** A world whose tabular and plain-text writers are the modelled ones:
    [csv_encode] is the dialect of [csv.writer] and [stamp] the instant the
    plain-text writer reads; the rest is that of [base]. *)
Definition modelled_world {rt : PyRuntime} (base : World)
  (csv_encode : list (list pyval) -> string) (stamp : datetime) : World :=
  {| can_open := can_open (World := base);
     encodable := encodable (World := base);
     can_print := can_print (World := base);
     exn_text := exn_text (World := base);
     json_text := json_text (World := base);
     csv_text := fun report => rows <- csv_rows report ;; Ok (csv_encode rows);
     txt_text := txt_content stamp |}.

(** The dictionary [compose_report] builds, from its parts. *)
Definition composed_report (now : datetime) (apk_info analysis_data : dict)
  (total : Z) (dangerous : list pyval) (level : string) (color : pyval)
  (score : Z) (warnings recs : list string) (activities : Z) : pyval :=
  PDict
    [("metadata",
      PDict
        [("apk_name", dict_get apk_info "name" (PStr "Unknown"));
         ("apk_path", dict_get apk_info "path" (PStr EmptyString));
         ("file_size", dict_get apk_info "size" (PInt 0));
         ("last_modified",
          dict_get apk_info "last_modified" (PStr EmptyString));
         ("analysis_date", PStr (isoformat now));
         ("report_version", PStr "1.0")]);
     ("permissions",
      PDict
        [("total", PInt total);
         ("list", dict_get analysis_data "Permissions" (PList []));
         ("dangerous", PList dangerous)]);
     ("intents", dict_get analysis_data "Intents" (PDict []));
     ("security_assessment",
      PDict
        [("risk_level", PStr level);
         ("risk_color", color);
         ("suspicious_score", PInt score);
         ("dangerous_permissions_count",
          PInt (Z.of_nat (List.length dangerous)));
         ("warnings", PList (map PStr warnings))]);
     ("recommendations", PList (map PStr recs));
     ("statistics",
      PDict
        [("total_permissions", PInt total);
         ("dangerous_permissions", PInt (Z.of_nat (List.length dangerous)));
         ("activities", PInt activities);
         ("suspicious_score", PInt score)])].

(* ===================================================================== *)
(** ** [apk_analyzer]: [analyze_apk], [process_apk], [analyze_single_apk] *)
(* ===================================================================== *)

(** [os.path.basename] on the POSIX paths of the program: what follows the
    last slash. *)
Fixpoint after_last_slash (acc p : string) : string :=
  match p with
  | EmptyString => acc
  | String c rest =>
      if Ascii.eqb c "/" then after_last_slash EmptyString rest
      else after_last_slash (acc ++ String c EmptyString) rest
  end.

Definition basename (p : string) : string := after_last_slash EmptyString p.

(** [v or default] *)
Definition py_or (v default : pyval) : pyval :=
  if py_truthy v then v else default.

(** What androguard answers about an opened package; every call may
    raise. *)
Record apk_handle : Type := {
  get_permissions : result pyval;
  get_activities : result (list string);
  get_intent_filters : string -> string -> result pyval
}.

(** The module flag and the entry point of the library. *)
Class Androguard : Type := {
  ANDROGUARD_AVAILABLE : bool;
  AnalyzeAPK : string -> result apk_handle
}.

Section Analyzer.

Context {ag : Androguard}.

(** The data of the demonstration mode. *)
Definition demo_permissions : pyval :=
  str_list ["android.permission.INTERNET";
            "android.permission.ACCESS_NETWORK_STATE";
            "android.permission.READ_EXTERNAL_STORAGE"].

Definition demo_intents : pyval :=
  PDict
    [("com.example.MainActivity",
      PDict [("actions", str_list ["android.intent.action.MAIN"]);
             ("categories", str_list ["android.intent.category.LAUNCHER"]);
             ("data", PList [])])].

(** The loop over the activities. *)
Fixpoint intents_loop (apk_info : apk_handle) (activities : list string)
  (intents : dict) : result dict :=
  match activities with
  | [] => Ok intents
  | activity :: rest =>
      actions <- get_intent_filters apk_info activity "action" ;;
      categories <- get_intent_filters apk_info activity "category" ;;
      data <- get_intent_filters apk_info activity "data" ;;
      let intent_filters :=
        PDict [("actions", py_or actions (PList []));
               ("categories", py_or categories (PList []));
               ("data", py_or data (PList []))] in
      intents_loop apk_info rest (dict_set intents activity intent_filters)
  end.

(** The body of the [try] of [analyze_apk]. *)
Definition analyze_apk_try (apk_path : string) : result (pyval * pyval) :=
  apk_info <- AnalyzeAPK apk_path ;;
  ps <- get_permissions apk_info ;;
  let permissions := py_or ps (PList []) in
  activities <- get_activities apk_info ;;
  intents <- intents_loop apk_info activities [] ;;
  Ok (permissions, PDict intents).

(** Any exception of the body is reported on the console and answered with
    an empty list and an empty dictionary. *)
Definition analyze_apk (apk_path : string) : pyval * pyval :=
  if negb ANDROGUARD_AVAILABLE then (demo_permissions, demo_intents)
  else
    match analyze_apk_try apk_path with
    | Ok r => r
    | Raise _ => (PList [], PDict [])
    end.

(** [analyze_apk] raises nothing, so the list always has its entry. *)
Definition process_apk (apk_path : string) : list dict :=
  let '(permissions, intents) := analyze_apk apk_path in
  [[("APK", PStr (basename apk_path));
    ("Path", PStr apk_path);
    ("Permissions", permissions);
    ("Intents", intents)]].

(** The [apk_info] dictionary [analyze_single_apk] builds from the first
    entry, the size of the file and the clock. *)
Definition single_apk_info (entry : dict) (size : Z) (stamp : datetime)
  : result dict :=
  name <- py_getitem (PDict entry) "APK" ;;
  path <- py_getitem (PDict entry) "Path" ;;
  Ok [("name", name);
      ("path", path);
      ("size", PInt size);
      ("last_modified", PStr (strftime_long stamp))].

End Analyzer.

(** A library that lists two permissions and one activity, and one that
    fails on every file. *)
Definition sample_handle : apk_handle :=
  {| get_permissions := Ok (str_list sample_permissions);
     get_activities := Ok ["com.example.MainActivity"];
     get_intent_filters := fun _ _ => Ok PNone |}.

Definition sample_androguard : Androguard :=
  {| ANDROGUARD_AVAILABLE := true; AnalyzeAPK := fun _ => Ok sample_handle |}.


(** Case analysis on the steps of a block that ended without exception. *)
Ltac bind_inv H :=
  unfold bind in H;
  repeat match type of H with
         | context [match ?c with Ok _ => _ | Raise _ => _ end] =>
             let E := fresh "E" in destruct c eqn:E; try discriminate H
         end.

(* ===================================================================== *)
(** * Properties *)
(* ===================================================================== *)

(** ** Strings and dictionaries *)

Lemma prefix_spec (a b : string) :
  String.prefix a b = true <-> exists c, b = (a ++ c)%string.
Proof.
  revert b; induction a as [|x a IH]; intros b.
  - split; [intros _; exists b; reflexivity | destruct b; reflexivity].
  - destruct b as [|y b]; simpl.
    + split; [discriminate | intros [c H]; discriminate].
    + destruct (Ascii.ascii_dec x y) as [->|Hne].
      * rewrite IH. split; intros [c H]; exists c; congruence.
      * split; [discriminate | intros [c H]; congruence].
Qed.

(** [is_substring] decides the occurrence of [needle] inside [hay]. *)
Lemma is_substring_spec (needle hay : string) :
  is_substring needle hay = true <->
  exists a b, hay = (a ++ needle ++ b)%string.
Proof.
  induction hay as [|c hay IH]; cbn [is_substring].
  - rewrite prefix_spec. split.
    + intros [b H]. exists EmptyString, b. exact H.
    + intros [a [b H]]. destruct a; simpl in H; [exists b; exact H|discriminate].
  - rewrite orb_true_iff, prefix_spec, IH. split.
    + intros [[b H]|[a [b H]]].
      * exists EmptyString, b. exact H.
      * exists (String c a), b. simpl. congruence.
    + intros [a [b H]]. destruct a as [|x a]; simpl in H.
      * left. exists b. exact H.
      * right. exists a, b. congruence.
Qed.

Lemma dict_get_absent (d : dict) (k : string) (default : pyval) :
  dict_lookup k d = None -> dict_get d k default = default.
Proof. unfold dict_get. intros ->. reflexivity. Qed.

Lemma dict_get_present (d : dict) (k : string) (v default : pyval) :
  dict_lookup k d = Some v -> dict_get d k default = v.
Proof. unfold dict_get. intros ->. reflexivity. Qed.

Lemma strs_of_map (l : list string) : strs_of (map PStr l) = l.
Proof. induction l as [|s l IH]; simpl; congruence. Qed.

Lemma forallb_is_str (l : list pyval) :
  forallb is_str l = true -> l = map PStr (strs_of l).
Proof.
  induction l as [|v l IH]; simpl; intros H; [reflexivity|].
  apply andb_true_iff in H. destruct H as [Hv Hl].
  destruct v; try discriminate. simpl. f_equal. auto.
Qed.

Lemma typed_name (apk_info : dict) :
  name_is_str apk_info = true ->
  dict_get apk_info "name" (PStr EmptyString) = PStr (name_of apk_info).
Proof.
  unfold name_is_str, dict_get, name_of.
  destruct (dict_lookup "name" apk_info) as [v|]; [|reflexivity].
  destruct v; simpl; intros H; try discriminate. reflexivity.
Qed.

Lemma typed_permissions (analysis_data : dict) :
  permissions_are_strs analysis_data = true ->
  dict_get analysis_data "Permissions" (PList []) =
  str_list (permissions_of analysis_data).
Proof.
  unfold permissions_are_strs, dict_get, permissions_of, str_list.
  destruct (dict_lookup "Permissions" analysis_data) as [v|]; [|reflexivity].
  destruct v; intros H; try discriminate.
  f_equal. apply forallb_is_str. exact H.
Qed.

(** ** Subsequences *)

Lemma Subseq_refl {A : Type} (l : list A) : Subseq l l.
Proof. induction l; constructor; assumption. Qed.

Lemma Subseq_filter {A : Type} (f : A -> bool) (l : list A) :
  Subseq (filter f l) l.
Proof.
  induction l as [|x l IH]; simpl; [constructor|].
  destruct (f x); constructor; assumption.
Qed.

Lemma Subseq_In {A : Type} (l1 l2 : list A) (x : A) :
  Subseq l1 l2 -> In x l1 -> In x l2.
Proof.
  induction 1 as [|y l1 l2 _ IH|y l1 l2 _ IH]; simpl; intuition.
Qed.

Lemma Subseq_length {A : Type} (l1 l2 : list A) :
  Subseq l1 l2 -> (List.length l1 <= List.length l2)%nat.
Proof. induction 1; simpl; lia. Qed.

Lemma Subseq_map {A B : Type} (f : A -> B) (l1 l2 : list A) :
  Subseq l1 l2 -> Subseq (map f l1) (map f l2).
Proof. induction 1; simpl; constructor; assumption. Qed.

Lemma filter_count_occ (f : string -> bool) (l : list string) (p : string) :
  (count_occ string_dec (filter f l) p <= count_occ string_dec l p)%nat.
Proof.
  induction l as [|x l IH]; simpl; [lia|].
  destruct (f x); simpl; destruct (string_dec x p); lia.
Qed.

Lemma filter_NoDup (f : string -> bool) (l : list string) :
  NoDup l -> NoDup (filter f l).
Proof.
  induction 1 as [|x l Hx Hl IH]; simpl; [constructor|].
  destruct (f x); [|assumption].
  constructor; [|assumption].
  intros Hin. apply filter_In in Hin. tauto.
Qed.

(** ** Arithmetic of the score *)

Lemma keyword_hits_from (keywords : list string) (name_lower : string) (acc : Z) :
  fold_left
    (fun score keyword =>
       if is_substring keyword name_lower then score + 1 else score)
    keywords acc =
  acc + Z.of_nat
          (List.length (filter (fun k => is_substring k name_lower) keywords)).
Proof.
  revert acc; induction keywords as [|k ks IH]; intros acc; simpl; [lia|].
  rewrite IH. destruct (is_substring k name_lower); simpl List.length; lia.
Qed.

Lemma keyword_hits_nonneg (keywords : list string) (name_lower : string) :
  0 <= keyword_hits keywords name_lower.
Proof. unfold keyword_hits. rewrite keyword_hits_from. lia. Qed.

Lemma raw_score_doubled (hits count : Z) :
  ((raw_score hits count) * 2 == inject_Z (2 * hits + count))%Q.
Proof.
  unfold raw_score, Qeq, Qmult, Qplus, inject_Z.
  cbn -[Z.mul Z.add]. lia.
Qed.

Lemma py_int_doubled (hits count : Z) :
  py_int (raw_score hits count * 2)%Q = 2 * hits + count.
Proof.
  unfold py_int, raw_score, Qmult, Qplus, inject_Z.
  cbn -[Z.mul Z.add Z.quot].
  replace ((hits * 2 + count * 1 * 1) * 2) with ((2 * hits + count) * 2) by lia.
  apply Z.quot_mul. discriminate.
Qed.

Lemma floor_doubled (hits count : Z) :
  Qfloor ((inject_Z hits + inject_Z count * (1 # 2)) * 2)%Q = 2 * hits + count.
Proof.
  unfold Qfloor, Qmult, Qplus, inject_Z.
  cbn -[Z.mul Z.add Z.div].
  replace ((hits * 2 + count * 1 * 1) * 2) with ((2 * hits + count) * 2) by lia.
  apply Z.div_mul. discriminate.
Qed.

Lemma normalise_range (hits count : Z) :
  0 <= hits -> 0 <= count -> 0 <= normalise (raw_score hits count) <= 10.
Proof.
  intros Hh Hc. unfold normalise. rewrite py_int_doubled. lia.
Qed.

Section ComposerFacts.

Context {rt : PyRuntime}.

(** ** Extraction *)

Lemma matches_table_str (table : list string) (p : string) :
  matches_table table (PStr p) = Ok (contains_entry table p).
Proof.
  induction table as [|d table IH]; simpl; [reflexivity|].
  destruct (is_substring (lower d) (lower p)); simpl; [reflexivity|exact IH].
Qed.

Lemma extract_loop_strs (table : list string) (perms : list string) :
  extract_loop table (map PStr perms) =
  Ok (map PStr (filter (contains_entry table) perms)).
Proof.
  induction perms as [|p perms IH]; simpl; [reflexivity|].
  rewrite matches_table_str, IH. simpl.
  destruct (contains_entry table p); reflexivity.
Qed.

Lemma extract_strs (perms : list string) :
  _extract_dangerous_permissions (str_list perms) =
  Ok (map PStr (filter is_dangerous perms)).
Proof.
  unfold _extract_dangerous_permissions, str_list. simpl.
  apply extract_loop_strs.
Qed.

Lemma extract_loop_subseq (table : list string) (perms out : list pyval) :
  extract_loop table perms = Ok out -> Subseq out perms.
Proof.
  revert out; induction perms as [|p perms IH]; simpl; intros out H.
  - injection H as <-. constructor.
  - bind_inv H. injection H as <-.
    destruct a; constructor; apply IH; reflexivity.
Qed.

Lemma extract_subseq (permissions : pyval) (out : list pyval) :
  _extract_dangerous_permissions permissions = Ok out ->
  exists elems, py_iter permissions = Ok elems /\ Subseq out elems.
Proof.
  unfold _extract_dangerous_permissions. intros H. bind_inv H.
  eexists; split; [reflexivity|]. eapply extract_loop_subseq; eassumption.
Qed.

Lemma is_dangerous_spec (p : string) :
  is_dangerous p = true <->
  exists d a b, In d dangerous_permissions /\
                lower p = (a ++ lower d ++ b)%string.
Proof.
  unfold is_dangerous, contains_entry. rewrite existsb_exists. split.
  - intros [d [Hd H]]. apply is_substring_spec in H.
    destruct H as [a [b H]]. exists d, a, b. auto.
  - intros [d [a [b [Hd H]]]]. exists d. split; [exact Hd|].
    apply is_substring_spec. exists a, b. exact H.
Qed.

(** ** The score *)

Lemma keyword_hits_count (keywords : list string) (name : string) :
  keyword_hits keywords (lower name) = keyword_count keywords name.
Proof.
  unfold keyword_hits, keyword_count. rewrite keyword_hits_from. reflexivity.
Qed.

Lemma score_strs (apk_info analysis_data : dict) (name : string)
  (perms : list string) :
  dict_get apk_info "name" (PStr EmptyString) = PStr name ->
  dict_get analysis_data "Permissions" (PList []) = str_list perms ->
  _calculate_suspicious_score apk_info analysis_data =
  Ok (score_spec name perms).
Proof.
  intros Hn Hp. unfold _calculate_suspicious_score.
  rewrite Hn, Hp, extract_strs. simpl.
  unfold normalise, score_spec, dangerous_count_of.
  rewrite py_int_doubled, floor_doubled, keyword_hits_count, length_map.
  reflexivity.
Qed.

Lemma score_range (apk_info analysis_data : dict) (score : Z) :
  _calculate_suspicious_score apk_info analysis_data = Ok score ->
  0 <= score <= 10.
Proof.
  unfold _calculate_suspicious_score. intros H. bind_inv H.
  injection H as <-. apply normalise_range.
  - apply keyword_hits_nonneg.
  - lia.
Qed.

Lemma score_spec_value (name : string) (perms : list string) :
  score_spec name perms =
  Z.min (2 * keyword_count suspicious_keywords name + dangerous_count_of perms) 10.
Proof. unfold score_spec. rewrite floor_doubled. reflexivity. Qed.

(** ** Warnings *)

Lemma first_keyword_find (keywords : list string) (name : string) :
  first_keyword keywords (lower name) = find (occurs_in name) keywords.
Proof.
  induction keywords as [|k ks IH]; simpl; [reflexivity|].
  unfold occurs_in at 1. destruct (is_substring k (lower name)); auto.
Qed.

Lemma find_first {A : Type} (f : A -> bool) (l : list A) (x : A) :
  find f l = Some x ->
  exists pre post, l = pre ++ x :: post /\ f x = true /\
                   forall y, In y pre -> f y = false.
Proof.
  induction l as [|y l IH]; simpl; [discriminate|].
  destruct (f y) eqn:Hy.
  - intros H; injection H as <-. exists [], l. simpl. tauto.
  - intros H. destruct (IH H) as [pre [post [-> [Hx Hpre]]]].
    exists (y :: pre), post. simpl. repeat split; auto.
    intros z [<-|Hz]; auto.
Qed.

Lemma find_none {A : Type} (f : A -> bool) (l : list A) :
  find f l = None <-> forall y, In y l -> f y = false.
Proof.
  induction l as [|y l IH]; simpl.
  - split; [intros _ z []|reflexivity].
  - destruct (f y) eqn:Hy.
    + split; [discriminate|]. intros H. rewrite (H y) in Hy by auto. discriminate.
    + rewrite IH. split.
      * intros H z [<-|Hz]; auto.
      * intros H z Hz. apply H. auto.
Qed.

Lemma warnings_strs (apk_info analysis_data : dict) (name : string)
  (perms : list string) :
  dict_get apk_info "name" (PStr EmptyString) = PStr name ->
  dict_get analysis_data "Permissions" (PList []) = str_list perms ->
  _generate_warnings apk_info analysis_data = Ok (warnings_spec name perms).
Proof.
  intros Hn Hp. unfold _generate_warnings, warnings_spec.
  rewrite Hn, Hp, extract_strs. cbn [bind py_lower py_len str_list].
  rewrite first_keyword_find, !length_map. unfold dangerous_count_of.
  f_equal.
  assert (Hw1 : match map PStr (filter is_dangerous perms) with
                | [] => []
                | _ :: _ =>
                    [warn_dangerous (Z.of_nat (List.length (filter is_dangerous perms)))]
                end =
                if 0 <? Z.of_nat (List.length (filter is_dangerous perms))
                then [warn_dangerous (Z.of_nat (List.length (filter is_dangerous perms)))]
                else []).
  { destruct (filter is_dangerous perms); reflexivity. }
  rewrite Hw1.
  destruct (0 <? Z.of_nat (List.length (filter is_dangerous perms)));
    destruct (find (occurs_in name) suspicious_keywords);
    destruct (20 <? Z.of_nat (List.length perms)); reflexivity.
Qed.

Lemma warnings_spec_length (name : string) (perms : list string) :
  (List.length (warnings_spec name perms) <= 3)%nat.
Proof.
  unfold warnings_spec.
  destruct (0 <? dangerous_count_of perms);
    destruct (find (occurs_in name) suspicious_keywords);
    destruct (20 <? Z.of_nat (List.length perms)); simpl; lia.
Qed.

Lemma warnings_length (apk_info analysis_data : dict) (ws : list string) :
  _generate_warnings apk_info analysis_data = Ok ws ->
  (List.length ws <= 3)%nat.
Proof.
  unfold _generate_warnings. intros H. bind_inv H.
  remember (first_keyword suspicious_keywords a0) as hit eqn:Ehit in H.
  clear Ehit. injection H as <-.
  destruct a; destruct hit; destruct (20 <? a1); simpl; lia.
Qed.

(** ** The assessment *)

Lemma risk_tier_spec (score count : Z) :
  fst (risk_tier score count) = tier_spec score count.
Proof.
  unfold risk_tier, tier_spec.
  destruct (Z_le_dec 7 score) as [H7|H7];
    [apply Z.leb_le in H7|apply Z.leb_nle in H7]; rewrite H7; simpl;
    [reflexivity|].
  destruct (Z_le_dec 3 count) as [H3|H3];
    [apply Z.leb_le in H3|apply Z.leb_nle in H3]; rewrite H3; simpl;
    [reflexivity|].
  destruct (Z_le_dec 4 score) as [H4|H4];
    [apply Z.leb_le in H4|apply Z.leb_nle in H4]; rewrite H4; simpl;
    [reflexivity|].
  destruct (Z_le_dec 1 count) as [H1|H1];
    [apply Z.leb_le in H1|apply Z.leb_nle in H1]; rewrite H1; reflexivity.
Qed.

(** Whatever the input, an assessment that is returned has this shape. *)
Lemma assess_shape (apk_info analysis_data : dict) (sa : pyval) :
  _assess_security apk_info analysis_data = Ok sa ->
  exists dangerous score warnings,
    _extract_dangerous_permissions
      (dict_get analysis_data "Permissions" (PList [])) = Ok dangerous /\
    _calculate_suspicious_score apk_info analysis_data = Ok score /\
    _generate_warnings apk_info analysis_data = Ok warnings /\
    sa = PDict
           [("risk_level",
             PStr (tier_spec score (Z.of_nat (List.length dangerous))));
            ("risk_color",
             snd (risk_tier score (Z.of_nat (List.length dangerous))));
            ("suspicious_score", PInt score);
            ("dangerous_permissions_count",
             PInt (Z.of_nat (List.length dangerous)));
            ("warnings", PList (map PStr warnings))].
Proof.
  unfold _assess_security. intros H.
  destruct (_extract_dangerous_permissions _) as [dangerous|] eqn:Ed;
    [|discriminate].
  destruct (_calculate_suspicious_score _ _) as [score|] eqn:Es;
    [|discriminate].
  unfold bind in H.
  destruct (risk_tier score (Z.of_nat (List.length dangerous)))
    as [level color] eqn:Et.
  destruct (_generate_warnings _ _) as [warnings|] eqn:Ew; [|discriminate].
  injection H as <-. exists dangerous, score, warnings.
  repeat split; try reflexivity.
  rewrite <- risk_tier_spec, Et. reflexivity.
Qed.

Lemma assess_strs (apk_info analysis_data : dict) (name : string)
  (perms : list string) :
  dict_get apk_info "name" (PStr EmptyString) = PStr name ->
  dict_get analysis_data "Permissions" (PList []) = str_list perms ->
  _assess_security apk_info analysis_data =
  Ok (PDict
        [("risk_level",
          PStr (tier_spec (score_spec name perms) (dangerous_count_of perms)));
         ("risk_color",
          snd (risk_tier (score_spec name perms) (dangerous_count_of perms)));
         ("suspicious_score", PInt (score_spec name perms));
         ("dangerous_permissions_count", PInt (dangerous_count_of perms));
         ("warnings", PList (map PStr (warnings_spec name perms)))]).
Proof.
  intros Hn Hp. unfold _assess_security.
  rewrite (score_strs _ _ _ _ Hn Hp), (warnings_strs _ _ _ _ Hn Hp).
  rewrite Hp, extract_strs. simpl. rewrite length_map.
  fold (dangerous_count_of perms). rewrite <- risk_tier_spec.
  destruct (risk_tier (score_spec name perms) (dangerous_count_of perms));
    reflexivity.
Qed.

(** ** Recommendations *)

Lemma recommendations_nonempty (report : pyval) (recs : list string) :
  _generate_recommendations report = Ok recs -> recs <> [].
Proof.
  unfold _generate_recommendations. intros H. bind_inv H.
  injection H as <-.
  match goal with
  | |- match ?r3 with [] => _ | _ :: _ => _ end <> [] =>
      destruct r3; discriminate
  end.
Qed.

Lemma recommendations_from_fields (report security risk : pyval) (count n : Z) :
  py_get report "security_assessment" (PDict []) = Ok security ->
  py_get security "risk_level" PNone = Ok risk ->
  py_get security "dangerous_permissions_count" (PInt 0) = Ok (PInt count) ->
  listed_permissions report = Ok n ->
  _generate_recommendations report =
  Ok (recommendations_spec (py_eq_str risk risk_high) count n).
Proof.
  intros Hs Hr Hc Hn. unfold _generate_recommendations.
  rewrite Hs. cbn [bind]. rewrite Hr. cbn [bind]. rewrite Hc.
  cbn [bind py_gt_int].
  assert (Hshown : (0 <? count) = true ->
                   py_getitem security "dangerous_permissions_count" =
                   Ok (PInt count)).
  { intros Hpos. destruct security; try discriminate Hc.
    unfold py_get, dict_get in Hc. unfold py_getitem.
    destruct (dict_lookup "dangerous_permissions_count" d) as [v|].
    - congruence.
    - injection Hc as <-. discriminate Hpos. }
  unfold listed_permissions in Hn. unfold recommendations_spec.
  destruct (0 <? count) eqn:Hpos.
  - rewrite (Hshown eq_refl). cbn [bind].
    destruct (py_get report "permissions" (PDict [])) as [perms|];
      [|discriminate Hn].
    cbn [bind] in *.
    destruct (py_get perms "list" (PList [])) as [all_perms|];
      [|discriminate Hn].
    cbn [bind] in *. rewrite Hn. cbn [bind].
    destruct (py_eq_str risk risk_high); destruct (25 <? n); reflexivity.
  - cbn [bind].
    destruct (py_get report "permissions" (PDict [])) as [perms|];
      [|discriminate Hn].
    cbn [bind] in *.
    destruct (py_get perms "list" (PList [])) as [all_perms|];
      [|discriminate Hn].
    cbn [bind] in *. rewrite Hn. cbn [bind].
    destruct (py_eq_str risk risk_high); destruct (25 <? n); reflexivity.
Qed.

(** ** The composed report *)

(** Whatever the input, a report that the body of [compose_report]
    returns has these six entries. *)
Lemma compose_shape (now : datetime) (apk_info analysis_data : dict)
  (report : pyval) :
  compose_report_try now apk_info analysis_data = Ok report ->
  exists total dangerous sa activities score recs,
    py_len (dict_get analysis_data "Permissions" (PList [])) = Ok total /\
    _extract_dangerous_permissions
      (dict_get analysis_data "Permissions" (PList [])) = Ok dangerous /\
    _assess_security apk_info analysis_data = Ok sa /\
    py_len (dict_get analysis_data "Intents" (PDict [])) = Ok activities /\
    _calculate_suspicious_score apk_info analysis_data = Ok score /\
    recs <> [] /\
    field report "metadata" =
      Some (PDict
              [("apk_name", dict_get apk_info "name" (PStr "Unknown"));
               ("apk_path", dict_get apk_info "path" (PStr EmptyString));
               ("file_size", dict_get apk_info "size" (PInt 0));
               ("last_modified",
                dict_get apk_info "last_modified" (PStr EmptyString));
               ("analysis_date", PStr (isoformat now));
               ("report_version", PStr "1.0")]) /\
    field report "permissions" =
      Some (PDict
              [("total", PInt total);
               ("list", dict_get analysis_data "Permissions" (PList []));
               ("dangerous", PList dangerous)]) /\
    field report "intents" =
      Some (dict_get analysis_data "Intents" (PDict [])) /\
    field report "security_assessment" = Some sa /\
    field report "recommendations" = Some (PList (map PStr recs)) /\
    field report "statistics" =
      Some (PDict
              [("total_permissions", PInt total);
               ("dangerous_permissions",
                PInt (Z.of_nat (List.length dangerous)));
               ("activities", PInt activities);
               ("suspicious_score", PInt score)]).
Proof.
  unfold compose_report_try. intros H.
  destruct (py_len (dict_get analysis_data "Permissions" (PList [])))
    as [total|] eqn:Et; [|discriminate].
  destruct (_extract_dangerous_permissions _) as [dangerous|] eqn:Ed;
    [|discriminate].
  destruct (_assess_security _ _) as [sa|] eqn:Ea; [|discriminate].
  destruct (py_len (dict_get analysis_data "Intents" (PDict [])))
    as [activities|] eqn:Ei; [|discriminate].
  destruct (_calculate_suspicious_score _ _) as [score|] eqn:Es;
    [|discriminate].
  cbn [bind] in H.
  destruct (_generate_recommendations _) as [recs|] eqn:Er; [|discriminate].
  cbn [bind] in H. injection H as <-.
  exists total, dangerous, sa, activities, score, recs.
  repeat (split; [reflexivity|]).
  split; [eapply recommendations_nonempty; exact Er|].
  repeat split; reflexivity.
Qed.

End ComposerFacts.

(* ===================================================================== *)
(** ** The claims about the composer *)
(* ===================================================================== *)

Lemma compose_nonempty {rt : PyRuntime} (now : datetime)
  (apk_info analysis_data : dict) :
  compose_report now apk_info analysis_data <> PDict [] ->
  compose_report_try now apk_info analysis_data =
  Ok (compose_report now apk_info analysis_data).
Proof.
  unfold compose_report.
  destruct (compose_report_try now apk_info analysis_data); [reflexivity|].
  intros H. exfalso. apply H. reflexivity.
Qed.

Lemma tier_spec_cases (score count : Z) :
  ((7 <= score \/ 3 <= count) -> tier_spec score count = risk_high) /\
  (~ (7 <= score \/ 3 <= count) -> (4 <= score \/ 1 <= count) ->
   tier_spec score count = risk_medium) /\
  (~ (7 <= score \/ 3 <= count) -> ~ (4 <= score \/ 1 <= count) ->
   tier_spec score count = risk_low).
Proof.
  unfold tier_spec.
  destruct (Z_le_dec 7 score); destruct (Z_le_dec 3 count);
    destruct (Z_le_dec 4 score); destruct (Z_le_dec 1 count);
    repeat split; intros; try reflexivity; exfalso; tauto.
Qed.

(** C1: the risk level of the assessment, which the composed report
    carries, is "высокий" when the score is at least 7 or at least 3
    permissions are dangerous, otherwise "средний" when the score is at
    least 4 or at least 1 permission is dangerous, otherwise "низкий"; an
    assessment is produced for every well-typed input; and for
    "CleanApp.apk" with READ_SMS and CAMERA the score is 2 and the level
    "средний". *)
Theorem C1_composer_risk_tier (rt : PyRuntime) (now : datetime)
  (apk_info analysis_data : dict) :
  (forall sa,
      _assess_security apk_info analysis_data = Ok sa ->
      exists score dangerous level,
        _calculate_suspicious_score apk_info analysis_data = Ok score /\
        _extract_dangerous_permissions
          (dict_get analysis_data "Permissions" (PList [])) = Ok dangerous /\
        field sa "suspicious_score" = Some (PInt score) /\
        field sa "dangerous_permissions_count" =
          Some (PInt (Z.of_nat (List.length dangerous))) /\
        field sa "risk_level" = Some (PStr level) /\
        ((7 <= score \/ 3 <= Z.of_nat (List.length dangerous)) ->
         level = risk_high) /\
        (~ (7 <= score \/ 3 <= Z.of_nat (List.length dangerous)) ->
         (4 <= score \/ 1 <= Z.of_nat (List.length dangerous)) ->
         level = risk_medium) /\
        (~ (7 <= score \/ 3 <= Z.of_nat (List.length dangerous)) ->
         ~ (4 <= score \/ 1 <= Z.of_nat (List.length dangerous)) ->
         level = risk_low)) /\
  (compose_report now apk_info analysis_data <> PDict [] ->
   exists sa,
     _assess_security apk_info analysis_data = Ok sa /\
     field (compose_report now apk_info analysis_data) "security_assessment" =
       Some sa) /\
  (name_is_str apk_info = true ->
   permissions_are_strs analysis_data = true ->
   exists sa, _assess_security apk_info analysis_data = Ok sa) /\
  (let report :=
     compose_report (rt := ascii_runtime) now
       [("name", PStr "CleanApp.apk")]
       [("Permissions",
         str_list ["android.permission.READ_SMS";
                   "android.permission.CAMERA"])] in
   field2 report "security_assessment" "suspicious_score" = Some (PInt 2) /\
   field2 report "security_assessment" "dangerous_permissions_count" =
     Some (PInt 2) /\
   field2 report "security_assessment" "risk_level" = Some (PStr risk_medium)).
Proof.
  split; [|split; [|split]].
  - intros sa Hsa.
    destruct (assess_shape _ _ _ Hsa)
      as [dangerous [score [warnings [Hd [Hs [_ ->]]]]]].
    exists score, dangerous,
      (tier_spec score (Z.of_nat (List.length dangerous))).
    destruct (tier_spec_cases score (Z.of_nat (List.length dangerous)))
      as [Hh [Hm Hl]].
    repeat split; auto.
  - intros Hne. apply compose_nonempty in Hne.
    destruct (compose_shape _ _ _ _ Hne)
      as [total [dangerous [sa [activities [score [recs H]]]]]].
    exists sa. intuition.
  - intros Hn Hp. eexists.
    apply (assess_strs _ _ _ _ (typed_name _ Hn) (typed_permissions _ Hp)).
  - vm_compute. repeat split.
Qed.

Lemma C1_composer_risk_tier_witness :
  exists sa,
    _assess_security (rt := ascii_runtime) sample_apk_info
      sample_analysis_data = Ok sa /\
    field sa "risk_level" = Some (PStr risk_medium).
Proof.
  destruct (C1_composer_risk_tier ascii_runtime sample_now sample_apk_info
              sample_analysis_data) as [Htier [_ [Htotal _]]].
  destruct (Htotal eq_refl eq_refl) as [sa Hsa].
  exists sa. split; [exact Hsa|].
  destruct (Htier sa Hsa)
    as [score [dangerous [level [Hs [Hd [_ [_ [Hl [_ [Hm _]]]]]]]]]].
  vm_compute in Hs. injection Hs as <-.
  vm_compute in Hd. injection Hd as <-.
  rewrite Hl. f_equal. f_equal. apply Hm.
  - cbn. lia.
  - right. cbn. lia.
Defined.

(** C2: on a file name and a permission list the score is
    [min(floor((keyword_hits + dangerous_count * 0.5) * 2), 10)], where
    [keyword_hits] counts the entries of the keyword table found in the
    lower-cased name and [dangerous_count] the dangerous permissions; every
    score that is returned lies between 0 and 10; and "FreePremiumHack.apk"
    with no permission scores 6. *)
Theorem C2_suspicious_score (rt : PyRuntime) (apk_info analysis_data : dict) :
  (name_is_str apk_info = true ->
   permissions_are_strs analysis_data = true ->
   let keyword_hits := keyword_count suspicious_keywords (name_of apk_info) in
   let dangerous_count := dangerous_count_of (permissions_of analysis_data) in
   _calculate_suspicious_score apk_info analysis_data =
   Ok (Z.min
         (Qfloor ((inject_Z keyword_hits + inject_Z dangerous_count * (1 # 2))
                  * 2)%Q)
         10)) /\
  (forall score,
      _calculate_suspicious_score apk_info analysis_data = Ok score ->
      0 <= score <= 10) /\
  _calculate_suspicious_score (rt := ascii_runtime)
    [("name", PStr "FreePremiumHack.apk")] [("Permissions", PList [])] = Ok 6.
Proof.
  split; [|split].
  - intros Hn Hp keyword_hits dangerous_count.
    rewrite (score_strs _ _ _ _ (typed_name _ Hn) (typed_permissions _ Hp)).
    reflexivity.
  - intros score. apply score_range.
  - vm_compute. reflexivity.
Qed.

Lemma C2_suspicious_score_witness :
  _calculate_suspicious_score (rt := ascii_runtime) sample_apk_info
    sample_analysis_data =
  Ok (Z.min
        (Qfloor
           ((inject_Z (keyword_count suspicious_keywords "CleanApp.apk") +
             inject_Z (dangerous_count_of sample_permissions) * (1 # 2)) * 2)%Q)
        10) /\
  0 <= 2 <= 10.
Proof.
  destruct (C2_suspicious_score ascii_runtime sample_apk_info
              sample_analysis_data) as [Hscore [Hrange _]].
  split.
  - exact (Hscore eq_refl eq_refl).
  - apply Hrange. vm_compute. reflexivity.
Defined.

(** C3, as the code has it: on a list of strings the extraction returns
    the entries that contain, letter case apart, some entry of the table of
    dangerous permissions, in the order of the input; an entry is emitted
    once for each of its occurrences in the input, so a permission occurs in
    the output no more often than in the input, and the output has no
    repetition when the input has none. *)
Theorem C3_extraction (rt : PyRuntime) (perms : list string) :
  exists dangerous,
    _extract_dangerous_permissions (str_list perms) = Ok (map PStr dangerous) /\
    dangerous = filter is_dangerous perms /\
    (forall p,
        In p dangerous <->
        In p perms /\
        exists d a b, In d dangerous_permissions /\
                      lower p = (a ++ lower d ++ b)%string) /\
    Subseq dangerous perms /\
    (forall p,
        (count_occ string_dec dangerous p <= count_occ string_dec perms p)%nat) /\
    (NoDup perms -> NoDup dangerous).
Proof.
  exists (filter is_dangerous perms). split; [apply extract_strs|].
  split; [reflexivity|]. split; [|split; [|split]].
  - intros p. rewrite filter_In, is_dangerous_spec. reflexivity.
  - apply Subseq_filter.
  - intros p. apply filter_count_occ.
  - apply filter_NoDup.
Qed.

Lemma C3_extraction_witness :
  _extract_dangerous_permissions (rt := ascii_runtime)
    (str_list sample_permissions) =
    Ok (map PStr (filter is_dangerous sample_permissions)) /\
  NoDup (filter (is_dangerous (rt := ascii_runtime)) sample_permissions).
Proof.
  destruct (C3_extraction ascii_runtime sample_permissions)
    as [dangerous [Hrun [Heq [_ [_ [_ Hnodup]]]]]].
  rewrite <- Heq. split; [exact Hrun|].
  apply Hnodup. unfold sample_permissions.
  constructor.
  - simpl. intros [H|[]]. discriminate H.
  - constructor; [intros []|constructor].
Defined.

(** C3, as stated, fails: a dangerous permission listed twice is returned
    twice. *)
Lemma C3_repeated_permission :
  exists out,
    _extract_dangerous_permissions (rt := ascii_runtime)
      (str_list ["android.permission.CAMERA"; "android.permission.CAMERA"]) =
    Ok (map PStr out) /\
    ~ NoDup out.
Proof.
  exists ["android.permission.CAMERA"; "android.permission.CAMERA"].
  split; [vm_compute; reflexivity|].
  intros H. inversion H as [|x l Hin _]; subst. apply Hin. left. reflexivity.
Qed.

(** C4: in every non-empty report of [compose_report] the statistics, the
    permissions section and the assessment agree on the number of
    permissions, on the number of dangerous permissions and on the score,
    and the dangerous permissions are a subsequence of the listed ones. *)
Theorem C4_report_invariants (rt : PyRuntime) (now : datetime)
  (apk_info analysis_data : dict) (report : pyval) :
  compose_report now apk_info analysis_data = report ->
  report <> PDict [] ->
  report_invariant report.
Proof.
  intros <- Hne. apply compose_nonempty in Hne.
  destruct (compose_shape _ _ _ _ Hne)
    as [total [dangerous [sa [activities [score [recs H]]]]]].
  destruct H as [Ht [Hd [Ha [_ [Hs [_ [_ [Hp [_ [Hsa [_ Hst]]]]]]]]]]].
  destruct (assess_shape _ _ _ Ha)
    as [dangerous' [score' [warnings [Hd' [Hs' [_ ->]]]]]].
  assert (dangerous' = dangerous) by congruence.
  assert (score' = score) by congruence. subst.
  destruct (extract_subseq _ _ Hd) as [elems [Hi Hsub]].
  exists total, (dict_get analysis_data "Permissions" (PList [])),
    dangerous, score, elems.
  unfold field2. rewrite Hp, Hsa, Hst. simpl. repeat split; auto.
Qed.

Lemma C4_report_invariants_witness :
  report_invariant
    (compose_report (rt := ascii_runtime) sample_now sample_apk_info
       sample_analysis_data).
Proof.
  apply (C4_report_invariants ascii_runtime sample_now sample_apk_info
           sample_analysis_data).
  - reflexivity.
  - vm_compute. discriminate.
Defined.

(** C5: the warnings are, in this order, one that counts the dangerous
    permissions when there is at least one, one that names the first
    keyword of the table found in the lower-cased file name when some
    keyword is found, and one that cites the number of permissions when it
    exceeds 20: at most three warnings, at most one of each kind.  The
    texts are written out: the count and the number are in decimal, the
    keyword stands between quotes. *)
Theorem C5_warnings (rt : PyRuntime) (apk_info analysis_data : dict) :
  (name_is_str apk_info = true ->
   permissions_are_strs analysis_data = true ->
   let name := name_of apk_info in
   let perms := permissions_of analysis_data in
   let count := dangerous_count_of perms in
   let total := Z.of_nat (List.length perms) in
   exists w1 w2 w3,
     _generate_warnings apk_info analysis_data = Ok (w1 ++ w2 ++ w3) /\
     (0 < count ->
      w1 = [("Обнаружено " ++ NilZero.string_of_int (Z.to_int count) ++
             " опасных разрешений")%string]) /\
     (count <= 0 -> w1 = []) /\
     (forall pre keyword post,
         suspicious_keywords = pre ++ keyword :: post ->
         occurs_in name keyword = true ->
         (forall k, In k pre -> occurs_in name k = false) ->
         w2 = [("Подозрительное ключевое слово в имени: '" ++ keyword ++
                "'")%string]) /\
     ((exists keyword,
          In keyword suspicious_keywords /\ occurs_in name keyword = true) ->
      exists keyword,
        In keyword suspicious_keywords /\ occurs_in name keyword = true /\
        w2 = [("Подозрительное ключевое слово в имени: '" ++ keyword ++
               "'")%string]) /\
     ((forall k, In k suspicious_keywords -> occurs_in name k = false) ->
      w2 = []) /\
     (20 < total ->
      w3 = [("Большое количество разрешений: " ++
             NilZero.string_of_int (Z.to_int total))%string]) /\
     (total <= 20 -> w3 = [])) /\
  (forall warnings,
      _generate_warnings apk_info analysis_data = Ok warnings ->
      (List.length warnings <= 3)%nat).
Proof.
  split; [|intros warnings; apply warnings_length].
  intros Hn Hp name perms count total.
  rewrite (warnings_strs _ _ _ _ (typed_name _ Hn) (typed_permissions _ Hp)).
  unfold warnings_spec. fold name perms count total.
  eexists _, _, _. split; [reflexivity|].
  split; [intros H; apply Z.ltb_lt in H; rewrite H; reflexivity|].
  split; [intros H; apply Z.ltb_ge in H; rewrite H; reflexivity|].
  split; [|split; [|split; [|split]]].
  - intros pre keyword post Hsplit Hocc Hpre.
    destruct (find (occurs_in name) suspicious_keywords) as [k|] eqn:Hfind.
    + destruct (find_first _ _ _ Hfind) as [pre' [post' [Hs' [Hk Hpre']]]].
      assert (Hpk : pre = pre' /\ keyword = k).
      { clear - Hsplit Hocc Hpre Hs' Hk Hpre'.
        rewrite Hsplit in Hs'. clear Hsplit.
        revert pre' Hs' Hpre'.
        induction pre as [|x pre IH]; intros pre' Hs' Hpre'.
        - destruct pre' as [|y pre']; simpl in Hs'.
          + injection Hs' as -> _. auto.
          + injection Hs' as -> _.
            rewrite (Hpre' y (or_introl eq_refl)) in Hocc. discriminate.
        - destruct pre' as [|y pre']; simpl in Hs'.
          + injection Hs' as -> _.
            rewrite (Hpre k (or_introl eq_refl)) in Hk. discriminate.
          + injection Hs' as -> Hs'.
            destruct (IH (fun z Hz => Hpre z (or_intror Hz)) pre' Hs'
                        (fun z Hz => Hpre' z (or_intror Hz))) as [-> ->].
            auto. }
      destruct Hpk as [_ ->]. reflexivity.
    + rewrite find_none in Hfind.
      rewrite (Hfind keyword) in Hocc; [discriminate|].
      rewrite Hsplit. apply in_or_app. right. left. reflexivity.
  - intros [keyword [Hin Hocc]].
    destruct (find (occurs_in name) suspicious_keywords) as [k|] eqn:Hfind.
    + exists k. destruct (find_some _ _ Hfind) as [Hk Hoc].
      split; [exact Hk|]. split; [exact Hoc|reflexivity].
    + rewrite find_none in Hfind. rewrite (Hfind _ Hin) in Hocc. discriminate.
  - intros Hnone. apply find_none in Hnone. rewrite Hnone. reflexivity.
  - intros H. apply Z.ltb_lt in H. rewrite H. reflexivity.
  - intros H. apply Z.ltb_ge in H. rewrite H. reflexivity.
Qed.

Lemma C5_warnings_witness :
  _generate_warnings (rt := ascii_runtime) sample_apk_info
    sample_analysis_data = Ok ["Обнаружено 2 опасных разрешений"%string] /\
  (List.length ["Обнаружено 2 опасных разрешений"%string] <= 3)%nat.
Proof.
  destruct (C5_warnings ascii_runtime sample_apk_info sample_analysis_data)
    as [Hshape Hlen].
  destruct (Hshape eq_refl eq_refl)
    as [w1 [w2 [w3 [Hrun [Hw1 [_ [_ [_ [Hw2 [_ Hw3]]]]]]]]]].
  assert (H1 : w1 = ["Обнаружено 2 опасных разрешений"%string]).
  { apply Hw1. vm_compute. reflexivity. }
  assert (H2 : w2 = []).
  { apply Hw2. intros k Hk. simpl in Hk.
    repeat (destruct Hk as [<-|Hk]; [vm_compute; reflexivity|]).
    destruct Hk. }
  assert (H3 : w3 = []).
  { apply Hw3. vm_compute. discriminate. }
  subst w1 w2 w3. split; [exact Hrun|].
  apply (Hlen _ Hrun).
Defined.

(** C6: the recommendations are a function of the report's assessment (its
    risk level and its count of dangerous permissions) and of the length of
    the listed permissions alone, by independent rules in fixed order: the
    do-not-install pair when the level is "высокий", the pair on dangerous
    permissions when the count is positive, the pair on excessive
    permissions when more than 25 are listed, and the single reassuring
    statement when no rule fired; the list is never empty. *)
Theorem C6_recommendations (rt : PyRuntime) (report security risk : pyval)
  (count n : Z) :
  py_get report "security_assessment" (PDict []) = Ok security ->
  py_get security "risk_level" PNone = Ok risk ->
  py_get security "dangerous_permissions_count" (PInt 0) = Ok (PInt count) ->
  listed_permissions report = Ok n ->
  exists r1 r2 r3 r4,
    _generate_recommendations report = Ok (r1 ++ r2 ++ r3 ++ r4) /\
    r1 ++ r2 ++ r3 ++ r4 =
      recommendations_spec (py_eq_str risk risk_high) count n /\
    (risk = PStr risk_high -> r1 = rec_do_not_install) /\
    (risk <> PStr risk_high -> r1 = []) /\
    (0 < count -> r2 = rec_dangerous (PInt count)) /\
    (count <= 0 -> r2 = []) /\
    (25 < n -> r3 = rec_too_many) /\
    (n <= 25 -> r3 = []) /\
    (r1 ++ r2 ++ r3 = [] -> r4 = rec_no_threats) /\
    (r1 ++ r2 ++ r3 <> [] -> r4 = []) /\
    r1 ++ r2 ++ r3 ++ r4 <> [] /\
    (forall report',
        py_get report' "security_assessment" (PDict []) = Ok security ->
        listed_permissions report' = Ok n ->
        _generate_recommendations report' = _generate_recommendations report).
Proof.
  intros Hs Hr Hc Hn.
  rewrite (recommendations_from_fields _ _ _ _ _ Hs Hr Hc Hn).
  assert (Hrisk : py_eq_str risk risk_high = true <-> risk = PStr risk_high).
  { destruct risk; simpl; try (split; discriminate).
    rewrite String.eqb_eq. split; congruence. }
  exists (if py_eq_str risk risk_high then rec_do_not_install else []),
    (if 0 <? count then rec_dangerous (PInt count) else []),
    (if 25 <? n then rec_too_many else []),
    (if (py_eq_str risk risk_high || (0 <? count) || (25 <? n))%bool
     then [] else rec_no_threats).
  assert (Heq : (if py_eq_str risk risk_high then rec_do_not_install else []) ++
                (if 0 <? count then rec_dangerous (PInt count) else []) ++
                (if 25 <? n then rec_too_many else []) ++
                (if (py_eq_str risk risk_high || (0 <? count) || (25 <? n))%bool
                 then [] else rec_no_threats) =
                recommendations_spec (py_eq_str risk risk_high) count n).
  { unfold recommendations_spec.
    destruct (py_eq_str risk risk_high); destruct (0 <? count);
      destruct (25 <? n); reflexivity. }
  split; [rewrite Heq; reflexivity|]. split; [exact Heq|].
  split.
  { intros H. apply Hrisk in H. rewrite H. reflexivity. }
  split.
  { intros H. destruct (py_eq_str risk risk_high) eqn:E; [|reflexivity].
    exfalso. apply H. apply Hrisk. reflexivity. }
  split.
  { intros H. apply Z.ltb_lt in H. rewrite H. reflexivity. }
  split.
  { intros H. apply Z.ltb_ge in H. rewrite H. reflexivity. }
  split.
  { intros H. apply Z.ltb_lt in H. rewrite H. reflexivity. }
  split.
  { intros H. apply Z.ltb_ge in H. rewrite H. reflexivity. }
  split.
  { destruct (py_eq_str risk risk_high); destruct (0 <? count);
      destruct (25 <? n); simpl; intros H; try discriminate H; reflexivity. }
  split.
  { destruct (py_eq_str risk risk_high); destruct (0 <? count);
      destruct (25 <? n); simpl; intros H; try reflexivity;
      exfalso; apply H; reflexivity. }
  split;
    [|intros report' Hs' Hn';
      apply (recommendations_from_fields _ _ _ _ _ Hs' Hr Hc Hn')].
  destruct (py_eq_str risk risk_high); destruct (0 <? count);
    destruct (25 <? n); discriminate.
Qed.

Lemma C6_recommendations_witness :
  exists r1 r2 r3 r4,
    _generate_recommendations (rt := ascii_runtime)
      (compose_report (rt := ascii_runtime) sample_now sample_apk_info
         sample_analysis_data) =
    Ok (r1 ++ r2 ++ r3 ++ r4) /\
    r1 ++ r2 ++ r3 ++ r4 =
      recommendations_spec (py_eq_str (PStr risk_medium) risk_high) 2 2 /\
    (PStr risk_medium = PStr risk_high -> r1 = rec_do_not_install) /\
    (PStr risk_medium <> PStr risk_high -> r1 = []) /\
    (0 < 2 -> r2 = rec_dangerous (PInt 2)) /\
    (2 <= 0 -> r2 = []) /\
    (25 < 2 -> r3 = rec_too_many) /\
    (2 <= 25 -> r3 = []) /\
    (r1 ++ r2 ++ r3 = [] -> r4 = rec_no_threats) /\
    (r1 ++ r2 ++ r3 <> [] -> r4 = []) /\
    r1 ++ r2 ++ r3 ++ r4 <> [] /\
    (forall report',
        py_get report' "security_assessment" (PDict []) =
          Ok (PDict
                [("risk_level", PStr risk_medium);
                 ("risk_color", Colors_ORANGE);
                 ("suspicious_score", PInt 2);
                 ("dangerous_permissions_count", PInt 2);
                 ("warnings", PList [PStr (warn_dangerous 2)])]) ->
        listed_permissions report' = Ok 2 ->
        _generate_recommendations (rt := ascii_runtime) report' =
        _generate_recommendations (rt := ascii_runtime)
          (compose_report (rt := ascii_runtime) sample_now sample_apk_info
             sample_analysis_data)).
Proof.
  apply (C6_recommendations ascii_runtime
           (compose_report (rt := ascii_runtime) sample_now sample_apk_info
              sample_analysis_data)
           (PDict
              [("risk_level", PStr risk_medium);
               ("risk_color", Colors_ORANGE);
               ("suspicious_score", PInt 2);
               ("dangerous_permissions_count", PInt 2);
               ("warnings", PList [PStr (warn_dangerous 2)])])
           (PStr risk_medium) 2 2).
  - vm_compute. reflexivity.
  - vm_compute. reflexivity.
  - vm_compute. reflexivity.
  - vm_compute. reflexivity.
Defined.

Lemma typed_intents (analysis_data : dict) :
  intents_is_dict analysis_data = true ->
  exists d, dict_get analysis_data "Intents" (PDict []) = PDict d.
Proof.
  unfold intents_is_dict, dict_get.
  destruct (dict_lookup "Intents" analysis_data) as [v|].
  - destruct v; intros H; try discriminate. eexists; reflexivity.
  - intros _. eexists; reflexivity.
Qed.

(** The report of a well-typed input, entry by entry. *)
Lemma compose_typed {rt : PyRuntime} (now : datetime)
  (apk_info analysis_data : dict) :
  name_is_str apk_info = true ->
  permissions_are_strs analysis_data = true ->
  intents_is_dict analysis_data = true ->
  let name := name_of apk_info in
  let perms := permissions_of analysis_data in
  let score := score_spec name perms in
  let count := dangerous_count_of perms in
  let total := Z.of_nat (List.length perms) in
  exists report activities,
    compose_report_try now apk_info analysis_data = Ok report /\
    field report "metadata" =
      Some (PDict
              [("apk_name", dict_get apk_info "name" (PStr "Unknown"));
               ("apk_path", dict_get apk_info "path" (PStr EmptyString));
               ("file_size", dict_get apk_info "size" (PInt 0));
               ("last_modified",
                dict_get apk_info "last_modified" (PStr EmptyString));
               ("analysis_date", PStr (isoformat now));
               ("report_version", PStr "1.0")]) /\
    field report "permissions" =
      Some (PDict
              [("total", PInt total);
               ("list", str_list perms);
               ("dangerous", str_list (filter is_dangerous perms))]) /\
    field report "intents" =
      Some (dict_get analysis_data "Intents" (PDict [])) /\
    field report "security_assessment" =
      Some (PDict
              [("risk_level", PStr (tier_spec score count));
               ("risk_color", snd (risk_tier score count));
               ("suspicious_score", PInt score);
               ("dangerous_permissions_count", PInt count);
               ("warnings", PList (map PStr (warnings_spec name perms)))]) /\
    field report "recommendations" =
      Some (PList
              (map PStr
                 (recommendations_spec
                    (String.eqb (tier_spec score count) risk_high)
                    count total))) /\
    field report "statistics" =
      Some (PDict
              [("total_permissions", PInt total);
               ("dangerous_permissions", PInt count);
               ("activities", PInt activities);
               ("suspicious_score", PInt score)]).
Proof.
  intros Hn Hp Hi name perms score count total.
  destruct (typed_intents _ Hi) as [intents Hint].
  unfold compose_report_try.
  rewrite (assess_strs _ _ _ _ (typed_name _ Hn) (typed_permissions _ Hp)).
  rewrite (score_strs _ _ _ _ (typed_name _ Hn) (typed_permissions _ Hp)).
  rewrite (typed_permissions _ Hp), extract_strs, Hint.
  fold name perms score count.
  cbn [bind py_len str_list]. rewrite !length_map.
  fold (dangerous_count_of perms). fold count total.
  match goal with
  | |- context [_generate_recommendations ?r] =>
      rewrite (recommendations_from_fields r
                 (PDict
                    [("risk_level", PStr (tier_spec score count));
                     ("risk_color", snd (risk_tier score count));
                     ("suspicious_score", PInt score);
                     ("dangerous_permissions_count", PInt count);
                     ("warnings", PList (map PStr (warnings_spec name perms)))])
                 (PStr (tier_spec score count)) count total)
  end.
  - cbn [bind]. eexists _, _. split; [reflexivity|].
    repeat split; reflexivity.
  - reflexivity.
  - reflexivity.
  - reflexivity.
  - unfold listed_permissions. cbn. rewrite length_map. reflexivity.
Qed.

Lemma no_keyword_in_empty_name {rt : PyRuntime} :
  keyword_count suspicious_keywords EmptyString = 0 /\
  find (occurs_in EmptyString) suspicious_keywords = None.
Proof.
  unfold keyword_count, occurs_in. rewrite lower_empty.
  split; vm_compute; reflexivity.
Qed.

(** C10, as the code has it: [compose_report] returns a value on every
    input; when, in addition to the permissions being a list of strings and
    the intents a dictionary, the value under ['name'] is a string whenever
    it is present, the body raises no exception and the report is the fully
    populated one, with at least one recommendation; with the keys missing
    the name is "Unknown", no permission is counted, the risk level is
    "низкий" and the single recommendation is the reassuring one. *)
Theorem C10_compose_total (rt : PyRuntime) (now : datetime)
  (apk_info analysis_data : dict) :
  name_is_str apk_info = true ->
  permissions_are_strs analysis_data = true ->
  intents_is_dict analysis_data = true ->
  exists report recs,
    compose_report_try now apk_info analysis_data = Ok report /\
    compose_report now apk_info analysis_data = report /\
    report <> PDict [] /\
    fully_populated report /\
    field report "recommendations" = Some (PList (map PStr recs)) /\
    recs <> [] /\
    (dict_lookup "name" apk_info = None ->
     field2 report "metadata" "apk_name" = Some (PStr "Unknown")) /\
    (dict_lookup "Permissions" analysis_data = None ->
     field2 report "permissions" "total" = Some (PInt 0) /\
     field2 report "permissions" "list" = Some (PList []) /\
     field2 report "statistics" "total_permissions" = Some (PInt 0)) /\
    (dict_lookup "name" apk_info = None ->
     dict_lookup "Permissions" analysis_data = None ->
     field2 report "security_assessment" "risk_level" = Some (PStr risk_low) /\
     recs = rec_no_threats).
Proof.
  intros Hn Hp Hi.
  destruct (compose_typed now _ _ Hn Hp Hi)
    as [report [activities [Htry [Hm [Hpm [Hin [Hsa [Hrec Hst]]]]]]]].
  exists report. eexists. split; [exact Htry|].
  split; [unfold compose_report; rewrite Htry; reflexivity|].
  split; [intros ->; discriminate Hm|].
  split.
  { intros key Hkey. simpl in Hkey.
    destruct Hkey as [<-|[<-|[<-|[<-|[<-|[<-|[]]]]]]]; congruence. }
  split; [exact Hrec|].
  split.
  { unfold recommendations_spec.
    destruct (String.eqb _ risk_high); destruct (0 <? _);
      destruct (25 <? _); discriminate. }
  split.
  { intros Hname. unfold field2. rewrite Hm. simpl.
    rewrite (dict_get_absent _ _ _ Hname). reflexivity. }
  split.
  { intros Hperm. unfold field2. rewrite Hpm, Hst. simpl.
    unfold permissions_of. rewrite Hperm. repeat split; reflexivity. }
  intros Hname Hperm. unfold field2. rewrite Hsa. simpl.
  unfold name_of, permissions_of. rewrite Hname, Hperm.
  assert (Hscore : score_spec EmptyString [] = 0).
  { rewrite score_spec_value.
    destruct no_keyword_in_empty_name as [-> _]. reflexivity. }
  rewrite Hscore. split; reflexivity.
Qed.

Lemma C10_compose_total_witness :
  exists report recs,
    compose_report_try (rt := ascii_runtime) sample_now [] [] = Ok report /\
    compose_report (rt := ascii_runtime) sample_now [] [] = report /\
    report <> PDict [] /\
    fully_populated report /\
    field report "recommendations" = Some (PList (map PStr recs)) /\
    recs <> [] /\
    (dict_lookup "name" [] = None ->
     field2 report "metadata" "apk_name" = Some (PStr "Unknown")) /\
    (dict_lookup "Permissions" [] = None ->
     field2 report "permissions" "total" = Some (PInt 0) /\
     field2 report "permissions" "list" = Some (PList []) /\
     field2 report "statistics" "total_permissions" = Some (PInt 0)) /\
    (dict_lookup "name" [] = None ->
     dict_lookup "Permissions" [] = None ->
     field2 report "security_assessment" "risk_level" = Some (PStr risk_low) /\
     recs = rec_no_threats).
Proof.
  apply (C10_compose_total ascii_runtime sample_now [] []); reflexivity.
Defined.

(** C10, as stated, fails: with no permissions and no intents at all, a
    ['name'] that is not a string (here [None]) makes the body raise, and
    the empty dictionary is returned. *)
Lemma C10_name_not_a_string :
  permissions_are_strs [] = true /\
  intents_is_dict [] = true /\
  compose_report_try (rt := ascii_runtime) sample_now [("name", PNone)] [] =
    Raise AttributeError /\
  compose_report (rt := ascii_runtime) sample_now [("name", PNone)] [] =
    PDict [].
Proof.
  split; [reflexivity|]. split; [reflexivity|].
  split; vm_compute; reflexivity.
Qed.

(* ===================================================================== *)
(** ** The hypertext serializer *)
(* ===================================================================== *)

Section HtmlFacts.

Context {rt : PyRuntime}.

Lemma html_classify_strs (perms : list string) :
  html_classify (map PStr perms) = Ok (map html_item perms).
Proof.
  induction perms as [|p perms IH]; cbn [html_classify map]; [reflexivity|].
  rewrite matches_table_str, IH. reflexivity.
Qed.

Lemma marked_items (perms : list string) :
  marked (map html_item perms) = map PStr (filter is_dangerous perms).
Proof.
  unfold marked, html_item.
  induction perms as [|p perms IH]; simpl; [reflexivity|].
  destruct (is_dangerous p); simpl; rewrite IH; reflexivity.
Qed.

Lemma unmarked_items (perms : list string) :
  unmarked (map html_item perms) =
  map PStr (filter (fun p => negb (is_dangerous p)) perms).
Proof.
  unfold unmarked, html_item.
  induction perms as [|p perms IH]; simpl; [reflexivity|].
  destruct (is_dangerous p); simpl; rewrite IH; reflexivity.
Qed.

Lemma field2_inv (v : pyval) (k1 k2 : string) (x : pyval) :
  field2 v k1 k2 = Some x ->
  exists d d', v = PDict d /\ dict_lookup k1 d = Some (PDict d') /\
               dict_lookup k2 d' = Some x.
Proof.
  unfold field2, field. destruct v; try discriminate.
  destruct (dict_lookup k1 d) as [y|] eqn:E1; [|discriminate].
  destruct y; try discriminate. intros E2. eauto.
Qed.

Lemma html_items_strs (report : pyval) (perms : list string) :
  field2 report "permissions" "list" = Some (str_list perms) ->
  html_permission_items report = Ok (map html_item perms).
Proof.
  intros H. destruct (field2_inv _ _ _ _ H) as [d [d' [-> [H1 H2]]]].
  unfold html_permission_items, py_get.
  rewrite (dict_get_present _ _ _ _ H1). cbn [bind].
  rewrite (dict_get_present _ _ _ _ H2). cbn [bind py_iter str_list].
  apply html_classify_strs.
Qed.

Lemma html_content_items (report : pyval) (content : string) :
  html_content report = Ok content ->
  exists items before after,
    html_permission_items report = Ok items /\
    content = (before ++ concat_str (map html_perm_li items) ++ after)%string.
Proof.
  unfold html_content. intros H. bind_inv H.
  match type of H with
  | Ok (?head ++ ?items ++ ?rest)%string = Ok _ =>
      assert (Hc : content = (head ++ items ++ rest)%string) by congruence;
      match goal with
      | Ei : html_permission_items report = Ok ?its |- _ =>
          exists its, head, rest
      end
  end.
  split; [reflexivity|exact Hc].
Qed.

End HtmlFacts.

(** C8, as the code has it: the hypertext serializer gives the class of the
    dangerous permissions to exactly those entries of the report's
    [permissions.list] that contain an entry of the table of dangerous
    permissions, and no class to the remaining entries; it does not read
    [permissions.dangerous].  In a report that [compose_report] built the
    entries so marked are the ones of [permissions.dangerous]. *)
Theorem C8_html_marks_by_table (rt : PyRuntime) (report : pyval)
  (perms : list string) :
  field2 report "permissions" "list" = Some (str_list perms) ->
  exists items,
    html_permission_items report = Ok items /\
    map snd items = map PStr perms /\
    marked items = map PStr (filter is_dangerous perms) /\
    unmarked items = map PStr (filter (fun p => negb (is_dangerous p)) perms) /\
    (forall content,
        html_content report = Ok content ->
        exists before after,
          content =
          (before ++ concat_str (map html_perm_li items) ++ after)%string) /\
    (forall now apk_info analysis_data,
        compose_report now apk_info analysis_data = report ->
        field2 report "permissions" "dangerous" = Some (PList (marked items))).
Proof.
  intros Hlist. exists (map html_item perms).
  pose proof (html_items_strs _ _ Hlist) as Hitems.
  split; [exact Hitems|].
  split; [rewrite map_map; reflexivity|].
  split; [apply marked_items|].
  split; [apply unmarked_items|].
  split.
  - intros content Hc.
    destruct (html_content_items _ _ Hc) as [items [b [a [Hi ->]]]].
    assert (items = map html_item perms) by congruence. subst.
    exists b, a. reflexivity.
  - intros now apk_info analysis_data Hrep.
    assert (Hne : compose_report now apk_info analysis_data <> PDict []).
    { rewrite Hrep. intros ->. discriminate Hlist. }
    apply compose_nonempty in Hne. rewrite Hrep in Hne.
    destruct (compose_shape _ _ _ _ Hne)
      as [total [dangerous [sa [activities [score [recs H]]]]]].
    destruct H as [_ [Hd [_ [_ [_ [_ [_ [Hp _]]]]]]]].
    unfold field2 in Hlist |- *. rewrite Hp in Hlist |- *.
    simpl in Hlist |- *. injection Hlist as Hl.
    rewrite Hl, extract_strs in Hd. injection Hd as <-.
    rewrite marked_items. reflexivity.
Qed.

Lemma C8_html_marks_by_table_witness :
  exists items,
    html_permission_items (rt := ascii_runtime)
      (compose_report (rt := ascii_runtime) sample_now sample_apk_info
         sample_analysis_data) = Ok items /\
    map snd items = map PStr sample_permissions /\
    marked items = map PStr (filter is_dangerous sample_permissions) /\
    unmarked items =
      map PStr (filter (fun p => negb (is_dangerous p)) sample_permissions) /\
    (forall content,
        html_content
          (compose_report (rt := ascii_runtime) sample_now sample_apk_info
             sample_analysis_data) = Ok content ->
        exists before after,
          content =
          (before ++ concat_str (map html_perm_li items) ++ after)%string) /\
    (forall now apk_info analysis_data,
        compose_report now apk_info analysis_data =
        compose_report (rt := ascii_runtime) sample_now sample_apk_info
          sample_analysis_data ->
        field2
          (compose_report (rt := ascii_runtime) sample_now sample_apk_info
             sample_analysis_data)
          "permissions" "dangerous" = Some (PList (marked items))).
Proof.
  apply (C8_html_marks_by_table ascii_runtime
           (compose_report (rt := ascii_runtime) sample_now sample_apk_info
              sample_analysis_data)
           sample_permissions).
  vm_compute. reflexivity.
Defined.

(** C8, as stated, fails: in a report whose [dangerous] field names the
    internet permission and not the camera permission, the document marks
    the camera permission and leaves the internet permission unmarked. *)
Lemma C8_marks_disagree_with_field :
  exists items content,
    html_permission_items (rt := ascii_runtime) inconsistent_report = Ok items /\
    field2 inconsistent_report "permissions" "dangerous" =
      Some (PList [PStr "android.permission.INTERNET"]) /\
    marked items = [PStr "android.permission.CAMERA"] /\
    unmarked items = [PStr "android.permission.INTERNET"] /\
    html_content (rt := ascii_runtime) inconsistent_report = Ok content /\
    is_substring
      ("<li class=" ++ dq ++ "dangerous" ++ dq ++
       ">android.permission.CAMERA</li>")%string content = true /\
    is_substring
      ("<li class=" ++ dq ++ dq ++ ">android.permission.INTERNET</li>")%string
      content = true.
Proof.
  eexists _, _. split; [vm_compute; reflexivity|].
  split; [reflexivity|]. split; [reflexivity|]. split; [reflexivity|].
  split; [vm_compute; reflexivity|].
  split; vm_compute; reflexivity.
Qed.

(* ===================================================================== *)
(** ** The batch save *)
(* ===================================================================== *)

Lemma dict_lookup_set (d : dict) (k q : string) (v : pyval) :
  dict_lookup q (dict_set d k v) =
  if String.eqb k q then Some v else dict_lookup q d.
Proof.
  induction d as [|[k0 v0] d IH]; simpl; [reflexivity|].
  destruct (String.eqb k0 k) eqn:E0; simpl.
  - apply String.eqb_eq in E0. subst k0.
    destruct (String.eqb k q); reflexivity.
  - rewrite IH. destruct (String.eqb k0 q) eqn:E1; [|reflexivity].
    apply String.eqb_eq in E1. subst q. rewrite String.eqb_sym, E0.
    reflexivity.
Qed.


Lemma append_assoc (a b c : string) :
  ((a ++ b) ++ c)%string = (a ++ b ++ c)%string.
Proof. induction a as [|x a IH]; simpl; [reflexivity|]. rewrite IH. reflexivity. Qed.

Lemma prefix_slash_head (c : ascii) (a b : string) :
  String.prefix "/" (String c a) = String.prefix "/" (String c b).
Proof.
  assert (H : forall x y, String.prefix "/" (String c x) = true ->
                          String.prefix "/" (String c y) = true).
  { intros x y Hx. apply prefix_spec in Hx. destruct Hx as [r Hr].
    simpl in Hr. injection Hr as -> _. apply prefix_spec. exists y. reflexivity. }
  destruct (String.prefix "/" (String c a)) eqn:Ea;
    destruct (String.prefix "/" (String c b)) eqn:Eb; try reflexivity.
  - rewrite (H a b Ea) in Eb. discriminate.
  - rewrite (H b a Eb) in Ea. discriminate.
Qed.



Lemma length_append_string (a b : string) :
  String.length (a ++ b) = (String.length a + String.length b)%nat.
Proof.
  induction a as [|c a IH]; cbn [append String.length]; [reflexivity|].
  rewrite IH. reflexivity.
Qed.









Section SavingFacts.

Context {rt : PyRuntime} {world : World}.

Lemma supported_inv (fmt : pyval) :
  supported fmt = true -> exists k, fmt = PStr k /\ is_supported k = true.
Proof.
  destruct fmt; try (intros H; discriminate H).
  intros H. exists s. split; [reflexivity|exact H].
Qed.

Lemma is_supported_cases (k : string) :
  is_supported k = true ->
  k = "json" \/ k = "csv" \/ k = "txt" \/ k = "html".
Proof.
  unfold is_supported. rewrite existsb_exists. intros [x [Hin Heq]].
  apply String.eqb_eq in Heq. subst x. simpl in Hin. intuition.
Qed.

Lemma is_supported_In (k : string) :
  is_supported k = true <-> In k supported_formats.
Proof.
  unfold is_supported. rewrite existsb_exists. split.
  - intros [x [Hin Heq]]. apply String.eqb_eq in Heq. subst x. exact Hin.
  - intros Hin. exists k. split; [exact Hin|apply String.eqb_refl].
Qed.

Lemma requested_In (k : string) (formats : list pyval) :
  requested k formats = true <-> In (PStr k) formats.
Proof.
  unfold requested. rewrite existsb_exists. split.
  - intros [fmt [Hin Heq]]. destruct fmt; try discriminate Heq.
    simpl in Heq. apply String.eqb_eq in Heq. subst s. exact Hin.
  - intros Hin. exists (PStr k). split; [exact Hin|apply String.eqb_refl].
Qed.

(** What [open_then_write] does with a text. *)
Lemma open_then_write_cases (text : result string) (file_path : string)
  (w : fs) :
  (exists content,
      text = Ok content /\ can_open file_path = true /\
      encodable content = true /\
      open_then_write text file_path w =
      (fs_put file_path (Complete content) w, Ok tt)) \/
  (match text with
   | Ok content => (can_open file_path && encodable content)%bool
   | Raise _ => false
   end = false /\
   exists w1 e,
     (w1 = w \/ w1 = fs_put file_path Interrupted w) /\
     open_then_write text file_path w = (w1, Raise e)).
Proof.
  unfold open_then_write.
  destruct text as [content|e]; destruct (can_open file_path) eqn:Eo;
    try destruct (encodable content) eqn:Ee; cbn [andb];
    first [ left; exists content; repeat split; assumption
          | right; split; [reflexivity|]; eexists _, _; split;
            [|reflexivity]; auto ].
Qed.

(** The writer of a supported format: it ends and the file holds the text,
    or it raises and the file is untouched or left interrupted. *)
Lemma dispatch_key (k : string) (report : pyval) (file_path : string) (w : fs) :
  is_supported k = true ->
  (written_ok k report file_path = true /\
   exists text,
     format_text k report = Ok text /\
     dispatch (PStr k) report file_path w =
     (fs_put file_path (Complete text) w, Ok (Some k))) \/
  (written_ok k report file_path = false /\
   exists w1 e,
     (w1 = w \/ w1 = fs_put file_path Interrupted w) /\
     dispatch (PStr k) report file_path w = (w1, Raise e)).
Proof.
  intros Hk. unfold written_ok.
  destruct (is_supported_cases _ Hk) as [ -> | [ -> | [ -> | -> ]]];
    unfold dispatch, format_text, _save_json, _save_csv, _save_txt,
      _save_html;
    cbn [py_eq_str String.eqb Ascii.eqb Bool.eqb].
  - destruct (open_then_write_cases (json_text report) file_path w)
      as [[text [Ht [Ho [He Hw]]]]|[Hko [w1 [e [Hw1 Hw]]]]]; rewrite Hw.
    + left. rewrite Ht, Ho, He. split; [reflexivity|].
      exists text. split; reflexivity.
    + right. split; [exact Hko|]. exists w1, e. split; [exact Hw1|reflexivity].
  - destruct (open_then_write_cases (csv_text report) file_path w)
      as [[text [Ht [Ho [He Hw]]]]|[Hko [w1 [e [Hw1 Hw]]]]]; rewrite Hw.
    + left. rewrite Ht, Ho, He. split; [reflexivity|].
      exists text. split; reflexivity.
    + right. split; [exact Hko|]. exists w1, e. split; [exact Hw1|reflexivity].
  - destruct (open_then_write_cases (txt_text report) file_path w)
      as [[text [Ht [Ho [He Hw]]]]|[Hko [w1 [e [Hw1 Hw]]]]]; rewrite Hw.
    + left. rewrite Ht, Ho, He. split; [reflexivity|].
      exists text. split; reflexivity.
    + right. split; [exact Hko|]. exists w1, e. split; [exact Hw1|reflexivity].
  - destruct (html_content report) as [content|e0].
    + destruct (open_then_write_cases (Ok content) file_path w)
        as [[text [Ht [Ho [He Hw]]]]|[Hko [w1 [e [Hw1 Hw]]]]]; rewrite Hw.
      * injection Ht as <-. left. rewrite Ho, He. split; [reflexivity|].
        exists content. split; reflexivity.
      * right. split; [exact Hko|]. exists w1, e.
        split; [exact Hw1|reflexivity].
    + right. split; [reflexivity|]. exists w, e0. split; [left|]; reflexivity.
Qed.

Variables (reports_dir base_filename : string) (report : pyval).

Local Abbreviation path := (batch_path reports_dir base_filename).
Local Abbreviation kept := (kept reports_dir base_filename report).
Local Abbreviation loop := (save_loop reports_dir base_filename report).

(** One round of the loop. *)
Lemma save_loop_step (fmt : pyval) (rest : list pyval) (saved0 : dict) (w0 : fs) :
  (supported fmt = false /\
   loop (fmt :: rest) saved0 w0 =
   if can_print (skip_notice fmt) then loop rest saved0 w0
   else (Raise UnicodeEncodeError, w0)) \/
  (exists k,
      fmt = PStr k /\ is_supported k = true /\
      ((written_ok k report (path k) = true /\
        exists text,
          format_text k report = Ok text /\
          loop (fmt :: rest) saved0 w0 =
          loop rest (dict_set saved0 k (PStr (path k)))
            (fs_put (path k) (Complete text) w0)) \/
       (written_ok k report (path k) = false /\
        exists w1 e,
          (w1 = w0 \/ w1 = fs_put (path k) Interrupted w0) /\
          loop (fmt :: rest) saved0 w0 =
          if can_print (failure_notice (PStr k) (exn_text e (path k)))
          then loop rest saved0 w1
          else (Raise UnicodeEncodeError, w1)))).
Proof.
  destruct (supported fmt) eqn:Es.
  - right. destruct (supported_inv _ Es) as [k [-> Hk]].
    exists k. split; [reflexivity|]. split; [exact Hk|].
    cbn [save_loop]. rewrite Es. cbn [negb py_str]. fold (path k).
    destruct (dispatch_key k report (path k) w0 Hk)
      as [[Hok [text [Ht Hd]]]|[Hko [w1 [e [Hw Hd]]]]]; rewrite Hd.
    + left. split; [exact Hok|]. exists text. split; [exact Ht|reflexivity].
    + right. split; [exact Hko|]. exists w1, e. split; [exact Hw|].
      unfold py_print. destruct (can_print _); reflexivity.
  - left. split; [reflexivity|]. cbn [save_loop]. rewrite Es. cbn [negb].
    unfold py_print. destruct (can_print _); reflexivity.
Qed.

Lemma kept_nil (k : string) : kept [] k = false.
Proof. unfold kept. destruct (is_supported k); reflexivity. Qed.

Lemma kept_unsupported (fmt : pyval) (rest : list pyval) (k : string) :
  supported fmt = false -> kept (fmt :: rest) k = kept rest k.
Proof.
  intros Hs. unfold kept, requested. cbn [existsb].
  destruct (is_supported k) eqn:Hk; [|reflexivity].
  destruct (py_eq_str fmt k) eqn:He; [|reflexivity].
  destruct fmt; try discriminate He. simpl in He.
  apply String.eqb_eq in He. subst s.
  change (supported (PStr k)) with (is_supported k) in Hs. congruence.
Qed.

Lemma kept_cons (k0 : string) (rest : list pyval) (k : string) :
  kept (PStr k0 :: rest) k =
  (is_supported k && (String.eqb k0 k || requested k rest) &&
   written_ok k report (path k))%bool.
Proof. reflexivity. Qed.

(** The mapping that the loop returns. *)
Lemma save_loop_lookup (formats : list pyval) (saved0 : dict) (w0 : fs)
  (mapping : dict) (k : string) :
  fst (loop formats saved0 w0) = Ok mapping ->
  dict_lookup k mapping =
  if kept formats k then Some (PStr (path k)) else dict_lookup k saved0.
Proof.
  revert saved0 w0. induction formats as [|fmt rest IH]; intros saved0 w0 Hr.
  - cbn [save_loop fst] in Hr. injection Hr as <-. rewrite kept_nil.
    reflexivity.
  - destruct (save_loop_step fmt rest saved0 w0)
      as [[Hs Hstep]|[k0 [-> [Hk0 [[Hok [text [Ht Hstep]]]|
                                   [Hko [w1 [e [Hw Hstep]]]]]]]]];
      rewrite Hstep in Hr;
      try match type of Hr with
          | context [can_print ?t] =>
              destruct (can_print t); [|discriminate Hr]
          end.
    + rewrite (IH _ _ Hr), (kept_unsupported _ _ _ Hs). reflexivity.
    + rewrite (IH _ _ Hr), dict_lookup_set, kept_cons.
      destruct (String.eqb k0 k) eqn:E.
      * apply String.eqb_eq in E. subst k0. rewrite Hk0, Hok.
        destruct (kept rest k); reflexivity.
      * reflexivity.
    + rewrite (IH _ _ Hr), kept_cons.
      destruct (String.eqb k0 k) eqn:E; [|reflexivity].
      apply String.eqb_eq in E. subst k0. unfold kept. rewrite Hko.
      rewrite !andb_false_r. reflexivity.
Qed.





(** A notice that the console refuses ends the batch. *)
Lemma save_loop_refused (fmt : pyval) (rest : list pyval) (saved0 : dict)
  (w0 : fs) :
  supported fmt = false -> can_print (skip_notice fmt) = false ->
  loop (fmt :: rest) saved0 w0 = (Raise UnicodeEncodeError, w0).
Proof.
  intros Hs Hp. cbn [save_loop]. rewrite Hs. cbn [negb]. unfold py_print.
  rewrite Hp. reflexivity.
Qed.

End SavingFacts.




(* ===================================================================== *)
(** ** The quick tier of the presentation layer *)
(* ===================================================================== *)

Section InterfaceFacts.

Context {rt : PyRuntime}.

Lemma any_contains_strs (perm : string) (perms : list string) :
  any_contains perm (map PStr perms) =
  Ok (existsb (fun p => is_substring (lower perm) (lower p)) perms).
Proof.
  induction perms as [|p perms IH]; cbn [any_contains map existsb];
    [reflexivity|].
  cbn [py_lower bind].
  destruct (is_substring (lower perm) (lower p)); [reflexivity|exact IH].
Qed.

Lemma permission_loop_strs (table : list string) (perms : list string)
  (suspicious_count : Q) (dangerous_count : Z) :
  exists tally,
    permission_loop table (map PStr perms) suspicious_count dangerous_count =
    Ok (tally, dangerous_count + present_entries table perms) /\
    (tally == suspicious_count +
              inject_Z (present_entries table perms) * (1 # 2))%Q.
Proof.
  revert suspicious_count dangerous_count.
  induction table as [|d table IH]; intros sc dc.
  - exists sc. split.
    + cbn [permission_loop]. unfold present_entries. simpl. f_equal. f_equal. lia.
    + unfold present_entries. simpl. ring.
  - cbn [permission_loop]. rewrite any_contains_strs. cbn [bind].
    unfold present_entries in *. cbn [filter].
    destruct (existsb (fun p => is_substring (lower d) (lower p)) perms).
    + destruct (IH (sc + (1 # 2))%Q (dc + 1)) as [tally [Hl Ht]].
      exists tally. split.
      * rewrite Hl. f_equal. f_equal. cbn [List.length]. lia.
      * rewrite Ht. cbn [List.length]. rewrite Nat2Z.inj_succ.
        unfold Z.succ. rewrite inject_Z_plus. ring.
    + apply IH.
Qed.

Lemma quick_tier_cases (tally : Q) :
  ((2 <= tally)%Q -> fst (quick_tier tally) = level_high) /\
  (~ (2 <= tally)%Q -> (1 <= tally)%Q ->
   fst (quick_tier tally) = level_medium) /\
  (~ (1 <= tally)%Q -> fst (quick_tier tally) = level_low).
Proof.
  pose proof (Qle_bool_iff 2 tally) as H2.
  pose proof (Qle_bool_iff 1 tally) as H1.
  assert (H12 : (2 <= tally)%Q -> (1 <= tally)%Q).
  { intros H. apply Qle_trans with (y := 2%Q); [discriminate|exact H]. }
  unfold quick_tier.
  destruct (Qle_bool 2 tally); destruct (Qle_bool 1 tally); cbn [fst].
  - repeat split; intros; try reflexivity; exfalso; tauto.
  - exfalso. assert (H : false = true) by (apply H1, H12, H2; reflexivity).
    discriminate H.
  - repeat split; intros; try reflexivity; exfalso.
    + assert (H0 : false = true) by (apply H2; assumption). discriminate H0.
    + tauto.
  - repeat split; intros; try reflexivity; exfalso.
    + assert (H0 : false = true) by (apply H2; assumption). discriminate H0.
    + assert (H3 : false = true) by (apply H1; assumption). discriminate H3.
Qed.

Lemma suspicion_tally_strs (name : string) (permissions : option (list string)) :
  exists tally,
    suspicion_tally (PStr name) (perm_arg permissions) =
    Ok (tally, present_entries DANGEROUS_PERMISSIONS (perm_list permissions)) /\
    (tally == inject_Z (keyword_count SUSPICIOUS_WORDS name) +
              inject_Z (present_entries DANGEROUS_PERMISSIONS
                          (perm_list permissions)) * (1 # 2))%Q.
Proof.
  unfold suspicion_tally. cbn [py_lower bind].
  rewrite keyword_hits_count.
  destruct permissions as [[|p perms]|].
  - eexists. split; [reflexivity|]. unfold present_entries. simpl. ring.
  - cbn [perm_arg perm_list str_list map py_truthy py_iter bind].
    change (PStr p :: map PStr perms) with (map PStr (p :: perms)).
    destruct (permission_loop_strs DANGEROUS_PERMISSIONS (p :: perms)
                (inject_Z (keyword_count SUSPICIOUS_WORDS name)) 0)
      as [tally [Hl Ht]].
    exists tally. split; [exact Hl|exact Ht].
  - eexists. split; [reflexivity|]. unfold present_entries. simpl. ring.
Qed.

End InterfaceFacts.

(** C9: on a file name and an optional list of permissions the quick tier
    forms the tally of the entries of [SUSPICIOUS_WORDS] found in the
    lower-cased name plus one half for every entry of
    [DANGEROUS_PERMISSIONS] that some permission contains, letter case
    apart, and answers "высокая" when the tally is at least 2, "средняя"
    when it is at least 1, and "низкая" otherwise. *)
Theorem C9_quick_tier (rt : PyRuntime) (PROMETHEUS_AVAILABLE : bool)
  (name : string) (permissions : option (list string)) (m : metrics) :
  exists tally level color m',
    suspicion_tally (PStr name) (perm_arg permissions) =
      Ok (tally,
          present_entries DANGEROUS_PERMISSIONS (perm_list permissions)) /\
    (tally ==
     inject_Z (keyword_count SUSPICIOUS_WORDS name) +
     inject_Z (present_entries DANGEROUS_PERMISSIONS (perm_list permissions))
     * (1 # 2))%Q /\
    determine_maliciousness PROMETHEUS_AVAILABLE (PStr name)
      (perm_arg permissions) m = Ok ((level, color), m') /\
    ((2 <= tally)%Q -> level = level_high) /\
    (~ (2 <= tally)%Q -> (1 <= tally)%Q -> level = level_medium) /\
    (~ (1 <= tally)%Q -> level = level_low).
Proof.
  destruct (suspicion_tally_strs name permissions) as [tally [Hs Ht]].
  destruct (quick_tier_cases tally) as [Hh [Hm Hl]].
  unfold determine_maliciousness. rewrite Hs. cbn [bind].
  destruct (quick_tier tally) as [level color] eqn:Eq.
  exists tally, level, color. eexists.
  split; [reflexivity|]. split; [exact Ht|]. split; [reflexivity|].
  simpl in Hh, Hm, Hl. auto.
Qed.

Lemma C9_quick_tier_witness :
  exists level color m',
    determine_maliciousness (rt := ascii_runtime) true
      (PStr "FreePremiumHack.apk") (perm_arg None) sample_metrics =
    Ok ((level, color), m') /\
    level = level_high.
Proof.
  destruct (C9_quick_tier ascii_runtime true "FreePremiumHack.apk" None
              sample_metrics)
    as [tally [level [color [m' [_ [Ht [Hrun [Hhigh _]]]]]]]].
  exists level, color, m'. split; [exact Hrun|].
  apply Hhigh. rewrite Ht. vm_compute. discriminate.
Defined.

(* ===================================================================== *)
(** ** Worked examples *)
(* ===================================================================== *)

Example extraction_keeps_order :
  _extract_dangerous_permissions (rt := ascii_runtime)
    (str_list ["android.permission.CAMERA";
               "android.permission.INTERNET";
               "android.permission.read_sms"]) =
  Ok [PStr "android.permission.CAMERA"; PStr "android.permission.read_sms"].
Proof. vm_compute. reflexivity. Qed.

Example extraction_of_a_non_string :
  _extract_dangerous_permissions (rt := ascii_runtime)
    (PList [PStr "android.permission.CAMERA"; PInt 7]) =
  Raise AttributeError.
Proof. vm_compute. reflexivity. Qed.

Example score_is_capped :
  _calculate_suspicious_score (rt := ascii_runtime)
    [("name", PStr "free_premium_hack_crack_mod_cheat.apk")]
    [("Permissions", str_list ["android.permission.CAMERA"])] = Ok 10.
Proof. vm_compute. reflexivity. Qed.

Example warning_names_first_table_entry :
  _generate_warnings (rt := ascii_runtime)
    [("name", PStr "FreePremiumHack.apk")] [] =
  Ok [warn_keyword "hack"].
Proof. vm_compute. reflexivity. Qed.

Example three_dangerous_permissions_are_high :
  field2
    (compose_report (rt := ascii_runtime) sample_now
       [("name", PStr "Notes.apk")]
       [("Permissions",
         str_list ["android.permission.READ_SMS";
                   "android.permission.CAMERA";
                   "android.permission.RECORD_AUDIO"])])
    "security_assessment" "risk_level" = Some (PStr risk_high).
Proof. vm_compute. reflexivity. Qed.

Example path_join_cases :
  path_join "out/analysis_reports" "Test_20240307_090501.json" =
    "out/analysis_reports/Test_20240307_090501.json" /\
  path_join "out/" "a.txt" = "out/a.txt" /\
  path_join "out" "/tmp/a.txt" = "/tmp/a.txt".
Proof. repeat split. Qed.

Example clock_formats :
  isoformat sample_now = "2024-03-07T09:05:01" /\
  strftime_compact sample_now = "20240307_090501".
Proof. split; vm_compute; reflexivity. Qed.

(** In the sample world the tabular writer raises: its file is left
    interrupted and its format stays out of the mapping; the unsupported
    format is skipped. *)
Example batch_with_a_failing_writer :
  let result :=
    save_report (rt := ascii_runtime) (world := sample_world)
      "out/analysis_reports" sample_now
      (compose_report (rt := ascii_runtime) sample_now sample_apk_info
         sample_analysis_data)
      (PStr "CleanApp")
      (Some [PStr "json"; PStr "xml"; PStr "csv"; PStr "txt"]) empty_fs in
  fst result =
    Ok [("json", PStr "out/analysis_reports/CleanApp_20240307_090501.json");
        ("txt", PStr "out/analysis_reports/CleanApp_20240307_090501.txt")] /\
  snd result "out/analysis_reports/CleanApp_20240307_090501.csv" =
    Some Interrupted /\
  snd result "out/analysis_reports/CleanApp_20240307_090501.xml" = None.
Proof. vm_compute. repeat split. Qed.

Example quick_tier_of_a_name_alone :
  exists m,
    determine_maliciousness (rt := ascii_runtime) true
      (PStr "FreePremiumHack.apk") PNone sample_metrics =
    Ok ((level_high, Colors_RED), m) /\
    APK_DETECTION_COUNT m "high" = 1 /\
    DANGEROUS_PERMISSIONS_COUNT m = 0.
Proof. eexists. split; [vm_compute; reflexivity|]. split; reflexivity. Qed.

Example quick_tier_counts_table_entries :
  suspicion_tally (rt := ascii_runtime) (PStr "Notes.apk")
    (str_list ["android.permission.CAMERA"; "com.vendor.CAMERA"]) =
  Ok (1 # 2, 1).
Proof. vm_compute. reflexivity. Qed.

(* ===================================================================== *)
(** * Further properties *)
(* ===================================================================== *)

(** ** Extraction on arbitrary values *)

Section MoreComposerFacts.

Context {rt : PyRuntime}.

Lemma matches_table_non_str (v : pyval) :
  is_str v = false ->
  matches_table dangerous_permissions v = Raise AttributeError.
Proof. destruct v; simpl; intros H; try reflexivity. discriminate H. Qed.

Lemma matches_table_ok (table : list string) (v : pyval) (b : bool) :
  matches_table table v = Ok b -> table = [] \/ is_str v = true.
Proof.
  destruct table as [|d table]; [left; reflexivity|].
  destruct v; simpl; intros H; try discriminate H. right. reflexivity.
Qed.

Lemma extract_loop_all_strs (perms out : list pyval) :
  extract_loop dangerous_permissions perms = Ok out ->
  forallb is_str perms = true.
Proof.
  revert out; induction perms as [|p perms IH]; intros out H; [reflexivity|].
  cbn [extract_loop] in H.
  destruct (matches_table dangerous_permissions p) as [hit|] eqn:Em;
    [|discriminate H].
  cbn [bind] in H.
  destruct (extract_loop dangerous_permissions perms) as [rest|] eqn:Er;
    [|discriminate H].
  cbn [forallb]. rewrite (IH rest eq_refl).
  destruct (matches_table_ok _ _ _ Em) as [Hnil|Hs]; [discriminate Hnil|].
  rewrite Hs. reflexivity.
Qed.

Lemma extract_loop_non_str (perms : list pyval) :
  forallb is_str perms = false ->
  extract_loop dangerous_permissions perms = Raise AttributeError.
Proof.
  induction perms as [|p perms IH]; intros H; [discriminate H|].
  cbn [forallb] in H. cbn [extract_loop].
  destruct (is_str p) eqn:Ep.
  - destruct p; try discriminate Ep. rewrite matches_table_str. cbn [bind].
    rewrite (IH H). reflexivity.
  - rewrite (matches_table_non_str _ Ep). reflexivity.
Qed.

Lemma extract_loop_app (table : list string) (l1 l2 : list pyval) :
  extract_loop table (l1 ++ l2) =
  (d1 <- extract_loop table l1 ;;
   d2 <- extract_loop table l2 ;;
   Ok (d1 ++ d2)).
Proof.
  induction l1 as [|p l1 IH]; cbn [app extract_loop bind].
  - destruct (extract_loop table l2); reflexivity.
  - destruct (matches_table table p) as [hit|]; [|reflexivity].
    cbn [bind]. rewrite IH.
    destruct (extract_loop table l1) as [d1|]; [|reflexivity]. cbn [bind].
    destruct (extract_loop table l2) as [d2|]; [|reflexivity]. cbn [bind].
    destruct hit; reflexivity.
Qed.

Lemma extract_loop_idempotent (table : list string) (perms out : list pyval) :
  extract_loop table perms = Ok out -> extract_loop table out = Ok out.
Proof.
  revert out; induction perms as [|p perms IH]; intros out H.
  - injection H as <-. reflexivity.
  - cbn [extract_loop] in H.
    destruct (matches_table table p) as [hit|] eqn:Em; [|discriminate H].
    cbn [bind] in H.
    destruct (extract_loop table perms) as [rest|] eqn:Er; [|discriminate H].
    cbn [bind] in H. injection H as <-.
    destruct hit; [|apply IH; reflexivity].
    cbn [extract_loop]. rewrite Em. cbn [bind].
    rewrite (IH rest eq_refl). reflexivity.
Qed.

End MoreComposerFacts.

Lemma lacks_lower_not_str (v : pyval) : lacks_lower v -> is_str v = false.
Proof.
  intros [ -> | [[z ->] | [[l ->] | [d ->]]]]; reflexivity.
Qed.

(** X1: in a list of None, integers, strings, lists and dictionaries, one
    entry that is None, an integer, a list or a dictionary makes the
    extraction raise [AttributeError], whatever the other entries are: such
    an entry has no method [lower].  The extraction returns only on a list
    of strings, and then returns the dangerous ones in their order. *)
Theorem X1_extraction_needs_strings (rt : PyRuntime) (perms : list pyval) :
  (forall names,
      perms = map PStr names ->
      _extract_dangerous_permissions (PList perms) =
      Ok (map PStr (filter is_dangerous names))) /\
  (forall v,
      In v perms -> lacks_lower v ->
      _extract_dangerous_permissions (PList perms) = Raise AttributeError) /\
  (forall out,
      _extract_dangerous_permissions (PList perms) = Ok out ->
      exists names, perms = map PStr names).
Proof.
  split; [|split].
  - intros names ->. apply (extract_strs names).
  - intros v Hin Hv. apply extract_loop_non_str.
    destruct (forallb is_str perms) eqn:E; [|reflexivity].
    rewrite forallb_forall in E. specialize (E v Hin).
    rewrite (lacks_lower_not_str v Hv) in E. discriminate E.
  - intros out H. exists (strs_of perms).
    apply forallb_is_str. apply (extract_loop_all_strs _ _ H).
Qed.

Lemma X1_extraction_needs_strings_witness :
  _extract_dangerous_permissions (rt := ascii_runtime)
    (PList [PStr "android.permission.CAMERA"; PStr "android.permission.INTERNET"]) =
    Ok (map PStr
          (filter is_dangerous
             ["android.permission.CAMERA"; "android.permission.INTERNET"])) /\
  _extract_dangerous_permissions (rt := ascii_runtime)
    (PList [PStr "android.permission.CAMERA"; PNone]) = Raise AttributeError.
Proof.
  split.
  - apply (proj1 (X1_extraction_needs_strings ascii_runtime
                    [PStr "android.permission.CAMERA";
                     PStr "android.permission.INTERNET"])
             ["android.permission.CAMERA"; "android.permission.INTERNET"]).
    reflexivity.
  - apply (proj1 (proj2 (X1_extraction_needs_strings ascii_runtime
                           [PStr "android.permission.CAMERA"; PNone]))
             PNone).
    + right. left. reflexivity.
    + left. reflexivity.
Defined.

(** X2: the extraction of a concatenation is the concatenation of the
    extractions, exceptions included, and extracting from the result of an
    extraction returns it unchanged. *)
Theorem X2_extraction_composes (rt : PyRuntime) (l1 l2 : list pyval) :
  _extract_dangerous_permissions (PList (l1 ++ l2)) =
    (d1 <- _extract_dangerous_permissions (PList l1) ;;
     d2 <- _extract_dangerous_permissions (PList l2) ;;
     Ok (d1 ++ d2)) /\
  (forall permissions out,
      _extract_dangerous_permissions permissions = Ok out ->
      _extract_dangerous_permissions (PList out) = Ok out).
Proof.
  split.
  - apply extract_loop_app.
  - intros permissions out H. unfold _extract_dangerous_permissions in H.
    destruct (py_iter permissions) as [elems|]; [|discriminate H].
    apply (extract_loop_idempotent _ _ _ H).
Qed.

Lemma X2_extraction_composes_witness :
  _extract_dangerous_permissions (rt := ascii_runtime)
    (PList [PStr "android.permission.CAMERA"]) =
  Ok [PStr "android.permission.CAMERA"].
Proof.
  apply (proj2 (X2_extraction_composes ascii_runtime [] [])
           (str_list ["android.permission.INTERNET";
                      "android.permission.CAMERA"])).
  vm_compute. reflexivity.
Defined.

(** ** When the composition fails *)

Section ComposableFacts.

Context {rt : PyRuntime}.

Lemma chars_are_strs (s : string) : forallb is_str (map PStr (chars s)) = true.
Proof. induction (chars s) as [|x l IH]; [reflexivity|exact IH]. Qed.

Lemma iterable_elems (v : pyval) :
  iterable_of_strs v = true ->
  exists xs n, py_iter v = Ok (map PStr xs) /\ py_len v = Ok n.
Proof.
  destruct v; cbn [iterable_of_strs]; intros H; try discriminate H.
  - exists (chars s). eexists. split; reflexivity.
  - exists (strs_of l). eexists. split; [|reflexivity].
    cbn [py_iter]. f_equal. apply forallb_is_str. exact H.
  - exists (dict_keys d). eexists. split; reflexivity.
Qed.

Lemma extract_iter (v : pyval) (xs : list string) :
  py_iter v = Ok (map PStr xs) ->
  _extract_dangerous_permissions v = Ok (map PStr (filter is_dangerous xs)).
Proof.
  intros H. unfold _extract_dangerous_permissions. rewrite H. cbn [bind].
  apply extract_loop_strs.
Qed.

Lemma name_is_str_inv (apk_info : dict) (s : string) :
  py_lower (dict_get apk_info "name" (PStr EmptyString)) = Ok s ->
  name_is_str apk_info = true.
Proof.
  unfold name_is_str, dict_get.
  destruct (dict_lookup "name" apk_info) as [v|]; [|reflexivity].
  destruct v; simpl; intros H; try discriminate H. reflexivity.
Qed.

Lemma composable_succeeds (now : datetime) (apk_info analysis_data : dict) :
  composable apk_info analysis_data = true ->
  exists report, compose_report_try now apk_info analysis_data = Ok report.
Proof.
  unfold composable. intros H.
  apply andb_true_iff in H. destruct H as [H Hsize].
  apply andb_true_iff in H. destruct H as [Hname Hiter].
  destruct (iterable_elems _ Hiter) as [xs [n [Hi Hl]]].
  pose proof (typed_name _ Hname) as Hn.
  pose proof (extract_iter _ _ Hi) as He.
  assert (Hm : exists m,
             py_len (dict_get analysis_data "Intents" (PDict [])) = Ok m).
  { destruct (dict_get analysis_data "Intents" (PDict []));
      try discriminate Hsize; eexists; reflexivity. }
  destruct Hm as [m Hm].
  assert (Hs : exists score,
             _calculate_suspicious_score apk_info analysis_data = Ok score).
  { unfold _calculate_suspicious_score. rewrite Hn, He. eexists. reflexivity. }
  destruct Hs as [score Hs].
  assert (Hw : exists ws,
             _generate_warnings apk_info analysis_data = Ok ws).
  { unfold _generate_warnings. rewrite Hn, He, Hl. eexists. reflexivity. }
  destruct Hw as [ws Hw].
  assert (Ha : exists level color count,
             _assess_security apk_info analysis_data =
             Ok (PDict [("risk_level", PStr level);
                        ("risk_color", color);
                        ("suspicious_score", PInt score);
                        ("dangerous_permissions_count", PInt count);
                        ("warnings", PList (map PStr ws))])).
  { unfold _assess_security. rewrite He, Hs. cbn [bind].
    destruct (risk_tier score _) as [level color]. rewrite Hw.
    eexists _, _, _. reflexivity. }
  destruct Ha as [level [color [count Ha]]].
  unfold compose_report_try. rewrite Hl, He, Ha, Hm, Hs. cbn [bind].
  match goal with
  | |- context [_generate_recommendations ?r] =>
      rewrite (recommendations_from_fields r
                 (PDict [("risk_level", PStr level);
                         ("risk_color", color);
                         ("suspicious_score", PInt score);
                         ("dangerous_permissions_count", PInt count);
                         ("warnings", PList (map PStr ws))])
                 (PStr level) count n)
  end.
  - eexists. reflexivity.
  - reflexivity.
  - reflexivity.
  - reflexivity.
  - unfold listed_permissions. cbn [py_get dict_get dict_lookup String.eqb
      Ascii.eqb Bool.eqb bind]. exact Hl.
Qed.

Lemma succeeds_composable (now : datetime) (apk_info analysis_data : dict)
  (report : pyval) :
  compose_report_try now apk_info analysis_data = Ok report ->
  composable apk_info analysis_data = true.
Proof.
  intros H.
  destruct (compose_shape _ _ _ _ H)
    as [total [dangerous [sa [activities [score [recs Hf]]]]]].
  destruct Hf as [Ht [Hd [_ [Hi [Hs _]]]]].
  unfold composable. rewrite !andb_true_iff. repeat split.
  - unfold _calculate_suspicious_score in Hs.
    destruct (py_lower (dict_get apk_info "name" (PStr EmptyString)))
      as [s|] eqn:El; [|discriminate Hs].
    apply (name_is_str_inv _ _ El).
  - unfold _extract_dangerous_permissions in Hd.
    destruct (dict_get analysis_data "Permissions" (PList [])) as [| |s|l|d];
      try discriminate Hd; try reflexivity.
    cbn [py_iter bind] in Hd. apply (extract_loop_all_strs _ _ Hd).
  - destruct (dict_get analysis_data "Intents" (PDict []));
      try discriminate Hi; reflexivity.
Qed.

Lemma composed_not_empty (now : datetime) (apk_info analysis_data : dict)
  (report : pyval) :
  compose_report_try now apk_info analysis_data = Ok report ->
  report <> PDict [].
Proof.
  intros H.
  destruct (compose_shape _ _ _ _ H)
    as [total [dangerous [sa [activities [score [recs Hf]]]]]].
  destruct Hf as [_ [_ [_ [_ [_ [_ [Hm _]]]]]]].
  intros ->. discriminate Hm.
Qed.

End ComposableFacts.

Lemma dict_get_lookup (d : dict) (k : string) (v default : pyval) :
  dict_lookup k d = Some v -> dict_get d k default = v.
Proof. unfold dict_get. intros ->. reflexivity. Qed.

(** X3: for inputs made of None, integers, strings, lists and dictionaries
    with string keys, [compose_report] returns the empty dictionary when
    the value under ['name'] is None, an integer, a list or a dictionary,
    when the value under ['Permissions'] is None, an integer or a list with
    such an entry, and when the value under ['Intents'] is None or an
    integer; it returns a report that is not empty when ['name'] is absent
    or a string, ['Permissions'] is absent, a list of strings, a string or
    a dictionary, and ['Intents'] is absent, a string, a list or a
    dictionary. *)
Theorem X3_compose_failure_causes (rt : PyRuntime) (now : datetime)
  (apk_info analysis_data : dict) :
  (forall v,
      dict_lookup "name" apk_info = Some v -> lacks_lower v ->
      compose_report now apk_info analysis_data = PDict []) /\
  (forall v,
      dict_lookup "Permissions" analysis_data = Some v ->
      (unsized v \/
       exists l x, v = PList l /\ In x l /\ lacks_lower x) ->
      compose_report now apk_info analysis_data = PDict []) /\
  (forall v,
      dict_lookup "Intents" analysis_data = Some v -> unsized v ->
      compose_report now apk_info analysis_data = PDict []) /\
  (composable apk_info analysis_data = true ->
   exists report,
     compose_report_try now apk_info analysis_data = Ok report /\
     compose_report now apk_info analysis_data = report /\
     report <> PDict []).
Proof.
  assert (Hfail : composable apk_info analysis_data = false ->
                  compose_report now apk_info analysis_data = PDict []).
  { intros Hc. unfold compose_report.
    destruct (compose_report_try now apk_info analysis_data) as [r|] eqn:E;
      [|reflexivity].
    rewrite (succeeds_composable _ _ _ _ E) in Hc. discriminate Hc. }
  split; [|split; [|split]].
  - intros v Hl Hv. apply Hfail. unfold composable, name_is_str.
    rewrite Hl, (lacks_lower_not_str v Hv). reflexivity.
  - intros v Hl Hv. apply Hfail. unfold composable.
    rewrite (dict_get_lookup _ _ _ _ Hl).
    assert (Hi : iterable_of_strs v = false).
    { destruct Hv as [[ -> | [z ->]] | [l [x [-> [Hin Hx]]]]];
        try reflexivity.
      cbn [iterable_of_strs].
      destruct (forallb is_str l) eqn:E; [|reflexivity].
      rewrite forallb_forall in E. specialize (E x Hin).
      rewrite (lacks_lower_not_str x Hx) in E. discriminate E. }
    rewrite Hi, andb_false_r. reflexivity.
  - intros v Hl Hv. apply Hfail. unfold composable.
    rewrite (dict_get_lookup _ _ _ _ Hl).
    assert (Hs : sized v = false)
      by (destruct Hv as [ -> | [z ->]]; reflexivity).
    rewrite Hs, andb_false_r. reflexivity.
  - intros Hc. destruct (composable_succeeds now _ _ Hc) as [r Hr].
    exists r. split; [exact Hr|]. split.
    + unfold compose_report. rewrite Hr. reflexivity.
    + apply (composed_not_empty _ _ _ _ Hr).
Qed.

Lemma X3_compose_failure_causes_witness :
  (exists report,
      compose_report_try (rt := ascii_runtime) sample_now sample_apk_info
        [("Permissions", PStr "CAMERA"); ("Intents", PList [])] = Ok report /\
      report <> PDict []) /\
  compose_report (rt := ascii_runtime) sample_now sample_apk_info
    [("Permissions", PList [PStr "android.permission.CAMERA"; PInt 1])] =
  PDict [].
Proof.
  split.
  - destruct (proj2 (proj2 (proj2
                (X3_compose_failure_causes ascii_runtime sample_now
                   sample_apk_info
                   [("Permissions", PStr "CAMERA"); ("Intents", PList [])])))
                eq_refl) as [report [Hr [_ Hne]]].
    exists report. split; [exact Hr|exact Hne].
  - apply (proj1 (proj2 (X3_compose_failure_causes ascii_runtime sample_now
                           sample_apk_info
                           [("Permissions",
                             PList [PStr "android.permission.CAMERA";
                                    PInt 1])]))
             (PList [PStr "android.permission.CAMERA"; PInt 1]) eq_refl).
    right. exists [PStr "android.permission.CAMERA"; PInt 1], (PInt 1).
    split; [reflexivity|]. split; [right; left; reflexivity|].
    right. left. exists 1. reflexivity.
Defined.

(** ** Monotonicity and the reassuring recommendation *)

Lemma tier_rank_spec (score count : Z) :
  tier_rank (tier_spec score count) =
  if Z_le_dec 7 score then 2%nat
  else if Z_le_dec 3 count then 2%nat
  else if Z_le_dec 4 score then 1%nat
  else if Z_le_dec 1 count then 1%nat
  else 0%nat.
Proof.
  unfold tier_spec.
  destruct (Z_le_dec 7 score); [reflexivity|].
  destruct (Z_le_dec 3 count); [reflexivity|].
  destruct (Z_le_dec 4 score); [reflexivity|].
  destruct (Z_le_dec 1 count); reflexivity.
Qed.

Lemma tier_rank_mono (score score' count count' : Z) :
  score <= score' -> count <= count' ->
  (tier_rank (tier_spec score count) <= tier_rank (tier_spec score' count'))%nat.
Proof.
  intros Hs Hc. rewrite !tier_rank_spec.
  destruct (Z_le_dec 7 score); destruct (Z_le_dec 3 count);
    destruct (Z_le_dec 4 score); destruct (Z_le_dec 1 count);
    destruct (Z_le_dec 7 score'); destruct (Z_le_dec 3 count');
    destruct (Z_le_dec 4 score'); destruct (Z_le_dec 1 count'); lia.
Qed.

Lemma tier_spec_high_iff (score count : Z) :
  String.eqb (tier_spec score count) risk_high = true <->
  (7 <= score \/ 3 <= count).
Proof.
  unfold tier_spec.
  destruct (Z_le_dec 7 score); [split; [auto|reflexivity]|].
  destruct (Z_le_dec 3 count); [split; [auto|reflexivity]|].
  destruct (Z_le_dec 4 score); destruct (Z_le_dec 1 count);
    (split; [intros H; vm_compute in H; discriminate H|intros [H|H]; lia]).
Qed.

Lemma dangerous_count_app {rt : PyRuntime} (perms extra : list string) :
  dangerous_count_of (perms ++ extra) =
  dangerous_count_of perms + dangerous_count_of extra.
Proof.
  unfold dangerous_count_of. rewrite filter_app, length_app. lia.
Qed.

Lemma dangerous_count_nonneg {rt : PyRuntime} (perms : list string) :
  0 <= dangerous_count_of perms.
Proof. unfold dangerous_count_of. lia. Qed.

(** X4: listing further permissions never lowers the score and never
    lowers the risk level of the assessment. *)
Theorem X4_more_permissions_never_lower (rt : PyRuntime)
  (apk_info analysis_data analysis_data' : dict) (perms extra : list string) :
  name_is_str apk_info = true ->
  dict_get analysis_data "Permissions" (PList []) = str_list perms ->
  dict_get analysis_data' "Permissions" (PList []) =
    str_list (perms ++ extra) ->
  exists score score' sa sa' level level',
    _calculate_suspicious_score apk_info analysis_data = Ok score /\
    _calculate_suspicious_score apk_info analysis_data' = Ok score' /\
    score <= score' /\
    _assess_security apk_info analysis_data = Ok sa /\
    _assess_security apk_info analysis_data' = Ok sa' /\
    field sa "risk_level" = Some (PStr level) /\
    field sa' "risk_level" = Some (PStr level') /\
    (tier_rank level <= tier_rank level')%nat.
Proof.
  intros Hn Hp Hp'. pose proof (typed_name _ Hn) as Hname.
  assert (Hscore : score_spec (name_of apk_info) perms <=
                   score_spec (name_of apk_info) (perms ++ extra)).
  { rewrite !score_spec_value, dangerous_count_app.
    pose proof (dangerous_count_nonneg extra). lia. }
  eexists _, _, _, _, _, _.
  split; [apply (score_strs _ _ _ _ Hname Hp)|].
  split; [apply (score_strs _ _ _ _ Hname Hp')|].
  split; [exact Hscore|].
  split; [apply (assess_strs _ _ _ _ Hname Hp)|].
  split; [apply (assess_strs _ _ _ _ Hname Hp')|].
  split; [reflexivity|]. split; [reflexivity|].
  apply tier_rank_mono; [exact Hscore|].
  rewrite dangerous_count_app. pose proof (dangerous_count_nonneg extra). lia.
Qed.

Lemma X4_more_permissions_never_lower_witness :
  exists score score' sa sa' level level',
    _calculate_suspicious_score (rt := ascii_runtime) sample_apk_info
      [("Permissions", str_list ["android.permission.INTERNET"])] = Ok score /\
    _calculate_suspicious_score (rt := ascii_runtime) sample_apk_info
      [("Permissions",
        str_list (["android.permission.INTERNET"] ++ sample_permissions))] =
      Ok score' /\
    score <= score' /\
    _assess_security (rt := ascii_runtime) sample_apk_info
      [("Permissions", str_list ["android.permission.INTERNET"])] = Ok sa /\
    _assess_security (rt := ascii_runtime) sample_apk_info
      [("Permissions",
        str_list (["android.permission.INTERNET"] ++ sample_permissions))] =
      Ok sa' /\
    field sa "risk_level" = Some (PStr level) /\
    field sa' "risk_level" = Some (PStr level') /\
    (tier_rank level <= tier_rank level')%nat.
Proof.
  apply (X4_more_permissions_never_lower ascii_runtime sample_apk_info
           [("Permissions", str_list ["android.permission.INTERNET"])]
           [("Permissions",
             str_list (["android.permission.INTERNET"] ++ sample_permissions))]
           ["android.permission.INTERNET"] sample_permissions);
    reflexivity.
Defined.

Lemma recommendations_spec_reassuring {rt : PyRuntime} (high : bool)
  (count n : Z) :
  recommendations_spec high count n = rec_no_threats <->
  high = false /\ count <= 0 /\ n <= 25.
Proof.
  unfold recommendations_spec.
  destruct high; destruct (0 <? count) eqn:Ec; destruct (25 <? n) eqn:En;
    cbn [orb app];
    try (apply Z.ltb_lt in Ec); try (apply Z.ltb_ge in Ec);
    try (apply Z.ltb_lt in En); try (apply Z.ltb_ge in En);
    (split;
     [ intros H; try discriminate H; repeat split; auto
     | intros [Hh [Hc Hn]]; try discriminate Hh; try lia; reflexivity ]).
Qed.

(** X5: in the report of a well-typed input the single reassuring
    statement is the recommendation exactly when the score is below 7, no
    permission is dangerous and at most 25 are listed; the risk level is
    then "средний", not "низкий", whenever the score is 4 or more. *)
Theorem X5_reassurance_despite_medium_risk (rt : PyRuntime) (now : datetime)
  (apk_info analysis_data : dict) :
  name_is_str apk_info = true ->
  permissions_are_strs analysis_data = true ->
  intents_is_dict analysis_data = true ->
  let score := score_spec (name_of apk_info) (permissions_of analysis_data) in
  let count := dangerous_count_of (permissions_of analysis_data) in
  let total := Z.of_nat (List.length (permissions_of analysis_data)) in
  exists recs level,
    field (compose_report now apk_info analysis_data) "recommendations" =
      Some (PList (map PStr recs)) /\
    field2 (compose_report now apk_info analysis_data)
      "security_assessment" "risk_level" = Some (PStr level) /\
    field2 (compose_report now apk_info analysis_data)
      "security_assessment" "suspicious_score" = Some (PInt score) /\
    (recs = rec_no_threats <-> score < 7 /\ count = 0 /\ total <= 25) /\
    (recs = rec_no_threats -> 4 <= score -> level = risk_medium) /\
    (recs = rec_no_threats -> score < 4 -> level = risk_low).
Proof.
  intros Hn Hp Hi score count total.
  destruct (compose_typed now _ _ Hn Hp Hi)
    as [report [activities [Htry [_ [_ [_ [Hsa [Hrec _]]]]]]]].
  unfold compose_report. rewrite Htry.
  fold score count total in Hsa, Hrec.
  pose proof (dangerous_count_nonneg (permissions_of analysis_data)) as Hc0.
  fold count in Hc0.
  assert (Hiff : recommendations_spec
                   (String.eqb (tier_spec score count) risk_high) count total =
                 rec_no_threats <->
                 score < 7 /\ count = 0 /\ total <= 25).
  { rewrite recommendations_spec_reassuring. split.
    - intros [Hh [Hc Ht]].
      assert (Hnot : ~ (7 <= score \/ 3 <= count)).
      { intros H. apply tier_spec_high_iff in H. congruence. }
      repeat split; lia.
    - intros [Hs [Hc Ht]]. repeat split; try lia.
      destruct (String.eqb (tier_spec score count) risk_high) eqn:E;
        [|reflexivity].
      apply tier_spec_high_iff in E. lia. }
  eexists _, _. split; [exact Hrec|].
  unfold field2. rewrite Hsa. cbn [field dict_lookup String.eqb Ascii.eqb
                                     Bool.eqb].
  split; [reflexivity|]. split; [reflexivity|].
  split; [exact Hiff|]. split.
  - intros Hr H4. apply Hiff in Hr. destruct Hr as [H7 [Hc Ht]].
    apply (proj1 (proj2 (tier_spec_cases score count))); lia.
  - intros Hr H4. apply Hiff in Hr. destruct Hr as [H7 [Hc Ht]].
    apply (proj2 (proj2 (tier_spec_cases score count))); lia.
Qed.

Lemma X5_reassurance_despite_medium_risk_witness :
  exists recs level,
    field
      (compose_report (rt := ascii_runtime) sample_now
         [("name", PStr "FreePremiumHack.apk")] [])
      "recommendations" = Some (PList (map PStr recs)) /\
    field2
      (compose_report (rt := ascii_runtime) sample_now
         [("name", PStr "FreePremiumHack.apk")] [])
      "security_assessment" "risk_level" = Some (PStr level) /\
    recs = rec_no_threats /\
    level = risk_medium.
Proof.
  destruct (X5_reassurance_despite_medium_risk ascii_runtime sample_now
              [("name", PStr "FreePremiumHack.apk")] []
              eq_refl eq_refl eq_refl)
    as [recs [level [Hrec [Hlevel [_ [Hiff [Hmedium _]]]]]]].
  exists recs, level. split; [exact Hrec|]. split; [exact Hlevel|].
  assert (Hr : recs = rec_no_threats).
  { apply Hiff. vm_compute. repeat split; discriminate. }
  split; [exact Hr|]. apply (Hmedium Hr). vm_compute. discriminate.
Defined.

(* ===================================================================== *)
(** ** The writers on the reports of [compose_report] *)
(* ===================================================================== *)

Section WriterFacts.

Context {rt : PyRuntime}.

(** Whatever the input, a report that the body of [compose_report] returns
    is this dictionary. *)
Lemma composed_form (now : datetime) (apk_info analysis_data : dict)
  (report : pyval) :
  compose_report_try now apk_info analysis_data = Ok report ->
  exists total elems dangerous level color score warnings recs activities,
    py_len (dict_get analysis_data "Permissions" (PList [])) = Ok total /\
    py_iter (dict_get analysis_data "Permissions" (PList [])) = Ok elems /\
    extract_loop dangerous_permissions elems = Ok dangerous /\
    _calculate_suspicious_score apk_info analysis_data = Ok score /\
    _generate_warnings apk_info analysis_data = Ok warnings /\
    level = tier_spec score (Z.of_nat (List.length dangerous)) /\
    recs <> [] /\
    report =
    composed_report now apk_info analysis_data total dangerous level color
      score warnings recs activities.
Proof.
  unfold compose_report_try. intros H.
  destruct (py_len (dict_get analysis_data "Permissions" (PList [])))
    as [total|] eqn:Et; [|discriminate].
  destruct (_extract_dangerous_permissions _) as [dangerous|] eqn:Ed;
    [|discriminate].
  destruct (_assess_security _ _) as [sa|] eqn:Ea; [|discriminate].
  destruct (py_len (dict_get analysis_data "Intents" (PDict [])))
    as [activities|] eqn:Ei; [|discriminate].
  destruct (_calculate_suspicious_score _ _) as [score|] eqn:Es;
    [|discriminate].
  cbn [bind] in H.
  destruct (_generate_recommendations _) as [recs|] eqn:Er; [|discriminate].
  cbn [bind] in H.
  destruct (assess_shape _ _ _ Ea)
    as [dangerous' [score' [warnings [Hd' [Hs' [Hw ->]]]]]].
  assert (dangerous' = dangerous) by congruence.
  assert (score' = score) by congruence. subst dangerous' score'.
  unfold _extract_dangerous_permissions in Ed.
  destruct (py_iter (dict_get analysis_data "Permissions" (PList [])))
    as [elems|] eqn:Eiter; [|discriminate Ed].
  cbn [bind] in Ed.
  exists total, elems, dangerous,
    (tier_spec score (Z.of_nat (List.length dangerous))),
    (snd (risk_tier score (Z.of_nat (List.length dangerous)))),
    score, warnings, recs, activities.
  repeat (split; [first [reflexivity | assumption]|]).
  split; [eapply recommendations_nonempty; exact Er|].
  injection H as <-. reflexivity.
Qed.

Lemma extract_loop_classify (elems dangerous : list pyval) :
  extract_loop dangerous_permissions elems = Ok dangerous ->
  exists items, html_classify elems = Ok items /\ map snd items = elems.
Proof.
  revert dangerous; induction elems as [|p elems IH]; intros dangerous H.
  - exists []. split; reflexivity.
  - cbn [extract_loop] in H. cbn [html_classify].
    destruct (matches_table dangerous_permissions p) as [hit|];
      [|discriminate H].
    cbn [bind] in H |- *.
    destruct (extract_loop dangerous_permissions elems) as [rest|];
      [|discriminate H].
    destruct (IH rest eq_refl) as [items [Hc Hm]]. rewrite Hc. cbn [bind].
    eexists. split; [reflexivity|]. cbn [map snd]. rewrite Hm. reflexivity.
Qed.

Lemma html_of_composed (now : datetime) (apk_info analysis_data : dict)
  (report : pyval) :
  compose_report_try now apk_info analysis_data = Ok report ->
  exists content, html_content report = Ok content.
Proof.
  intros H.
  destruct (composed_form _ _ _ _ H)
    as [total [elems [dangerous [level [color [score [ws [recs [act Hf]]]]]]]]].
  destruct Hf as [Hl [Hi [He [_ [_ [_ [_ ->]]]]]]].
  destruct (extract_loop_classify _ _ He) as [items [Hc _]].
  unfold html_content, html_permission_items, composed_report.
  cbn [py_get dict_get dict_lookup String.eqb Ascii.eqb Bool.eqb bind
       py_lower py_iter].
  rewrite Hi. cbn [bind]. rewrite Hc. cbn [bind].
  eexists. reflexivity.
Qed.

Lemma csv_of_composed (now : datetime) (apk_info analysis_data : dict)
  (report : pyval) :
  compose_report_try now apk_info analysis_data = Ok report ->
  exists rows, csv_rows report = Ok rows.
Proof.
  intros H.
  destruct (composed_form _ _ _ _ H)
    as [total [elems [dangerous [level [color [score [ws [recs [act Hf]]]]]]]]].
  destruct Hf as [Hl [Hi [He [_ [_ [_ [_ ->]]]]]]].
  unfold csv_rows, composed_report.
  cbn [py_get dict_get dict_lookup String.eqb Ascii.eqb Bool.eqb bind
       py_items py_iter].
  rewrite Hl. cbn [bind]. rewrite Hi. cbn [bind].
  eexists. reflexivity.
Qed.

Lemma txt_of_composed (now stamp : datetime) (apk_info analysis_data : dict)
  (report : pyval) :
  compose_report_try now apk_info analysis_data = Ok report ->
  exists text, txt_content stamp report = Ok text.
Proof.
  intros H.
  destruct (composed_form _ _ _ _ H)
    as [total [elems [dangerous [level [color [score [ws [recs [act Hf]]]]]]]]].
  destruct Hf as [Hl [Hi [He [_ [_ [_ [_ ->]]]]]]].
  unfold txt_content, composed_report, txt_dangerous_block,
    txt_warnings_block.
  cbn [py_get dict_get dict_lookup String.eqb Ascii.eqb Bool.eqb bind
       py_items py_iter py_len].
  rewrite Hi.
  destruct dangerous; destruct ws;
    cbn [py_truthy map bind]; eexists; reflexivity.
Qed.

End WriterFacts.

Lemma writers_accept_composed {rt : PyRuntime} (now stamp : datetime)
  (apk_info analysis_data : dict) :
  (exists content,
      html_content (compose_report now apk_info analysis_data) = Ok content) /\
  (exists rows,
      csv_rows (compose_report now apk_info analysis_data) = Ok rows) /\
  (exists text,
      txt_content stamp (compose_report now apk_info analysis_data) = Ok text).
Proof.
  unfold compose_report.
  destruct (compose_report_try now apk_info analysis_data) as [report|] eqn:E.
  - split; [|split].
    + apply (html_of_composed _ _ _ _ E).
    + apply (csv_of_composed _ _ _ _ E).
    + apply (txt_of_composed _ _ _ _ _ E).
  - split; [|split]; eexists; reflexivity.
Qed.

(** X6: on every value that [compose_report] returns, the empty dictionary
    included, the texts of the hypertext, tabular and plain-text forms are
    built without raising; so each of the three writers ends normally
    exactly when its file can be opened and its text can be encoded as
    UTF-8, which a text with a lone surrogate cannot. *)
Theorem X6_writers_on_composed_reports (rt : PyRuntime) (base : World)
  (csv_encode : list (list pyval) -> string) (now stamp : datetime)
  (apk_info analysis_data : dict) :
  let report := compose_report now apk_info analysis_data in
  let world := modelled_world base csv_encode stamp in
  exists content rows text,
    html_content report = Ok content /\
    csv_rows report = Ok rows /\
    txt_content stamp report = Ok text /\
    forall file_path w,
      (snd (_save_html (world := world) report file_path w) = Ok tt <->
       can_open (World := base) file_path = true /\
       encodable (World := base) content = true) /\
      (snd (_save_csv (world := world) report file_path w) = Ok tt <->
       can_open (World := base) file_path = true /\
       encodable (World := base) (csv_encode rows) = true) /\
      (snd (_save_txt (world := world) report file_path w) = Ok tt <->
       can_open (World := base) file_path = true /\
       encodable (World := base) text = true).
Proof.
  intros report world.
  destruct (writers_accept_composed now stamp apk_info analysis_data)
    as [[content Hhtml] [[rows Hcsv] [text Htxt]]].
  fold report in Hhtml, Hcsv, Htxt.
  exists content, rows, text.
  split; [exact Hhtml|]. split; [exact Hcsv|]. split; [exact Htxt|].
  intros file_path w.
  unfold _save_html, _save_csv, _save_txt, open_then_write.
  cbn [csv_text txt_text can_open encodable world modelled_world].
  rewrite Hhtml, Hcsv, Htxt. cbn [bind].
  destruct (can_open file_path);
    destruct (encodable content);
    destruct (encodable (csv_encode rows));
    destruct (encodable text); cbn [snd];
    intuition congruence.
Qed.

(** ** Saving the reports of [compose_report] *)

(** X7: when the tabular and plain-text writers are the modelled ones, a
    report that [compose_report] returned has its csv, txt or html entry in
    the mapping [save_report] returns exactly when that format was asked
    for, its file could be opened and its text could be encoded: none of
    these writers fails on the structure of the report. *)
Theorem X7_composed_reports_save (rt : PyRuntime) (base : World)
  (csv_encode : list (list pyval) -> string)
  (stamp composed_at now : datetime) (reports_dir : string)
  (apk_info analysis_data : dict) (apk_name : pyval) (formats : list pyval)
  (w : fs) (k : string) (mapping : dict) :
  In k ["csv"; "txt"; "html"] ->
  let report := compose_report composed_at apk_info analysis_data in
  let world := modelled_world base csv_encode stamp in
  let file_path := report_path reports_dir now apk_name k in
  fst (save_report (world := world) reports_dir now report apk_name
         (Some formats) w) = Ok mapping ->
  exists text,
    format_text (world := world) k report = Ok text /\
    (In (PStr k) formats /\ can_open (World := base) file_path = true /\
     encodable (World := base) text = true ->
     dict_lookup k mapping = Some (PStr file_path)) /\
    (~ (In (PStr k) formats /\ can_open (World := base) file_path = true /\
        encodable (World := base) text = true) ->
     dict_lookup k mapping = None).
Proof.
  intros Hk report world file_path Hr.
  destruct (writers_accept_composed composed_at stamp apk_info analysis_data)
    as [[content Hhtml] [[rows Hcsv] [body Htxt]]].
  fold report in Hhtml, Hcsv, Htxt.
  assert (Ht : exists text, format_text (world := world) k report = Ok text).
  { cbn [In] in Hk.
    destruct Hk as [<-|[<-|[<-|[]]]]; unfold format_text;
      cbn [String.eqb Ascii.eqb Bool.eqb csv_text txt_text world
           modelled_world];
      rewrite ?Hcsv, ?Htxt, ?Hhtml; cbn [bind]; eexists; reflexivity. }
  destruct Ht as [text Ht]. exists text. split; [exact Ht|].
  assert (Hsup : is_supported k = true).
  { cbn [In] in Hk. destruct Hk as [<-|[<-|[<-|[]]]]; reflexivity. }
  assert (Hlookup : dict_lookup k mapping =
                    if (requested k formats &&
                        (can_open (World := base) file_path &&
                         encodable (World := base) text))%bool
                    then Some (PStr file_path) else None).
  { unfold save_report in Hr.
    rewrite (save_loop_lookup _ _ _ _ _ _ _ _ Hr).
    unfold kept, written_ok.
    fold (report_path reports_dir now apk_name k). fold file_path.
    rewrite Ht, Hsup. reflexivity. }
  rewrite Hlookup. split.
  - intros [Hreq [Hopen Henc]]. apply requested_In in Hreq.
    rewrite Hreq, Hopen, Henc. reflexivity.
  - intros Hnot.
    destruct (requested k formats) eqn:Hreq;
      destruct (can_open file_path) eqn:Hopen;
      destruct (encodable text) eqn:Henc; try reflexivity.
    exfalso. apply Hnot. split; [apply requested_In; exact Hreq|].
    split; reflexivity.
Qed.

Lemma X7_composed_reports_save_witness :
  exists mapping,
    fst (save_report (rt := ascii_runtime)
           (world := modelled_world sample_world (fun _ => "rows") sample_now)
           "out/analysis_reports" sample_now
           (compose_report (rt := ascii_runtime) sample_now sample_apk_info
              sample_analysis_data)
           (PStr "CleanApp") (Some [PStr "json"; PStr "csv"]) empty_fs) =
      Ok mapping /\
    dict_lookup "csv" mapping =
    Some (PStr (report_path (rt := ascii_runtime) "out/analysis_reports"
                  sample_now (PStr "CleanApp") "csv")).
Proof.
  eexists. split; [vm_compute; reflexivity|].
  destruct (X7_composed_reports_save ascii_runtime sample_world
              (fun _ => "rows") sample_now sample_now sample_now
              "out/analysis_reports" sample_apk_info sample_analysis_data
              (PStr "CleanApp") [PStr "json"; PStr "csv"] empty_fs "csv"
              [("json", PStr "out/analysis_reports/CleanApp_20240307_090501.json");
               ("csv", PStr "out/analysis_reports/CleanApp_20240307_090501.csv")]
              (or_introl eq_refl))
    as [text [_ [Hin _]]].
  - vm_compute. reflexivity.
  - apply Hin. split; [right; left; reflexivity|]. split; reflexivity.
Defined.

(** ** The hypertext writer does not escape *)

Lemma is_substring_mid (a x b : string) :
  is_substring x (a ++ x ++ b) = true.
Proof. apply is_substring_spec. exists a, b. reflexivity. Qed.

Lemma is_substring_refl (x : string) : is_substring x x = true.
Proof.
  apply is_substring_spec. exists EmptyString, EmptyString. simpl.
  induction x as [|c x IH]; simpl; congruence.
Qed.

Lemma is_substring_app_r (x a b : string) :
  is_substring x b = true -> is_substring x (a ++ b) = true.
Proof.
  rewrite !is_substring_spec. intros [u [v ->]].
  exists (a ++ u)%string, v. rewrite append_assoc. reflexivity.
Qed.

Lemma is_substring_app_l (x a b : string) :
  is_substring x a = true -> is_substring x (a ++ b) = true.
Proof.
  rewrite !is_substring_spec. intros [u [v ->]].
  exists u, (v ++ b)%string. rewrite !append_assoc. reflexivity.
Qed.

Lemma is_substring_concat {A : Type} (f : A -> string) (l : list A) (y : A) :
  In y l -> is_substring (f y) (concat_str (map f l)) = true.
Proof.
  induction l as [|z l IH]; intros Hin; [destruct Hin|].
  cbn [map concat_str]. destruct Hin as [->|Hin].
  - apply is_substring_app_l, is_substring_refl.
  - apply is_substring_app_r, IH, Hin.
Qed.

Lemma unlines_app (pre : list string) (l : string) (post : list string) :
  unlines (pre ++ l :: post) = (unlines pre ++ l ++ nl ++ unlines post)%string.
Proof.
  induction pre as [|p pre IH]; cbn [app unlines append]; [reflexivity|].
  rewrite IH, !append_assoc. reflexivity.
Qed.

Lemma field2_py_get (report : pyval) (k1 k2 : string) (v d1 d2 x y : pyval) :
  field2 report k1 k2 = Some v ->
  py_get report k1 d1 = Ok x ->
  py_get x k2 d2 = Ok y ->
  y = v.
Proof.
  intros Hf H1 H2. destruct (field2_inv _ _ _ _ Hf) as [d [d' [-> [L1 L2]]]].
  cbn [py_get] in H1. rewrite (dict_get_present _ _ _ _ L1) in H1.
  injection H1 as <-. cbn [py_get] in H2.
  rewrite (dict_get_present _ _ _ _ L2) in H2. congruence.
Qed.

Lemma field_py_get (report : pyval) (k : string) (v d x : pyval) :
  field report k = Some v -> py_get report k d = Ok x -> x = v.
Proof.
  destruct report; try discriminate. cbn [field py_get]. intros Hf H.
  rewrite (dict_get_present _ _ _ _ Hf) in H. congruence.
Qed.

Lemma html_head_title {rt : PyRuntime}
  (apk_name analysis_date risk_class risk_level total : string) :
  is_substring ("<title>Отчет анализа APK: " ++ apk_name ++ "</title>")
    (html_head apk_name analysis_date risk_class risk_level total) = true.
Proof.
  unfold html_head.
  match goal with
  | |- context [unlines (?a :: ?b :: ?c :: ?d :: ?e :: ?l :: ?post)] =>
      change (unlines (a :: b :: c :: d :: e :: l :: post))
        with (unlines ([a; b; c; d; e] ++ l :: post))
  end.
  rewrite unlines_app.
  apply is_substring_app_r, is_substring_app_l, is_substring_app_r,
    is_substring_app_l.
  apply (is_substring_app_r _ "            ").
  apply is_substring_refl.
Qed.

(** X8: the hypertext writer copies text into the document as it is, with
    no escaping: the file name into the title, every listed permission and
    every recommendation into its list item. *)
Theorem X8_html_writes_text_verbatim (rt : PyRuntime) (report : pyval)
  (content : string) :
  html_content report = Ok content ->
  (forall name,
      field2 report "metadata" "apk_name" = Some (PStr name) ->
      is_substring ("<title>Отчет анализа APK: " ++ name ++ "</title>")%string
        content = true) /\
  (forall perms p,
      field2 report "permissions" "list" = Some (str_list perms) ->
      In p perms ->
      is_substring
        ("<li class=" ++ dq ++
         (if is_dangerous p then "dangerous" else EmptyString) ++ dq ++
         ">" ++ p ++ "</li>" ++ nl)%string content = true) /\
  (forall recs r,
      field report "recommendations" = Some (str_list recs) ->
      In r recs ->
      is_substring ("<li>" ++ r ++ "</li>" ++ nl)%string content = true).
Proof.
  intros H. unfold html_content in H. bind_inv H.
  match type of H with
  | Ok (?head ++ ?items ++ ?middle ++ ?recs ++ ?tail)%string = Ok _ =>
      assert (Hc : content = (head ++ items ++ middle ++ recs ++ tail)%string)
        by congruence
  end.
  clear H. subst content. split; [|split].
  - intros name Hf.
    match goal with
    | E1 : py_get report "metadata" _ = Ok ?x,
      E2 : py_get ?x "apk_name" _ = Ok ?y |- _ =>
        pose proof (field2_py_get _ _ _ _ _ _ _ _ Hf E1 E2) as Hy; subst y
    end.
    apply is_substring_app_l. cbn [py_str]. apply html_head_title.
  - intros perms p Hf Hin.
    match goal with
    | E : html_permission_items report = Ok ?its |- _ =>
        rewrite (html_items_strs _ _ Hf) in E; injection E as <-
    end.
    apply is_substring_app_r, is_substring_app_l.
    change ("<li class=" ++ dq ++
            (if is_dangerous p then "dangerous" else EmptyString) ++ dq ++
            ">" ++ p ++ "</li>" ++ nl)%string
      with (html_perm_li (html_item p)).
    apply is_substring_concat. apply in_map. exact Hin.
  - intros recs r Hf Hin.
    match goal with
    | E1 : py_get report "recommendations" _ = Ok ?x,
      E2 : py_iter ?x = Ok ?y |- _ =>
        pose proof (field_py_get _ _ _ _ _ Hf E1) as Hx; subst x;
        cbn [py_iter str_list] in E2; injection E2 as <-
    end.
    apply is_substring_app_r, is_substring_app_r, is_substring_app_r,
      is_substring_app_l.
    change ("<li>" ++ r ++ "</li>" ++ nl)%string with (html_rec_li (PStr r)).
    apply is_substring_concat. apply in_map. exact Hin.
Qed.

Lemma X8_html_writes_text_verbatim_witness :
  exists content,
    html_content (rt := ascii_runtime)
      (compose_report (rt := ascii_runtime) sample_now
         [("name", PStr "<b>.apk")]
         [("Permissions", str_list ["<i>CAMERA</i>"])]) = Ok content /\
    is_substring "<title>Отчет анализа APK: <b>.apk</title>" content = true /\
    is_substring
      ("<li class=" ++ dq ++ "dangerous" ++ dq ++ "><i>CAMERA</i></li>" ++ nl)
      content = true.
Proof.
  eexists. split; [vm_compute; reflexivity|].
  match goal with
  | |- is_substring _ ?c = true /\ _ =>
      pose proof (X8_html_writes_text_verbatim ascii_runtime
                    (compose_report (rt := ascii_runtime) sample_now
                       [("name", PStr "<b>.apk")]
                       [("Permissions", str_list ["<i>CAMERA</i>"])])
                    c) as Hx
  end.
  destruct Hx as [Htitle [Hperm _]]; [vm_compute; reflexivity|].
  split.
  - apply (Htitle "<b>.apk"). vm_compute. reflexivity.
  - apply (Hperm ["<i>CAMERA</i>"] "<i>CAMERA</i>");
      [vm_compute; reflexivity|left; reflexivity].
Defined.

(** ** The tabular form of a composed report *)

(** X9: the tabular writer lays a report of [compose_report] out as the
    heading and the six metadata rows, the permissions heading with the row
    that repeats [permissions.total], one row for each permission, the
    assessment heading with its level, score, count and warnings but not
    its colour, and one row for each recommendation, the sections parted by
    empty rows. *)
Theorem X9_csv_rows_of_composed (rt : PyRuntime) (now : datetime)
  (apk_info analysis_data : dict) (report : pyval) :
  compose_report_try now apk_info analysis_data = Ok report ->
  exists total elems level score count warnings recs,
    field2 report "permissions" "total" = Some (PInt total) /\
    py_iter (dict_get analysis_data "Permissions" (PList [])) = Ok elems /\
    field2 report "security_assessment" "risk_level" = Some (PStr level) /\
    field2 report "security_assessment" "suspicious_score" =
      Some (PInt score) /\
    field2 report "security_assessment" "dangerous_permissions_count" =
      Some (PInt count) /\
    field2 report "security_assessment" "warnings" =
      Some (str_list warnings) /\
    field report "recommendations" = Some (str_list recs) /\
    csv_rows report =
    Ok ([[PStr "Метаданные"];
         [PStr "apk_name";
          PStr (py_str (dict_get apk_info "name" (PStr "Unknown")))];
         [PStr "apk_path";
          PStr (py_str (dict_get apk_info "path" (PStr EmptyString)))];
         [PStr "file_size";
          PStr (py_str (dict_get apk_info "size" (PInt 0)))];
         [PStr "last_modified";
          PStr (py_str (dict_get apk_info "last_modified" (PStr EmptyString)))];
         [PStr "analysis_date"; PStr (isoformat now)];
         [PStr "report_version"; PStr "1.0"];
         [];
         [PStr "Разрешения"];
         [PStr "Общее количество"; PInt total];
         [PStr "Список разрешений"]] ++
        map (fun perm => [perm]) elems ++
        [[];
         [PStr "Оценка безопасности"];
         [PStr "risk_level"; PStr level];
         [PStr "suspicious_score"; PStr (Z_to_string score)];
         [PStr "dangerous_permissions_count"; PStr (Z_to_string count)];
         [PStr "warnings"; PStr (py_repr (str_list warnings))];
         [];
         [PStr "Рекомендации"]] ++
        map (fun rec => [PStr rec]) recs).
Proof.
  intros H.
  destruct (composed_form _ _ _ _ H)
    as [total [elems [dangerous [level [color [score [ws [recs [act Hf]]]]]]]]].
  destruct Hf as [Hl [Hi [He [_ [_ [_ [_ ->]]]]]]].
  exists total, elems, level, score, (Z.of_nat (List.length dangerous)), ws,
    recs.
  repeat (split; [first [reflexivity | assumption]|]).
  unfold csv_rows, composed_report.
  cbn [py_get dict_get dict_lookup String.eqb Ascii.eqb Bool.eqb bind
       py_items py_iter].
  rewrite Hl. cbn [bind]. rewrite Hi. cbn [bind].
  rewrite map_map. reflexivity.
Qed.

Lemma X9_csv_rows_of_composed_witness :
  exists rows,
    csv_rows (rt := ascii_runtime)
      (compose_report (rt := ascii_runtime) sample_now sample_apk_info
         sample_analysis_data) = Ok rows /\
    In [PStr "Общее количество"; PInt 2] rows.
Proof.
  destruct (X9_csv_rows_of_composed ascii_runtime sample_now sample_apk_info
              sample_analysis_data
              (compose_report (rt := ascii_runtime) sample_now sample_apk_info
                 sample_analysis_data) eq_refl)
    as [total [elems [level [score [count [ws [recs [Ht [_ [_ [_ [_ [_
        [_ Hrows]]]]]]]]]]]]]].
  eexists. split; [exact Hrows|].
  vm_compute in Ht. injection Ht as <-.
  apply in_or_app. left. cbn [In]. do 9 right. left. reflexivity.
Defined.

(** ** The mapping and the paths of [save_report] *)

Lemma dict_set_keys_In (d : dict) (k k' : string) (v : pyval) :
  In k' (map fst (dict_set d k v)) -> k' = k \/ In k' (map fst d).
Proof.
  induction d as [|[k0 v0] d IH]; cbn [dict_set map fst In].
  - intros [<-|[]]. left. reflexivity.
  - destruct (String.eqb k0 k) eqn:E; cbn [map fst In].
    + intros [H|H]; right; [left; exact H|right; exact H].
    + intros [H|H]; [right; left; exact H|].
      destruct (IH H) as [Hk|Hin]; [left; exact Hk|right; right; exact Hin].
Qed.

Lemma dict_set_keys_NoDup (d : dict) (k : string) (v : pyval) :
  NoDup (map fst d) -> NoDup (map fst (dict_set d k v)).
Proof.
  induction d as [|[k0 v0] d IH]; cbn [dict_set map fst]; intros Hnd.
  - constructor; [intros []|constructor].
  - inversion Hnd as [|x l Hx Hl]; subst.
    destruct (String.eqb k0 k) eqn:E; cbn [map fst].
    + constructor; assumption.
    + constructor; [|apply IH; exact Hl].
      intros Hin. destruct (dict_set_keys_In _ _ _ _ Hin) as [Hk|Hin'].
      * subst k0. rewrite String.eqb_refl in E. discriminate E.
      * contradiction.
Qed.

Lemma save_loop_keys {rt : PyRuntime} {world : World}
  (reports_dir base_filename : string) (report : pyval)
  (formats : list pyval) (saved0 : dict) (w0 : fs) (mapping : dict) :
  fst (save_loop reports_dir base_filename report formats saved0 w0) =
    Ok mapping ->
  NoDup (map fst saved0) ->
  (forall k, In k (map fst saved0) -> In k supported_formats) ->
  NoDup (map fst mapping) /\
  (forall k, In k (map fst mapping) -> In k supported_formats).
Proof.
  revert saved0 w0.
  induction formats as [|fmt rest IH]; intros saved0 w0 Hr Hnd Hsup.
  - cbn [save_loop fst] in Hr. injection Hr as <-. split; assumption.
  - destruct (save_loop_step reports_dir base_filename report fmt rest saved0 w0)
      as [[_ Hstep]|[k0 [_ [Hk0 [[_ [text [_ Hstep]]]|
                                 [_ [w1 [e [_ Hstep]]]]]]]]];
      rewrite Hstep in Hr;
      try match type of Hr with
          | context [can_print ?t] =>
              destruct (can_print t); [|discriminate Hr]
          end.
    + apply (IH _ _ Hr); assumption.
    + apply (IH _ _ Hr).
      * apply dict_set_keys_NoDup. exact Hnd.
      * intros k Hin. destruct (dict_set_keys_In _ _ _ _ Hin) as [->|Hin'].
        -- apply is_supported_In. exact Hk0.
        -- apply Hsup. exact Hin'.
    + apply (IH _ _ Hr); assumption.
Qed.

(** X10: a mapping [save_report] returns names each format at most once,
    however often it was asked for, names only supported formats, and so
    has at most four entries. *)
Theorem X10_mapping_has_distinct_supported_keys (rt : PyRuntime)
  (world : World) (reports_dir : string) (now : datetime)
  (report apk_name : pyval) (formats : option (list pyval)) (w : fs)
  (mapping : dict) :
  fst (save_report reports_dir now report apk_name formats w) = Ok mapping ->
  NoDup (map fst mapping) /\
  (forall k, In k (map fst mapping) -> In k supported_formats) /\
  (List.length mapping <= 4)%nat.
Proof.
  intros Hr.
  assert (H : NoDup (map fst mapping) /\
              (forall k, In k (map fst mapping) -> In k supported_formats)).
  { unfold save_report in Hr. apply (save_loop_keys _ _ _ _ _ _ _ Hr).
    - constructor.
    - intros k []. }
  destruct H as [Hnd Hsup]. split; [exact Hnd|]. split; [exact Hsup|].
  rewrite <- (length_map fst mapping).
  apply (NoDup_incl_length (l' := supported_formats) Hnd). exact Hsup.
Qed.

Lemma X10_mapping_has_distinct_supported_keys_witness :
  let mapping :=
    [("json", PStr "out/analysis_reports/CleanApp_20240307_090501.json");
     ("txt", PStr "out/analysis_reports/CleanApp_20240307_090501.txt")] in
  fst (save_report (rt := ascii_runtime) (world := sample_world)
         "out/analysis_reports" sample_now (PDict []) (PStr "CleanApp")
         (Some [PStr "json"; PStr "json"; PStr "xml"; PStr "txt"; PStr "json"])
         empty_fs) = Ok mapping /\
  NoDup (map fst mapping) /\
  (forall k, In k (map fst mapping) -> In k supported_formats) /\
  (List.length mapping <= 4)%nat.
Proof.
  intros mapping.
  assert (Hr : fst (save_report (rt := ascii_runtime) (world := sample_world)
                      "out/analysis_reports" sample_now (PDict [])
                      (PStr "CleanApp")
                      (Some [PStr "json"; PStr "json"; PStr "xml"; PStr "txt";
                             PStr "json"])
                      empty_fs) = Ok mapping)
    by (vm_compute; reflexivity).
  split; [exact Hr|].
  exact (X10_mapping_has_distinct_supported_keys ascii_runtime sample_world
           _ _ _ _ _ _ mapping Hr).
Defined.

Lemma prefix_slash_name (name rest : string) :
  String.prefix "/" (name ++ "_" ++ rest) = String.prefix "/" name.
Proof.
  destruct name as [|c name]; [reflexivity|].
  cbn [append]. apply prefix_slash_head.
Qed.

Lemma prefix_append (a b : string) : String.prefix a (a ++ b) = true.
Proof. apply prefix_spec. exists b. reflexivity. Qed.

Lemma report_path_cases {rt : PyRuntime} (reports_dir : string)
  (now : datetime) (apk_name : pyval) (k : string) :
  let file :=
    (py_str apk_name ++ "_" ++ strftime_compact now ++ "." ++ k)%string in
  (String.prefix "/" (py_str apk_name) = true ->
   report_path reports_dir now apk_name k = file) /\
  (String.prefix "/" (py_str apk_name) = false ->
   report_path reports_dir now apk_name k =
   (reports_dir ++
    (if (String.eqb reports_dir EmptyString || ends_with_slash reports_dir)%bool
     then EmptyString else "/") ++ file)%string).
Proof.
  intros file. unfold report_path, batch_path, path_join.
  assert (Hf : ((py_str apk_name ++ "_" ++ strftime_compact now) ++ "." ++ k)%string
               = file).
  { unfold file. rewrite append_assoc. reflexivity. }
  assert (Hp : String.prefix "/" file = String.prefix "/" (py_str apk_name)).
  { unfold file. apply prefix_slash_name. }
  rewrite Hf, Hp.
  split; intros ->; [reflexivity|].
  destruct (String.eqb reports_dir EmptyString || ends_with_slash reports_dir)%bool;
    reflexivity.
Qed.

(** X11: every path in the mapping of [save_report] is the reports
    directory followed by the file name, unless the base name starts with a
    slash: then the reports directory is dropped and the file is written at
    the absolute path the base name gives. *)
Theorem X11_absolute_name_leaves_reports_dir (rt : PyRuntime) (world : World)
  (reports_dir : string) (now : datetime) (report apk_name : pyval)
  (formats : option (list pyval)) (w : fs) (mapping : dict) (k : string)
  (v : pyval) :
  fst (save_report reports_dir now report apk_name formats w) = Ok mapping ->
  dict_lookup k mapping = Some v ->
  let file :=
    (py_str apk_name ++ "_" ++ strftime_compact now ++ "." ++ k)%string in
  (String.prefix "/" (py_str apk_name) = true -> v = PStr file) /\
  (String.prefix "/" (py_str apk_name) = false ->
   exists path,
     v = PStr path /\ String.prefix reports_dir path = true /\
     (path = (reports_dir ++ file)%string \/
      path = (reports_dir ++ "/" ++ file)%string)).
Proof.
  intros Hr Hlookup file.
  assert (Hv : v = PStr (report_path reports_dir now apk_name k)).
  { unfold save_report in Hr.
    rewrite (save_loop_lookup _ _ _ _ _ _ _ _ Hr) in Hlookup.
    destruct (kept _ _ _ _ _); [|discriminate Hlookup].
    injection Hlookup as <-. reflexivity. }
  destruct (report_path_cases reports_dir now apk_name k) as [Habs Hrel].
  fold file in Habs, Hrel. split.
  - intros H. rewrite Hv, (Habs H). reflexivity.
  - intros H. rewrite Hv, (Hrel H). eexists. split; [reflexivity|].
    split; [apply prefix_append|].
    destruct (String.eqb reports_dir EmptyString || ends_with_slash reports_dir)%bool;
      [left|right]; reflexivity.
Qed.

Lemma X11_absolute_name_leaves_reports_dir_witness :
  (String.prefix "/" "/tmp/evil" = true ->
   PStr "/tmp/evil_20240307_090501.json" =
   PStr ("/tmp/evil" ++ "_" ++ strftime_compact sample_now ++ "." ++ "json")) /\
  (String.prefix "/" "/tmp/evil" = false ->
   exists path,
     PStr "/tmp/evil_20240307_090501.json" = PStr path /\
     String.prefix "out/analysis_reports" path = true /\
     (path =
      ("out/analysis_reports" ++
       "/tmp/evil" ++ "_" ++ strftime_compact sample_now ++ "." ++ "json")%string \/
      path =
      ("out/analysis_reports" ++ "/" ++
       "/tmp/evil" ++ "_" ++ strftime_compact sample_now ++ "." ++ "json")%string)).
Proof.
  apply (X11_absolute_name_leaves_reports_dir ascii_runtime sample_world
           "out/analysis_reports" sample_now (PDict []) (PStr "/tmp/evil")
           (Some [PStr "json"]) empty_fs
           [("json", PStr "/tmp/evil_20240307_090501.json")] "json"
           (PStr "/tmp/evil_20240307_090501.json")).
  - vm_compute. reflexivity.
  - reflexivity.
Defined.

Lemma get_last (a : string) (c : ascii) :
  get (String.length a) (a ++ String c EmptyString) = Some c.
Proof. induction a as [|x a IH]; simpl; [reflexivity|exact IH]. Qed.

Lemma ends_with_slash_snoc (a : string) (c : ascii) :
  ends_with_slash (a ++ String c EmptyString) = Ascii.eqb c "/".
Proof.
  unfold ends_with_slash. rewrite length_append_string. cbn [String.length].
  rewrite Nat.add_sub, get_last. reflexivity.
Qed.

Lemma snoc_not_empty (a : string) (c : ascii) :
  String.eqb (a ++ String c EmptyString) EmptyString = false.
Proof. destruct a; reflexivity. Qed.

Lemma snoc_decompose (s : string) :
  s <> EmptyString -> exists b c, s = (b ++ String c EmptyString)%string.
Proof.
  induction s as [|x s IH]; intros Hne; [contradiction Hne; reflexivity|].
  destruct s as [|y s].
  - exists EmptyString, x. reflexivity.
  - destruct IH as [b [c Hb]]; [discriminate|].
    exists (String x b), c. cbn [append]. rewrite <- Hb. reflexivity.
Qed.

(** [os.path.join] adds no slash after an empty first part or one that
    ends with a slash. *)
Lemma joins_bare (a : string) :
  (String.eqb a EmptyString || ends_with_slash a)%bool = true <->
  a = EmptyString \/ exists b, a = (b ++ "/")%string.
Proof.
  split.
  - intros H. destruct (String.eqb a EmptyString) eqn:Ea.
    + left. apply String.eqb_eq. exact Ea.
    + right. cbn [orb] in H.
      destruct (snoc_decompose a) as [b [c ->]].
      { intros ->. discriminate Ea. }
      rewrite ends_with_slash_snoc in H. apply Ascii.eqb_eq in H. subst c.
      exists b. reflexivity.
  - intros [ -> | [b ->]]; [reflexivity|].
    change (b ++ "/")%string with (b ++ String "/" EmptyString)%string.
    rewrite ends_with_slash_snoc. apply orb_true_r.
Qed.

Lemma reports_dir_of_value (output_dir : option string) (cwd : string) :
  reports_dir_of output_dir cwd =
  (let base :=
     match output_dir with
     | Some d => if String.eqb d EmptyString then cwd else d
     | None => cwd
     end in
   base ++
   (if (String.eqb base EmptyString || ends_with_slash base)%bool
    then EmptyString else "/") ++ "analysis_reports")%string.
Proof.
  unfold reports_dir_of, path_join.
  change (String.prefix "/" "analysis_reports") with false. cbv iota zeta.
  destruct (String.eqb _ EmptyString || ends_with_slash _)%bool; reflexivity.
Qed.

Lemma reports_dir_of_joins (output_dir : option string) (cwd : string) :
  (String.eqb (reports_dir_of output_dir cwd) EmptyString ||
   ends_with_slash (reports_dir_of output_dir cwd))%bool = false.
Proof.
  rewrite reports_dir_of_value. cbv zeta.
  match goal with
  | |- context [(?b ++ ?sep ++ "analysis_reports")%string] =>
      replace (b ++ sep ++ "analysis_reports")%string
        with ((b ++ sep ++ "analysis_report") ++ "s")%string
        by (rewrite !append_assoc; reflexivity)
  end.
  rewrite snoc_not_empty, ends_with_slash_snoc. reflexivity.
Qed.

(** X12: a composer built by [__init__] keeps its reports in
    [analysis_reports] under [output_dir], or under the current directory
    when [output_dir] is omitted or empty, with one slash between the two
    unless that directory is empty or ends with one; for a base name that
    does not start with a slash, the file of a format is then
    [{reports_dir}/{base_name}_{timestamp}.{ext}]. *)
Theorem X12_layout_of_report_files (rt : PyRuntime)
  (output_dir : option string) (cwd : string) (now : datetime)
  (apk_name : pyval) (k : string) :
  String.prefix "/" (py_str apk_name) = false ->
  let base :=
    match output_dir with
    | Some d => if String.eqb d EmptyString then cwd else d
    | None => cwd
    end in
  (base = EmptyString \/ (exists b, base = (b ++ "/")%string) ->
   reports_dir_of output_dir cwd = (base ++ "analysis_reports")%string) /\
  (base <> EmptyString -> (forall b, base <> (b ++ "/")%string) ->
   reports_dir_of output_dir cwd = (base ++ "/analysis_reports")%string) /\
  report_path (reports_dir_of output_dir cwd) now apk_name k =
    (reports_dir_of output_dir cwd ++ "/" ++ py_str apk_name ++ "_" ++
     strftime_compact now ++ "." ++ k)%string.
Proof.
  intros Hrel base.
  pose proof (reports_dir_of_value output_dir cwd) as Hv.
  cbv zeta in Hv. fold base in Hv.
  pose proof (joins_bare base) as Hj.
  split; [|split].
  - intros Hb. apply Hj in Hb. rewrite Hb in Hv. exact Hv.
  - intros Hne Hns.
    destruct (String.eqb base EmptyString || ends_with_slash base)%bool
      eqn:E; [|exact Hv].
    exfalso. destruct (proj1 Hj eq_refl) as [He|[b Hb]];
      [exact (Hne He)|exact (Hns b Hb)].
  - destruct (report_path_cases (reports_dir_of output_dir cwd) now apk_name k)
      as [_ H].
    rewrite (H Hrel), reports_dir_of_joins. reflexivity.
Qed.

Lemma X12_layout_of_report_files_witness :
  reports_dir_of (Some "out") "/home/user" = "out/analysis_reports" /\
  reports_dir_of (Some EmptyString) "/home/user" =
    "/home/user/analysis_reports" /\
  reports_dir_of None "/home/user/" = "/home/user/analysis_reports" /\
  report_path (rt := ascii_runtime) (reports_dir_of (Some "out") "/home/user")
    sample_now (PStr "CleanApp") "txt" =
    "out/analysis_reports/CleanApp_20240307_090501.txt".
Proof.
  split; [|split; [|split]].
  - apply (proj1 (proj2 (X12_layout_of_report_files ascii_runtime (Some "out")
                           "/home/user" sample_now (PStr "CleanApp") "txt"
                           eq_refl))).
    + discriminate.
    + intros b Hb.
      pose proof (ends_with_slash_snoc b "/") as H.
      change (b ++ String "/" EmptyString)%string with (b ++ "/")%string in H.
      rewrite <- Hb in H. vm_compute in H. discriminate H.
  - apply (proj1 (proj2 (X12_layout_of_report_files ascii_runtime
                           (Some EmptyString) "/home/user" sample_now
                           (PStr "CleanApp") "txt" eq_refl))).
    + discriminate.
    + intros b Hb.
      pose proof (ends_with_slash_snoc b "/") as H.
      change (b ++ String "/" EmptyString)%string with (b ++ "/")%string in H.
      rewrite <- Hb in H. vm_compute in H. discriminate H.
  - apply (proj1 (X12_layout_of_report_files ascii_runtime None "/home/user/"
                    sample_now (PStr "CleanApp") "txt" eq_refl)).
    right. exists "/home/user". reflexivity.
  - apply (proj2 (proj2 (X12_layout_of_report_files ascii_runtime (Some "out")
                           "/home/user" sample_now (PStr "CleanApp") "txt"
                           eq_refl))).
Defined.

(* ===================================================================== *)
(** ** The quick tier and its metrics *)
(* ===================================================================== *)

Lemma record_level_label (level : string) (m : metrics) :
  record_level level m = record_apk_detection (detection_label level) m.
Proof.
  unfold record_level, detection_label.
  destruct (String.eqb level level_high); [reflexivity|].
  destruct (String.eqb level level_medium); reflexivity.
Qed.

Lemma detection_label_cases (level : string) :
  In (detection_label level) ["high"; "medium"; "low"].
Proof.
  unfold detection_label.
  destruct (String.eqb level level_high); [left; reflexivity|].
  destruct (String.eqb level level_medium);
    [right; left; reflexivity | right; right; left; reflexivity].
Qed.

(** X13: a call of [determine_maliciousness] with the metrics available
    overwrites the gauge with the number of table entries that some
    permission contains and adds one to the counter of exactly one of the
    labels [high], [medium], [low], the one of the returned level; every
    other counter keeps its value.  Without the metrics nothing changes. *)
Theorem X13_quick_tier_metrics (rt : PyRuntime) (PROMETHEUS_AVAILABLE : bool)
  (name : string) (permissions : option (list string)) (m : metrics) :
  exists level color m',
    determine_maliciousness PROMETHEUS_AVAILABLE (PStr name)
      (perm_arg permissions) m = Ok ((level, color), m') /\
    In (detection_label level) ["high"; "medium"; "low"] /\
    (PROMETHEUS_AVAILABLE = false -> m' = m) /\
    (PROMETHEUS_AVAILABLE = true ->
     DANGEROUS_PERMISSIONS_COUNT m' =
       present_entries DANGEROUS_PERMISSIONS (perm_list permissions) /\
     forall label,
       APK_DETECTION_COUNT m' label =
       APK_DETECTION_COUNT m label +
       (if String.eqb label (detection_label level) then 1 else 0)).
Proof.
  destruct (suspicion_tally_strs name permissions) as [tally [Hs _]].
  unfold determine_maliciousness. rewrite Hs. cbn [bind].
  destruct (quick_tier tally) as [level color].
  exists level, color. eexists. split; [reflexivity|].
  split; [apply detection_label_cases|].
  split; intros ->; [reflexivity|].
  rewrite record_level_label.
  unfold record_apk_detection, update_dangerous_permissions_count.
  cbn [DANGEROUS_PERMISSIONS_COUNT APK_DETECTION_COUNT].
  split; [reflexivity|].
  intros label. destruct (String.eqb label (detection_label level)); lia.
Qed.

Lemma filter_length_mono {A : Type} (f g : A -> bool) (l : list A) :
  (forall x, f x = true -> g x = true) ->
  (List.length (filter f l) <= List.length (filter g l))%nat.
Proof.
  intros H. induction l as [|x l IH]; cbn [filter]; [apply le_n|].
  destruct (f x) eqn:Ef.
  - rewrite (H x Ef). cbn [List.length]. lia.
  - destruct (g x); cbn [List.length]; lia.
Qed.

Lemma present_entries_mono {rt : PyRuntime} (table perms more : list string) :
  present_entries table perms <= present_entries table (perms ++ more).
Proof.
  unfold present_entries. apply Nat2Z.inj_le. apply filter_length_mono.
  intros d H. rewrite existsb_app, H. reflexivity.
Qed.

Lemma Qle_bool_mono (c t t' : Q) :
  (t <= t')%Q -> Qle_bool c t = true -> Qle_bool c t' = true.
Proof.
  intros H H1. apply Qle_bool_iff. apply Qle_trans with (y := t); [|exact H].
  apply Qle_bool_iff. exact H1.
Qed.

Lemma quick_tier_mono (t t' : Q) :
  (t <= t')%Q ->
  (level_rank (fst (quick_tier t)) <= level_rank (fst (quick_tier t')))%nat.
Proof.
  intros H. unfold quick_tier.
  destruct (Qle_bool 2 t) eqn:E2.
  - rewrite (Qle_bool_mono 2 t t' H E2). apply le_n.
  - destruct (Qle_bool 1 t) eqn:E1.
    + destruct (Qle_bool 2 t'); cbn [fst].
      * vm_compute. lia.
      * rewrite (Qle_bool_mono 1 t t' H E1). apply le_n.
    + cbn [fst]. replace (level_rank level_low) with 0%nat
        by (vm_compute; reflexivity).
      apply Nat.le_0_l.
Qed.

(** X14: for [determine_maliciousness], omitting the permissions and
    passing the empty list give the same answer, and further permissions
    never lower the level: "низкая" below "средняя" below "высокая". *)
Theorem X14_quick_tier_monotone (rt : PyRuntime) (PROMETHEUS_AVAILABLE : bool)
  (name : string) (perms more : list string) (m : metrics) :
  determine_maliciousness PROMETHEUS_AVAILABLE (PStr name) PNone m =
  determine_maliciousness PROMETHEUS_AVAILABLE (PStr name) (str_list []) m /\
  exists level color m1 level' color' m2,
    determine_maliciousness PROMETHEUS_AVAILABLE (PStr name)
      (str_list perms) m = Ok ((level, color), m1) /\
    determine_maliciousness PROMETHEUS_AVAILABLE (PStr name)
      (str_list (perms ++ more)) m = Ok ((level', color'), m2) /\
    (level_rank level <= level_rank level')%nat.
Proof.
  split; [reflexivity|].
  destruct (suspicion_tally_strs name (Some perms)) as [t [Hs Ht]].
  destruct (suspicion_tally_strs name (Some (perms ++ more)))
    as [t' [Hs' Ht']].
  cbn [perm_arg perm_list] in Hs, Ht, Hs', Ht'.
  assert (Hle : (t <= t')%Q).
  { rewrite Ht, Ht'.
    pose proof (present_entries_mono DANGEROUS_PERMISSIONS perms more) as Hp.
    apply Qplus_le_r. apply Qmult_le_compat_r; [|discriminate].
    rewrite <- Zle_Qle. exact Hp. }
  pose proof (quick_tier_mono t t' Hle) as Hrank.
  unfold determine_maliciousness. rewrite Hs, Hs'. cbn [bind].
  destruct (quick_tier t) as [level color].
  destruct (quick_tier t') as [level' color'].
  eexists level, color, _, level', color', _.
  split; [reflexivity|]. split; [reflexivity|]. exact Hrank.
Qed.

(* ===================================================================== *)
(** ** From the package to its report *)
(* ===================================================================== *)

Lemma forallb_is_str_map (l : list string) :
  forallb is_str (map PStr l) = true.
Proof. induction l as [|x l IH]; [reflexivity|exact IH]. Qed.


Section AnalyzerFacts.

Context {rt : PyRuntime} {ag : Androguard}.

(** The report [analyze_single_apk] composes, from what [analyze_apk]
    answered. *)
Lemma pipeline_report (now stamp : datetime) (size : Z) (apk_path : string)
  (perms : list string) (intents : dict) :
  analyze_apk apk_path = (str_list perms, PDict intents) ->
  exists entry apk_info,
    process_apk apk_path = [entry] /\
    single_apk_info entry size stamp = Ok apk_info /\
    field2 (compose_report now apk_info entry) "metadata" "apk_name" =
      Some (PStr (basename apk_path)) /\
    field2 (compose_report now apk_info entry) "metadata" "apk_path" =
      Some (PStr apk_path) /\
    field2 (compose_report now apk_info entry) "permissions" "total" =
      Some (PInt (Z.of_nat (List.length perms))) /\
    field2 (compose_report now apk_info entry) "permissions" "dangerous" =
      Some (str_list (filter is_dangerous perms)) /\
    field (compose_report now apk_info entry) "intents" =
      Some (PDict intents) /\
    field2 (compose_report now apk_info entry)
      "security_assessment" "risk_level" =
      Some (PStr (tier_spec (score_spec (basename apk_path) perms)
                    (dangerous_count_of perms))) /\
    field2 (compose_report now apk_info entry)
      "security_assessment" "suspicious_score" =
      Some (PInt (score_spec (basename apk_path) perms)) /\
    field2 (compose_report now apk_info entry)
      "security_assessment" "warnings" =
      Some (PList (map PStr (warnings_spec (basename apk_path) perms))) /\
    field (compose_report now apk_info entry) "recommendations" =
      Some (PList
              (map PStr
                 (recommendations_spec
                    (String.eqb
                       (tier_spec (score_spec (basename apk_path) perms)
                          (dangerous_count_of perms))
                       risk_high)
                    (dangerous_count_of perms)
                    (Z.of_nat (List.length perms))))).
Proof.
  intros Ha.
  set (entry := [("APK", PStr (basename apk_path));
                 ("Path", PStr apk_path);
                 ("Permissions", str_list perms);
                 ("Intents", PDict intents)]).
  set (apk_info := [("name", PStr (basename apk_path));
                    ("path", PStr apk_path);
                    ("size", PInt size);
                    ("last_modified", PStr (strftime_long stamp))]).
  exists entry, apk_info.
  split; [unfold process_apk; rewrite Ha; reflexivity|].
  split; [reflexivity|].
  assert (Hn : name_is_str apk_info = true) by reflexivity.
  assert (Hp : permissions_are_strs entry = true)
    by (apply (forallb_is_str_map perms)).
  assert (Hi : intents_is_dict entry = true) by reflexivity.
  pose proof (compose_typed now apk_info entry Hn Hp Hi) as H.
  cbv zeta in H.
  change (name_of apk_info) with (basename apk_path) in H.
  change (permissions_of entry) with (strs_of (map PStr perms)) in H.
  rewrite strs_of_map in H.
  destruct H as [report [activities
                   [Htry [Hmeta [Hperm [Hint [Hsa [Hrec _]]]]]]]].
  unfold compose_report. rewrite Htry.
  unfold field2. rewrite Hmeta, Hperm, Hsa.
  repeat split; try reflexivity; assumption.
Qed.

End AnalyzerFacts.

(** X15: when androguard opens the package and lists permissions that are
    strings, the report [analyze_single_apk] composes is named after the
    base name of the path, counts the listed permissions, and takes its
    score and its risk level from that base name and those permissions. *)
Theorem X15_report_of_an_extracted_package (rt : PyRuntime) (ag : Androguard)
  (now stamp : datetime) (size : Z) (apk_path : string)
  (perms : list string) (intents : dict) :
  ANDROGUARD_AVAILABLE = true ->
  analyze_apk_try apk_path = Ok (str_list perms, PDict intents) ->
  exists entry apk_info,
    process_apk apk_path = [entry] /\
    single_apk_info entry size stamp = Ok apk_info /\
    field2 (compose_report now apk_info entry) "metadata" "apk_name" =
      Some (PStr (basename apk_path)) /\
    field2 (compose_report now apk_info entry) "permissions" "total" =
      Some (PInt (Z.of_nat (List.length perms))) /\
    field2 (compose_report now apk_info entry) "permissions" "dangerous" =
      Some (str_list (filter is_dangerous perms)) /\
    field (compose_report now apk_info entry) "intents" =
      Some (PDict intents) /\
    field2 (compose_report now apk_info entry)
      "security_assessment" "suspicious_score" =
      Some (PInt (score_spec (basename apk_path) perms)) /\
    field2 (compose_report now apk_info entry)
      "security_assessment" "risk_level" =
      Some (PStr (tier_spec (score_spec (basename apk_path) perms)
                    (dangerous_count_of perms))).
Proof.
  intros Hav Htry.
  assert (Ha : analyze_apk apk_path = (str_list perms, PDict intents)).
  { unfold analyze_apk. rewrite Hav, Htry. reflexivity. }
  destruct (pipeline_report now stamp size apk_path perms intents Ha)
    as [entry [apk_info [He [Hinfo [Hname [_ [Htotal [Hd [Hint
         [Hlevel [Hscore _]]]]]]]]]]].
  exists entry, apk_info. repeat split; assumption.
Qed.

Lemma X15_report_of_an_extracted_package_witness :
  exists entry apk_info,
    process_apk (ag := sample_androguard) "/sdcard/Download/CleanApp.apk" =
      [entry] /\
    single_apk_info entry 1024000 sample_now = Ok apk_info /\
    field2 (compose_report (rt := ascii_runtime) sample_now apk_info entry)
      "metadata" "apk_name" = Some (PStr "CleanApp.apk") /\
    field2 (compose_report (rt := ascii_runtime) sample_now apk_info entry)
      "permissions" "total" = Some (PInt 2) /\
    field2 (compose_report (rt := ascii_runtime) sample_now apk_info entry)
      "security_assessment" "risk_level" = Some (PStr risk_medium).
Proof.
  destruct (X15_report_of_an_extracted_package ascii_runtime sample_androguard
              sample_now sample_now 1024000 "/sdcard/Download/CleanApp.apk"
              sample_permissions
              [("com.example.MainActivity",
                PDict [("actions", PList []); ("categories", PList []);
                       ("data", PList [])])]
              eq_refl eq_refl)
    as [entry [apk_info [He [Hinfo [Hname [Htotal [_ [_ [_ Hlevel]]]]]]]]].
  exists entry, apk_info. repeat split; assumption.
Defined.


